(** * Active-Learning: tensors, the ranking loss, the uncertainty network
      and the sampling strategy

    A shallow embedding of [src/task/graph/loss.py], [src/query/graph/vae.py],
    [src/query/strategy.py] and the loop of [src/main.py].  Tensors are flat
    row-major data with a shape,
    as the tensor library stores them; their entries are exact rationals
    extended with the two infinities and not-a-number, so that the divisions
    the code performs are total as they are in the library (rounding,
    overflow to an infinity and signed zeros are abstracted, so results are
    bounded by [fl_nonneg] and the like, which an overflow satisfies too,
    rather than said to be numbers). Python exceptions are the [Raise]
    results of an error monad. *)

From Stdlib Require Import ZArith QArith Qminmax Qpower List Bool Ascii String
  Lia Lqa.
From stdpp Require Import base option list gmap strings pretty.

Local Open Scope nat_scope.

(** ** Python exceptions *)

Inductive exn : Type :=
| TypeError | ValueError | IndexError | KeyError
| RuntimeError | ZeroDivisionError | OSError.

Inductive result (A : Type) : Type :=
| Ok (a : A)
| Raise (e : exn).
Arguments Ok {A} a.
Arguments Raise {A} e.

#[global] Instance result_ret : MRet result := fun _ a => Ok a.
#[global] Instance result_bind : MBind result := fun _ _ f m =>
  match m with
  | Ok a => f a
  | Raise e => Raise e
  end.

(** ** Scalars *)

Inductive fl : Type :=
| Fin (q : Q)
| PInf
| NInf
| NaN.

Definition fl_neg (x : fl) : fl :=
  match x with
  | Fin a => Fin (- a)
  | PInf => NInf
  | NInf => PInf
  | NaN => NaN
  end.

Definition fl_add (x y : fl) : fl :=
  match x, y with
  | NaN, _ | _, NaN => NaN
  | Fin a, Fin b => Fin (a + b)
  | PInf, NInf | NInf, PInf => NaN
  | PInf, _ | _, PInf => PInf
  | NInf, _ | _, NInf => NInf
  end.

Definition fl_sub (x y : fl) : fl := fl_add x (fl_neg y).

(** [signed c x] is [x], its negation or not-a-number, as [c] says the other
    factor is positive, negative or zero. *)
Definition signed (c : comparison) (x : fl) : fl :=
  match c with
  | Gt => x
  | Lt => fl_neg x
  | Eq => NaN
  end.

Definition fl_mul (x y : fl) : fl :=
  match x, y with
  | NaN, _ | _, NaN => NaN
  | Fin a, Fin b => Fin (a * b)
  | Fin a, inf => signed (a ?= 0)%Q inf
  | inf, Fin b => signed (b ?= 0)%Q inf
  | PInf, PInf | NInf, NInf => PInf
  | PInf, NInf | NInf, PInf => NInf
  end.

Definition fl_div (x y : fl) : fl :=
  match x, y with
  | NaN, _ | _, NaN => NaN
  | Fin a, Fin b =>
      if Qeq_bool b 0 then signed (a ?= 0)%Q PInf else Fin (a / b)
  | Fin _, _ => Fin 0
  | inf, Fin b =>
      match (b ?= 0)%Q with
      | Lt => fl_neg inf
      | _ => inf
      end
  | _, _ => NaN
  end.

(** [torch.clamp(x, min=m)] on one entry. *)
Definition fl_clamp_min (m : Q) (x : fl) : fl :=
  match x with
  | Fin a => Fin (match (a ?= m)%Q with Lt => m | _ => a end)
  | PInf => PInf
  | NInf => Fin m
  | NaN => NaN
  end.

(** [torch.sign] on one entry: [(0 < x) - (x < 0)]. *)
Definition fl_sign (x : fl) : fl :=
  match x with
  | Fin a => Fin (match (a ?= 0)%Q with Gt => 1 | Eq => 0 | Lt => -1 end)
  | PInf => Fin 1
  | NInf => Fin (-1)
  | NaN => Fin 0
  end.

Definition fl_abs (x : fl) : fl :=
  match x with
  | Fin a => Fin (match (a ?= 0)%Q with Lt => - a | _ => a end)
  | PInf | NInf => PInf
  | NaN => NaN
  end.

(** Equality of scalars as numbers. *)
Definition fl_eq (x y : fl) : Prop :=
  match x, y with
  | Fin a, Fin b => (a == b)%Q
  | PInf, PInf | NInf, NInf | NaN, NaN => True
  | _, _ => False
  end.

Definition fl_of_nat (n : nat) : fl := Fin (inject_Z (Z.of_nat n)).

(** ** Tensors *)

Record tensor : Type := mkTensor {
  shape : list nat;
  data : list fl;
  requires_grad : bool
}.

Definition numel (s : list nat) : nat := foldr Nat.mul 1 s.

Definition tensor_wf (t : tensor) : Prop := length (data t) = numel (shape t).

(** A one-dimensional tensor of reals. *)
Definition vec (l : list Q) (rg : bool) : tensor :=
  mkTensor [length l] (Fin <$> l) rg.

(** A zero-dimensional tensor. *)
Definition scalar (v : fl) (rg : bool) : tensor := mkTensor [] [v] rg.

Definition zeros (s : list nat) (rg : bool) : tensor :=
  mkTensor s (replicate (numel s) (Fin 0)) rg.


(** A tensor whose entries are all zero, whatever its shape says. *)
Definition all_zero (t : tensor) : Prop :=
  exists n, data t = replicate n (Fin 0).

Definition tmap (f : fl -> fl) (t : tensor) : tensor :=
  mkTensor (shape t) (f <$> data t) (requires_grad t).

(** *** Broadcasting *)

(** Shapes are aligned from the trailing dimension; the arguments here are
    the reversed shapes. *)
Fixpoint broadcast_rev (a b : list nat) : option (list nat) :=
  match a, b with
  | [], _ => Some b
  | _, [] => Some a
  | x :: a', y :: b' =>
      if x =? y then cons x <$> broadcast_rev a' b'
      else if x =? 1 then cons y <$> broadcast_rev a' b'
      else if y =? 1 then cons x <$> broadcast_rev a' b'
      else None
  end.

Definition broadcast_shapes (a b : list nat) : option (list nat) :=
  reverse <$> broadcast_rev (reverse a) (reverse b).

(** Multi-index of flat position [i], least significant dimension first. *)
Fixpoint unravel_rev (srev : list nat) (i : nat) : list nat :=
  match srev with
  | [] => []
  | d :: r => (i mod d) :: unravel_rev r (i / d)
  end.

(** Flat position of a multi-index in a tensor of (reversed) shape [srev];
    a dimension of size one is read at index zero whatever the index. *)
Fixpoint ravel_rev (srev idx : list nat) : nat :=
  match srev, idx with
  | d :: r, k :: ks => (if d =? 1 then 0 else k) + d * ravel_rev r ks
  | _, _ => 0
  end.

(** The entries of [t] as seen through the broadcast shape [s]. *)
Definition expand (t : tensor) (s : list nat) : list fl :=
  if decide (shape t = s) then data t
  else (fun i => nth (ravel_rev (reverse (shape t))
                        (unravel_rev (reverse s) i)) (data t) (Fin 0))
       <$> seq 0 (numel s).

Definition binop (f : fl -> fl -> fl) (a b : tensor) : result tensor :=
  match broadcast_shapes (shape a) (shape b) with
  | Some s => Ok (mkTensor s (zip_with f (expand a s) (expand b s))
                    (requires_grad a || requires_grad b))
  | None => Raise RuntimeError
  end.

(** *** Indexing along the first dimension *)

(** [len(t)] *)
Definition py_len (t : tensor) : result nat :=
  match shape t with
  | [] => Raise TypeError
  | n :: _ => Ok n
  end.

(** [t.size(0)] *)
Definition size0 (t : tensor) : result nat :=
  match shape t with
  | [] => Raise IndexError
  | n :: _ => Ok n
  end.

(** [t.flip(0)]: the blocks along the first dimension in reverse order. *)
Definition flip0 (t : tensor) : tensor :=
  match shape t with
  | [] => t
  | n :: rest =>
      let c := numel rest in
      mkTensor (shape t)
        ((fun i => nth ((n - 1 - i / c) * c + i mod c) (data t) (Fin 0))
           <$> seq 0 (n * c))
        (requires_grad t)
  end.

(** [t[:k]] for [k >= 0]. *)
Definition slice0 (t : tensor) (k : nat) : result tensor :=
  match shape t with
  | [] => Raise IndexError
  | n :: rest =>
      Ok (mkTensor (Nat.min k n :: rest)
            (take (Nat.min k n * numel rest) (data t)) (requires_grad t))
  end.

(** [t.detach()]: the same values, cut from the gradient graph. *)
Definition detach (t : tensor) : tensor :=
  mkTensor (shape t) (data t) false.

Definition fl_sum (l : list fl) : fl := foldl fl_add (Fin 0) l.

(** [torch.sum(t)] *)
Definition tsum (t : tensor) : tensor :=
  scalar (fl_sum (data t)) (requires_grad t).

(** [torch.mean(t)] *)
Definition tmean (t : tensor) : tensor :=
  scalar (fl_div (fl_sum (data t)) (fl_of_nat (length (data t))))
    (requires_grad t).

(** ** [src/task/graph/loss.py]: RankingLoss *)

Module RankingLoss.

(** [(x - x.flip(0))[:len(x)//2]] *)
Definition half_diff (x : tensor) : result tensor :=
  d ← binop fl_sub x (flip0 x);
  n ← py_len x;
  slice0 d (n / 2).

(** [2 * torch.sign(torch.clamp(target_loss, min=0)) - 1] *)
Definition one_of (target_loss : tensor) : tensor :=
  tmap (fun v => fl_sub v (Fin 1))
    (tmap (fl_mul (Fin 2)) (tmap fl_sign (tmap (fl_clamp_min 0) target_loss))).

Definition forward (pred_loss target_loss : tensor) : result tensor :=
  pred_loss ← half_diff pred_loss;
  target_loss ← half_diff target_loss;
  let target_loss := detach target_loss in
  let one := one_of target_loss in
  m ← binop fl_mul one pred_loss;
  let loss := tsum (tmap (fl_clamp_min 0) (tmap (fl_sub (Fin 1)) m)) in
  n ← size0 pred_loss;
  Ok (tmap (fun v => fl_div v (fl_of_nat n)) loss).

End RankingLoss.

(** The ranking loss as the specification words it: pair [i] with
    [N-1-i], sign of the target difference, hinge on the predicted
    difference, sum over the pairs, divide by the number of pairs. *)
Module RankingSpec.

Definition pair_sign (t : list Q) (i : nat) : Q :=
  if Qlt_le_dec 0 (nth i t 0 - nth (length t - 1 - i) t 0)%Q
  then 1%Q else (-1)%Q.

Definition pair_term (p t : list Q) (i : nat) : Q :=
  Qmax 0 (1 - pair_sign t i * (nth i p 0 - nth (length p - 1 - i) p 0))%Q.

Definition pair_sum (p t : list Q) : Q :=
  foldl Qplus 0%Q (pair_term p t <$> seq 0 (length p / 2)).

(** [(1 / (N/2)) · Σ] *)
Definition loss (p t : list Q) : fl :=
  fl_mul (fl_div (Fin 1) (fl_of_nat (length p / 2))) (Fin (pair_sum p t)).

End RankingSpec.

(** The sign and the hinge term of pair [i] with the comparisons the code
    makes: [2 * sign(clamp(d, min=0)) - 1] is 1 for a positive difference [d]
    and -1 otherwise, and [clamp(x, min=0)] is 0 for a negative [x]. *)
Definition code_sign (t : list Q) (i : nat) : Q :=
  match (nth i t 0 - nth (length t - 1 - i) t 0 ?= 0)%Q with
  | Gt => 1
  | _ => -1
  end%Q.

Definition code_term (p t : list Q) (i : nat) : Q :=
  let x := (1 - code_sign t i * (nth i p 0 - nth (length p - 1 - i) p 0))%Q in
  match (x ?= 0)%Q with Lt => 0%Q | _ => x end.


(** ** [torch.nn] layers used by the uncertainty network *)

(** [F.relu], and what [nn.ReLU(True)] leaves in its argument. *)
Definition relu (x : tensor) : tensor := tmap (fl_clamp_min 0) x.

(** Entry [(b, c, h, w)] of a four-dimensional tensor with [C] channels of
    [H] by [W]; positions outside the image read as the zero padding. *)
Definition at4 (x : tensor) (C H W b c : nat) (h w : Z) : fl :=
  if ((0 <=? h) && (h <? Z.of_nat H) && (0 <=? w) && (w <? Z.of_nat W))%Z
  then nth (((b * C + c) * H + Z.to_nat h) * W + Z.to_nat w) (data x) (Fin 0)
  else Fin 0.

(** A parameter initialiser: the tensor a layer draws for its [i]-th
    parameter of a given shape. *)
Definition initializer : Type := nat -> list nat -> tensor.

Definition bias_entry (bias : option tensor) (c : nat) : fl :=
  match bias with
  | Some b => nth c (data b) (Fin 0)
  | None => Fin 0
  end.

Definition bias_grad (bias : option tensor) : bool :=
  match bias with
  | Some b => requires_grad b
  | None => false
  end.

Module Conv2d.

Record t : Type := mk {
  in_channels : nat;
  out_channels : nat;
  kernel_size : nat;
  stride : nat;
  padding : nat;
  weight : tensor;          (* [out_channels; in_channels; k; k] *)
  bias : option tensor      (* [out_channels] *)
}.

(** [nn.Conv2d(in_channels, out_channels, kernel_size, stride, padding,
    bias)]; the parameters are numbered [base], [base + 1]. *)
Definition init (rng : initializer) (base : nat)
    (in_channels out_channels kernel_size stride padding : nat)
    (has_bias : bool) : t :=
  mk in_channels out_channels kernel_size stride padding
     (rng base [out_channels; in_channels; kernel_size; kernel_size])
     (if has_bias then Some (rng (base + 1) [out_channels]) else None).

Definition out_size (m : t) (n : nat) : nat :=
  (n + 2 * padding m - kernel_size m) / stride m + 1.

Definition entry (m : t) (x : tensor) (C H W b co i j : nat) : fl :=
  fl_add (bias_entry (bias m) co)
    (fl_sum (ci ← seq 0 C; di ← seq 0 (kernel_size m); dj ← seq 0 (kernel_size m);
       [fl_mul
          (nth (((co * in_channels m + ci) * kernel_size m + di)
                  * kernel_size m + dj) (data (weight m)) (Fin 0))
          (at4 x C H W b ci
             (Z.of_nat (i * stride m + di) - Z.of_nat (padding m))
             (Z.of_nat (j * stride m + dj) - Z.of_nat (padding m)))])).

(** The layer on [B] images of [C] channels of [H] by [W]; [lead] is
    [[B]] for a batch and empty for a single image. The library refuses a
    layer without output channels, a number of channels that is not the
    layer's, images without channels (unless the batch is empty) and a kernel
    larger than the padded image. *)
Definition conv (m : t) (x : tensor) (lead : list nat) (B C H W : nat)
  : result tensor :=
  if out_channels m =? 0 then Raise RuntimeError
  else if negb (C =? in_channels m) then Raise RuntimeError
  else if (C =? 0) && negb (B =? 0) then Raise RuntimeError
  else if (H + 2 * padding m <? kernel_size m)
          || (W + 2 * padding m <? kernel_size m) then Raise RuntimeError
  else
    Ok (mkTensor (lead ++ [out_channels m; out_size m H; out_size m W])
          (b ← seq 0 B; co ← seq 0 (out_channels m);
           i ← seq 0 (out_size m H); j ← seq 0 (out_size m W);
           [entry m x C H W b co i j])
          (requires_grad x || requires_grad (weight m) || bias_grad (bias m))).

(** The input is a batch [[B; C; H; W]] or a single image [[C; H; W]]. *)
Definition forward (m : t) (x : tensor) : result tensor :=
  match shape x with
  | [B; C; H; W] => conv m x [B] B C H W
  | [C; H; W] => conv m x [] 1 C H W
  | _ => Raise RuntimeError
  end.

End Conv2d.

Module ConvTranspose2d.

Record t : Type := mk {
  in_channels : nat;
  out_channels : nat;
  kernel_size : nat;
  stride : nat;
  padding : nat;
  weight : tensor;          (* [in_channels; out_channels; k; k] *)
  bias : option tensor
}.

Definition init (rng : initializer) (base : nat)
    (in_channels out_channels kernel_size stride padding : nat) : t :=
  mk in_channels out_channels kernel_size stride padding
     (rng base [in_channels; out_channels; kernel_size; kernel_size])
     (Some (rng (base + 1) [out_channels])).

Definition out_size (m : t) (n : nat) : nat :=
  (n - 1) * stride m + kernel_size m - 2 * padding m.

(** Input position [i] feeds output position [y] through kernel index
    [y + padding - i * stride], when that is a kernel index. *)
Definition tap (m : t) (y i : nat) : option nat :=
  if (i * stride m <=? y + padding m)
     && (y + padding m - i * stride m <? kernel_size m)
  then Some (y + padding m - i * stride m) else None.

Definition entry (m : t) (x : tensor) (C H W b co y z : nat) : fl :=
  fl_add (bias_entry (bias m) co)
    (fl_sum (ci ← seq 0 C; i ← seq 0 H; j ← seq 0 W;
       match tap m y i, tap m z j with
       | Some di, Some dj =>
           [fl_mul (at4 x C H W b ci (Z.of_nat i) (Z.of_nat j))
              (nth (((ci * out_channels m + co) * kernel_size m + di)
                      * kernel_size m + dj) (data (weight m)) (Fin 0))]
       | _, _ => []
       end)).

(** The layer on [B] maps of [C] channels of [H] by [W]; [lead] is [[B]]
    for a batch and empty for a single map. The library refuses a layer
    without input or output channels (its weight is empty), a number of
    channels that is not the layer's, and an empty input or output map. *)
Definition conv (m : t) (x : tensor) (lead : list nat) (B C H W : nat)
  : result tensor :=
  if (in_channels m =? 0) || (out_channels m =? 0) then Raise RuntimeError
  else if negb (C =? in_channels m) then Raise RuntimeError
  else if (out_size m H =? 0) || (out_size m W =? 0) || (H =? 0) || (W =? 0)
  then Raise RuntimeError
  else
    Ok (mkTensor (lead ++ [out_channels m; out_size m H; out_size m W])
          (b ← seq 0 B; co ← seq 0 (out_channels m);
           y ← seq 0 (out_size m H); z ← seq 0 (out_size m W);
           [entry m x C H W b co y z])
          (requires_grad x || requires_grad (weight m) || bias_grad (bias m))).

(** The input is a batch [[B; C; H; W]] or a single map [[C; H; W]]. *)
Definition forward (m : t) (x : tensor) : result tensor :=
  match shape x with
  | [B; C; H; W] => conv m x [B] B C H W
  | [C; H; W] => conv m x [] 1 C H W
  | _ => Raise RuntimeError
  end.

End ConvTranspose2d.

Module Linear.

Record t : Type := mk {
  in_features : nat;
  out_features : nat;
  weight : tensor;          (* [out_features; in_features] *)
  bias : tensor             (* [out_features] *)
}.

Definition init (rng : initializer) (base : nat)
    (in_features out_features : nat) : t :=
  mk in_features out_features
     (rng base [out_features; in_features]) (rng (base + 1) [out_features]).

Definition entry (m : t) (x : tensor) (r o : nat) : fl :=
  fl_add (nth o (data (bias m)) (Fin 0))
    (fl_sum ((fun i =>
       fl_mul (nth (r * in_features m + i) (data x) (Fin 0))
              (nth (o * in_features m + i) (data (weight m)) (Fin 0)))
       <$> seq 0 (in_features m))).

(** The layer acts on the last dimension, which must be [in_features]. *)
Definition forward (m : t) (x : tensor) : result tensor :=
  match reverse (shape x) with
  | [] => Raise RuntimeError
  | d :: lead =>
      if d =? in_features m then
        Ok (mkTensor (reverse (out_features m :: lead))
              (r ← seq 0 (numel lead); o ← seq 0 (out_features m);
               [entry m x r o])
              (requires_grad x || requires_grad (weight m)
               || requires_grad (bias m)))
      else Raise RuntimeError
  end.

End Linear.

(** ** [src/query/graph/vae.py] *)

Module Residual.

(** [_block]: ReLU(True), Conv2d 3x3, ReLU(True), Conv2d 1x1. *)
Record t : Type := mk {
  _block_1 : Conv2d.t;
  _block_3 : Conv2d.t
}.

Definition init (rng : initializer) (base : nat)
    (in_channels num_hiddens num_residual_hiddens : nat) : t :=
  mk (Conv2d.init rng base in_channels num_residual_hiddens 3 1 1 false)
     (Conv2d.init rng (base + 1) num_residual_hiddens num_hiddens 1 1 0 false).

(** [self._block(x)]. The first layer is [nn.ReLU(True)]: it rectifies
    its argument in place, so the call also changes the caller's [x]. The
    result is the branch output together with the new contents of [x].
    [leaf] tells whether [x] is a leaf of the gradient graph (a tensor the
    caller made, not the result of an operation) in a call that records
    gradients (outside [torch.no_grad()]): there the library refuses to
    change in place a leaf that requires a gradient. *)
Definition _block (m : t) (leaf : bool) (x : tensor) : result (tensor * tensor) :=
  if leaf && requires_grad x then Raise RuntimeError
  else
    let x := relu x in
    h ← Conv2d.forward (_block_1 m) x;
    let h := relu h in
    o ← Conv2d.forward (_block_3 m) h;
    Ok (o, x).

(** [return x + self._block(x)]: the sum reads [x] after the call, that
    is the rectified input. The second component is what the argument
    tensor holds when [forward] returns. *)
Definition forward (m : t) (leaf : bool) (x : tensor) : result (tensor * tensor) :=
  '(o, x) ← _block m leaf x;
  r ← binop fl_add x o;
  Ok (r, x).

End Residual.

Module ResidualStack.

Record t : Type := mk {
  _num_residual_layers : nat;
  _layers : list Residual.t
}.

Definition init (rng : initializer) (base : nat)
    (in_channels num_hiddens num_residual_layers num_residual_hiddens : nat) : t :=
  mk num_residual_layers
     ((fun i => Residual.init rng (base + 2 * i)
                  in_channels num_hiddens num_residual_hiddens)
        <$> seq 0 num_residual_layers).

(** [for i in range(n): x = self._layers[i](x)]; after the first layer [x]
    is the sum a layer returned, which is no leaf. *)
Fixpoint loop (layers : list Residual.t) (i n : nat) (leaf : bool) (x : tensor)
  : result tensor :=
  match n with
  | 0 => Ok x
  | S n' =>
      match layers !! i with
      | None => Raise IndexError
      | Some layer =>
          '(y, _) ← Residual.forward layer leaf x;
          loop layers (S i) n' false y
      end
  end.

Definition forward (m : t) (leaf : bool) (x : tensor) : result tensor :=
  loop (_layers m) 0 (_num_residual_layers m) leaf x.

End ResidualStack.

Module Encoder.

Record t : Type := mk {
  _conv_1 : Conv2d.t;
  _conv_2 : Conv2d.t;
  _conv_3 : Conv2d.t;
  _residual_stack : ResidualStack.t
}.

Definition init (rng : initializer) (base : nat)
    (in_channels num_hiddens num_residual_layers num_residual_hiddens : nat) : t :=
  mk (Conv2d.init rng base in_channels (num_hiddens / 2) 4 2 1 true)
     (Conv2d.init rng (base + 2) (num_hiddens / 2) num_hiddens 4 2 1 true)
     (Conv2d.init rng (base + 4) num_hiddens num_hiddens 3 1 1 true)
     (ResidualStack.init rng (base + 6) num_hiddens num_hiddens
        num_residual_layers num_residual_hiddens).

Definition forward (m : t) (inputs : tensor) : result tensor :=
  x ← Conv2d.forward (_conv_1 m) inputs;
  let x := relu x in
  x ← Conv2d.forward (_conv_2 m) x;
  let x := relu x in
  x ← Conv2d.forward (_conv_3 m) x;
  ResidualStack.forward (_residual_stack m) false x.

End Encoder.

Module Decoder.

Record t : Type := mk {
  _conv_1 : Conv2d.t;
  _residual_stack : ResidualStack.t;
  _conv_trans_1 : ConvTranspose2d.t;
  _conv_trans_2 : ConvTranspose2d.t;
  _conv_trans_3 : ConvTranspose2d.t
}.

Definition init (rng : initializer) (base : nat)
    (in_channels num_hiddens num_residual_layers num_residual_hiddens : nat) : t :=
  let after := base + 2 + 2 * num_residual_layers in
  mk (Conv2d.init rng base in_channels num_hiddens 3 1 1 true)
     (ResidualStack.init rng (base + 2) num_hiddens num_hiddens
        num_residual_layers num_residual_hiddens)
     (ConvTranspose2d.init rng after num_hiddens (num_hiddens / 2) 4 2 1)
     (ConvTranspose2d.init rng (after + 2) (num_hiddens / 2) (num_hiddens / 4) 4 2 1)
     (ConvTranspose2d.init rng (after + 4) (num_hiddens / 4) 3 4 2 1).

Definition forward (m : t) (inputs : tensor) : result tensor :=
  x ← Conv2d.forward (_conv_1 m) inputs;
  x ← ResidualStack.forward (_residual_stack m) false x;
  x ← ConvTranspose2d.forward (_conv_trans_1 m) x;
  let x := relu x in
  x ← ConvTranspose2d.forward (_conv_trans_2 m) x;
  let x := relu x in
  ConvTranspose2d.forward (_conv_trans_3 m) x.

End Decoder.

(** *** Reshaping *)

(** Flat position of a multi-index, each index taken modulo the size of its
    dimension (the source of a tiled entry). *)
Fixpoint ravel_mod_rev (srev idx : list nat) : nat :=
  match srev, idx with
  | d :: r, k :: ks => k mod d + d * ravel_mod_rev r ks
  | _, _ => 0
  end.

(** [t.repeat(reps)] *)
Definition tensor_repeat (t : tensor) (reps : list nat) : result tensor :=
  if length reps <? length (shape t) then Raise RuntimeError
  else
    let s := replicate (length reps - length (shape t)) 1 ++ shape t in
    let s' := zip_with Nat.mul s reps in
    Ok (mkTensor s'
          ((fun i => nth (ravel_mod_rev (reverse s) (unravel_rev (reverse s') i))
                       (data t) (Fin 0)) <$> seq 0 (numel s'))
          (requires_grad t)).

(** [t.view([-1, c, w, h])] *)
Definition view4 (t : tensor) (c w h : nat) : result tensor :=
  let n := numel (shape t) in
  if (c * w * h =? 0) || negb (n mod (c * w * h) =? 0) then Raise RuntimeError
  else Ok (mkTensor [n / (c * w * h); c; w; h] (data t) (requires_grad t)).

(** [torch.cat([a, b], dim=1)] *)
Definition cat1 (a b : tensor) : result tensor :=
  match shape a, shape b with
  | n :: ca :: ra, n' :: cb :: rb =>
      if (n =? n') && bool_decide (ra = rb) then
        let la := ca * numel ra in
        let lb := cb * numel rb in
        Ok (mkTensor (n :: (ca + cb) :: ra)
              (i ← seq 0 n;
               take la (drop (i * la) (data a)) ++ take lb (drop (i * lb) (data b)))
              (requires_grad a || requires_grad b))
      else Raise RuntimeError
  | _, _ => Raise RuntimeError
  end.

(** Positional arguments of a constructor call. *)
Inductive pyarg : Type :=
| ArgInt (n : nat)
| ArgFloat (q : Q).

Module VAE.

(** The attributes of the network; [avg_pool] has no parameter and is not
    used by [forward]. *)
Record t : Type := mk {
  max_distance : pyarg;
  embedding_dim : nat;
  num_embeddings : nat;
  _encoder : Encoder.t;
  conv1 : Conv2d.t;
  fc_mu : Linear.t;
  fc_var : Linear.t;
  fc_z : Linear.t;
  fc_recover : Linear.t;
  _decoder : Decoder.t
}.

Definition init (rng : initializer)
    (num_hiddens num_residual_layers num_residual_hiddens
     num_embeddings embedding_dim : nat) (max_distance : pyarg) : t :=
  let n := 6 + 2 * num_residual_layers in
  mk max_distance embedding_dim num_embeddings
     (Encoder.init rng 0 3 num_hiddens num_residual_layers num_residual_hiddens)
     (Conv2d.init rng n num_hiddens num_hiddens 3 2 1 true)
     (Linear.init rng (n + 2) (num_hiddens * 16) num_hiddens)
     (Linear.init rng (n + 4) (num_hiddens * 16) num_hiddens)
     (Linear.init rng (n + 6) num_hiddens embedding_dim)
     (Linear.init rng (n + 8) num_hiddens (num_hiddens * 16))
     (Decoder.init rng (n + 10) (embedding_dim + num_hiddens) num_hiddens
        num_residual_layers num_residual_hiddens).

(** Calling the class [VAE]: [__init__] has six parameters besides [self]. *)
Definition new (rng : initializer) (args : list pyarg) : result t :=
  match args with
  | [ArgInt num_hiddens; ArgInt num_residual_layers; ArgInt num_residual_hiddens;
     ArgInt num_embeddings; ArgInt embedding_dim; max_distance] =>
      Ok (init rng num_hiddens num_residual_layers num_residual_hiddens
            num_embeddings embedding_dim max_distance)
  | _ => Raise TypeError
  end.

Section Forward.

(** The exponential and the standard-normal sampler of the tensor library. *)
Variable fl_exp : fl -> fl.
Variable randn_like : tensor -> tensor.

Definition reparameterize (mu logvar : tensor) : result tensor :=
  let std := tmap fl_exp (tmap (fl_mul (Fin (1 # 2))) logvar) in
  let eps := randn_like std in
  m ← binop fl_mul eps std;
  binop fl_add m mu.

Definition forward (m : t) (x : tensor)
  : result (tensor * tensor * tensor * tensor) :=
  encoder_out ← Encoder.forward (_encoder m) x;
  _x ← Conv2d.forward (conv1 m) encoder_out;
  mu ← Linear.forward (fc_mu m) encoder_out;
  logvar ← Linear.forward (fc_var m) encoder_out;
  z ← reparameterize mu logvar;
  _z ← Linear.forward (fc_z m) z;
  let code := tmap fl_sign _z in
  '(c, w, h) ← match shape _x with
               | [_; c; w; h] => Ok (c, w, h)
               | _ => Raise ValueError
               end;
  quantized ← tensor_repeat code [1; 1; w; h];
  r ← Linear.forward (fc_recover m) z;
  d_in ← view4 r c w h;
  decoder_in ← cat1 d_in quantized;
  x_recon ← Decoder.forward (_decoder m) decoder_in;
  Ok (x_recon, _z, mu, logvar).

(** Calling the module: [forward(self, x)] takes one positional argument and
    returns a tuple of four tensors. *)
Definition call (m : t) (args : list tensor) : result (list tensor) :=
  match args with
  | [x] =>
      '(x_recon, _z, mu, logvar) ← forward m x;
      Ok [x_recon; _z; mu; logvar]
  | _ => Raise TypeError
  end.

End Forward.

End VAE.

(** ** Python values used by the strategy *)

(** [a, b, c, d = r] and [a, b, c = r] on a returned tuple. *)
Definition unpack4 {A : Type} (r : list A) : result (A * A * A * A) :=
  match r with
  | [a; b; c; d] => Ok (a, b, c, d)
  | _ => Raise ValueError
  end.

Definition unpack3 {A : Type} (r : list A) : result (A * A * A) :=
  match r with
  | [a; b; c] => Ok (a, b, c)
  | _ => Raise ValueError
  end.

(** [a / b] on two Python integers. *)
Definition py_truediv (a b : Z) : result Q :=
  if (b =? 0)%Z then Raise ZeroDivisionError
  else Ok (inject_Z a / inject_Z b)%Q.

(** [float(t)] *)
Definition py_float (t : tensor) : result fl :=
  match data t with
  | [v] => Ok v
  | _ => Raise ValueError
  end.

(** [a += b] on tensors: the sum is written into [a], whose shape stays. *)
Definition iadd (a b : tensor) : result tensor :=
  r ← binop fl_add a b;
  if bool_decide (shape r = shape a) then Ok r else Raise RuntimeError.

Definition fl_ltb (x y : fl) : bool :=
  match x, y with
  | NaN, _ | _, NaN => false
  | Fin a, Fin b => match (a ?= b)%Q with Lt => true | _ => false end
  | NInf, NInf | PInf, _ => false
  | NInf, _ | Fin _, PInf => true
  | Fin _, NInf => false
  end.

(** [os.path.join] *)
Definition starts_with_sep (s : string) : bool :=
  match s with
  | String c _ => Ascii.eqb c "/"%char
  | EmptyString => false
  end.

Fixpoint ends_with_sep (s : string) : bool :=
  match s with
  | EmptyString => false
  | String c EmptyString => Ascii.eqb c "/"%char
  | String _ r => ends_with_sep r
  end.

Definition path_join2 (path b : string) : string :=
  if starts_with_sep b then b
  else if String.eqb path "" || ends_with_sep path then path +:+ b
  else path +:+ "/" +:+ b.

Definition path_join (a : string) (p : list string) : string :=
  foldl path_join2 a p.

(** A module's [state_dict()], a saved checkpoint, and the files
    [torch.load] can read. *)
Abbreviation state_dict := (gmap string tensor).
Abbreviation checkpoint := (gmap string (gmap string tensor)).
Abbreviation filesystem := (gmap string (gmap string (gmap string tensor))).

(** [module.load_state_dict(new)], strict. The module visits its
    parameters one by one. *)

(** The tensor read for the parameter [p] from the entry [v]: a
    one-dimensional entry offered to a zero-dimensional parameter is read at
    index 0 (a compatibility rule of the library), which fails on an empty
    one. *)
Definition input_param (p v : tensor) : result tensor :=
  match shape p, shape v with
  | [], [_] =>
      match data v with
      | x :: _ => Ok (mkTensor [] [x] (requires_grad v))
      | [] => Raise IndexError
      end
  | _, _ => Ok v
  end.

(** The parameter takes the entry of its name when the sizes agree;
    a missing entry or another size is an error message, reported once all
    parameters have been visited. *)
Definition param_ok (p : tensor) (input : option tensor) : bool :=
  match input with
  | Some v =>
      match input_param p v with
      | Ok v' => bool_decide (shape v' = shape p)
      | Raise _ => false
      end
  | None => false
  end.

Definition param_index_error (p : tensor) (input : option tensor) : bool :=
  match input with
  | Some v =>
      match input_param p v with
      | Ok _ => false
      | Raise _ => true
      end
  | None => false
  end.

(** What the parameter holds once it has been visited. *)
Definition load_param (p : tensor) (input : option tensor) : tensor :=
  match input with
  | Some v =>
      match input_param p v with
      | Ok v' =>
          if bool_decide (shape v' = shape p)
          then mkTensor (shape p) (data v') (requires_grad p)
          else p
      | Raise _ => p
      end
  | None => p
  end.

(** The parameters visited before the first entry that cannot be indexed,
    with their new contents, and whether there is such an entry. *)
Fixpoint visited (new : state_dict) (params : list (string * tensor))
  : list (string * tensor) * bool :=
  match params with
  | [] => ([], false)
  | (k, p) :: rest =>
      if param_index_error p (new !! k) then ([], true)
      else
        let '(done, failed) := visited new rest in
        ((k, load_param p (new !! k)) :: done, failed)
  end.

(** The outcome and the module's parameters afterwards: every parameter
    whose entry fits has been overwritten before an error is raised; an
    entry that cannot be indexed raises at once. The map does not record the
    order in which the module registered its parameters: they are visited in
    the order of the map's keys. *)
Definition load_state_dict (cur new : state_dict)
  : result unit * state_dict :=
  let '(done, failed) := visited new (map_to_list cur) in
  let after : state_dict := list_to_map done ∪ cur in
  if failed then (Raise IndexError, after)
  else if bool_decide (dom cur = dom new)
          && bool_decide (map_Forall (fun k p => param_ok p (new !! k) = true) cur)
  then (Ok tt, after)
  else (Raise RuntimeError, after).

(** ** [torch.optim.lr_scheduler.ReduceLROnPlateau], in mode ['min'] with
    the relative threshold *)

Module ReduceLROnPlateau.

Record t : Type := mk {
  factor : Q;
  patience : nat;
  threshold : Q;
  cooldown : nat;
  min_lr : Q;
  eps : Q;
  best : fl;
  num_bad_epochs : nat;
  cooldown_counter : nat
}.

(** The constructor; an argument left out takes the library's default. *)
Definition init (factor : option Q) (patience : option nat)
    (cooldown : option nat) : result t :=
  let factor := default (1 # 10)%Q factor in
  if Qle_bool 1 factor then Raise ValueError
  else Ok (mk factor (default 10 patience) (1 # 10000)%Q (default 0 cooldown)
             0%Q (1 # 100000000)%Q PInf 0 0).

Definition is_better (s : t) (a : fl) : bool :=
  fl_ltb a (fl_mul (best s) (Fin (1 - threshold s))).

Definition in_cooldown (s : t) : bool := 0 <? cooldown_counter s.

Definition set_best (s : t) (b : fl) : t :=
  mk (factor s) (patience s) (threshold s) (cooldown s) (min_lr s) (eps s)
     b (num_bad_epochs s) (cooldown_counter s).

Definition set_bad (s : t) (n : nat) : t :=
  mk (factor s) (patience s) (threshold s) (cooldown s) (min_lr s) (eps s)
     (best s) n (cooldown_counter s).

Definition set_counter (s : t) (n : nat) : t :=
  mk (factor s) (patience s) (threshold s) (cooldown s) (min_lr s) (eps s)
     (best s) (num_bad_epochs s) n.

(** [_reduce_lr] on the optimizer's single parameter group. *)
Definition _reduce_lr (s : t) (old_lr : Q) : Q :=
  let new_lr := Qmax (old_lr * factor s) (min_lr s) in
  if Qlt_le_dec (eps s) (old_lr - new_lr) then new_lr else old_lr.

(** [step(metrics)]: the scheduler and the optimizer's learning rate. *)
Definition step (s : t) (lr : Q) (metrics : fl) : t * Q :=
  let current := metrics in
  let s := if is_better s current
           then set_bad (set_best s current) 0
           else set_bad s (num_bad_epochs s + 1) in
  let s := if in_cooldown s
           then set_bad (set_counter s (cooldown_counter s - 1)) 0
           else s in
  if patience s <? num_bad_epochs s
  then (set_bad (set_counter s (cooldown s)) 0, _reduce_lr s lr)
  else (s, lr).

(** Consecutive calls of [step]. *)
Definition steps (s : t) (lr : Q) (ms : list fl) : t * Q :=
  foldl (fun '(s, lr) m => step s lr m) (s, lr) ms.

End ReduceLROnPlateau.

(** Modelled from the spec: the running-average accumulator
    [utils.metrics.AverageMeter] (section 4.2: count, sum, current value and
    average; [update(value, weight=1)] adds the weighted value to the sum,
    the weight to the count, and recomputes the average). *)
Module AverageMeter.

Record t : Type := mk {
  val : tensor;
  avg : tensor;
  sum : tensor;
  count : nat
}.

Definition reset : t :=
  mk (scalar (Fin 0) false) (scalar (Fin 0) false) (scalar (Fin 0) false) 0.

Definition update (m : t) (value : tensor) (n : nat) : result t :=
  s ← binop fl_add (sum m) (tmap (fun v => fl_mul v (fl_of_nat n)) value);
  let c := count m + n in
  Ok (mk value (tmap (fun v => fl_div v (fl_of_nat c)) s) s c).

End AverageMeter.

(** Modelled from the spec: the configuration object ([config.py] is not
    among the sources), with the fields of section 3 that the strategy
    reads. *)
Module Config.

Record t : Type := mk {
  root_path : string;
  checkpoint_directory : string;
  epoch : nat;
  vae_num_hiddens : nat;
  vae_num_residual_layers : nat;
  vae_num_residual_hiddens : nat;
  vae_num_embeddings : nat;
  vae_embedding_dim : nat;
  vae_commitment_cost : Q;
  vae_distance : Q;
  vae_decay : Q;
  vae_learning_rate : Q
}.

End Config.

(** ** [src/query/strategy.py] *)

Module Strategy.

Section Strategy.

(** The object bound to [self.vae], as the strategy uses it: something
    that is called, optimised and saved. [src/query/graph/vae.py] provides
    one such object, [VAE], called through [VAE.call]. *)
Variable P : Type.
Variable net : P -> list tensor -> result (list tensor).
Variable net_state_dict : P -> state_dict.
Variable zero_grad : P -> P.
Variable backward : tensor -> P -> result P.
Variable opt_step : Q -> P -> P.

(** The file system as [torch.save] finds it: whether a file of this name
    can be created or overwritten (its directory exists and can be written
    to). The strategy creates no directory. *)
Variable writable : string -> bool.

(** Collaborators whose sources are not in the repository excerpt: the
    classifier [graph.resnet.ResNet18], the reconstruction loss
    [graph.resnet.Loss] and [utils.metrics.UncertaintyScore]. *)
Variable task_forward : state_dict -> tensor -> result tensor.
Variable loss_module : tensor -> tensor -> result tensor.
Variable uncertainty_score : tensor -> result tensor.

(** [self], together with the files and the standard output it acts on. *)
Record t : Type := mk {
  config : Config.t;
  step_cnt : nat;
  best_acc : Q;
  task : state_dict;
  vae : P;
  lr : Q;
  vae_scheduler : ReduceLROnPlateau.t;
  epoch : nat;
  fs : filesystem;
  stdout : list string
}.

(** Statements of a method: they read and update [self] and may raise. *)
Definition M (A : Type) : Type := t -> result A * t.

Definition ret {A} (a : A) : M A := fun s => (Ok a, s).

Definition bind {A B} (m : M A) (f : A -> M B) : M B := fun s =>
  match m s with
  | (Ok a, s') => f a s'
  | (Raise e, s') => (Raise e, s')
  end.

Definition lift {A} (r : result A) : M A := fun s => (r, s).

Definition get : M t := fun s => (Ok s, s).

Definition print (line : string) : M unit := fun s =>
  (Ok tt, mk (config s) (step_cnt s) (best_acc s) (task s) (vae s) (lr s)
            (vae_scheduler s) (epoch s) (fs s) (stdout s ++ [line])).

Definition set_task (w : state_dict) : M unit := fun s =>
  (Ok tt, mk (config s) (step_cnt s) (best_acc s) w (vae s) (lr s)
            (vae_scheduler s) (epoch s) (fs s) (stdout s)).

Definition set_vae (p : P) : M unit := fun s =>
  (Ok tt, mk (config s) (step_cnt s) (best_acc s) (task s) p (lr s)
            (vae_scheduler s) (epoch s) (fs s) (stdout s)).

Definition set_scheduler (sch : ReduceLROnPlateau.t) (l : Q) : M unit := fun s =>
  (Ok tt, mk (config s) (step_cnt s) (best_acc s) (task s) (vae s) l
            sch (epoch s) (fs s) (stdout s)).

Definition set_best_acc (a : Q) : M unit := fun s =>
  (Ok tt, mk (config s) (step_cnt s) a (task s) (vae s) (lr s)
            (vae_scheduler s) (epoch s) (fs s) (stdout s)).

Definition set_epoch (n : nat) : M unit := fun s =>
  (Ok tt, mk (config s) (step_cnt s) (best_acc s) (task s) (vae s) (lr s)
            (vae_scheduler s) n (fs s) (stdout s)).

(** [torch.save(c, name)]; a file that cannot be opened for writing
    raises [FileNotFoundError] or another [OSError]. *)
Definition write_file (name : string) (c : checkpoint) : M unit := fun s =>
  if writable name then
    (Ok tt, mk (config s) (step_cnt s) (best_acc s) (task s) (vae s) (lr s)
              (vae_scheduler s) (epoch s) (<[name := c]> (fs s)) (stdout s))
  else (Raise OSError, s).

(** [try: body except OSError: handler] *)
Definition try_except_OSError {A} (body handler : M A) : M A := fun s =>
  match body s with
  | (Raise OSError, s') => handler s'
  | r => r
  end.

#[local] Instance M_ret : MRet M := @ret.
#[local] Instance M_bind : MBind M := fun _ _ f m => bind m f.

(** [torch.load(filename)]; a missing file raises [FileNotFoundError], an
    [OSError]. *)
Definition torch_load (filename : string) : M checkpoint :=
  s ← get;
  match fs s !! filename with
  | Some c => ret c
  | None => lift (Raise OSError)
  end.

(** [checkpoint[key]] *)
Definition getitem (c : checkpoint) (key : string) : M state_dict :=
  match c !! key with
  | Some d => ret d
  | None => lift (Raise KeyError)
  end.

Definition load_checkpoint : M unit :=
  s ← get;
  let filename := path_join (Config.root_path (config s))
                    [Config.checkpoint_directory (config s); "task.pth.tar"] in
  try_except_OSError
    (print ("Loading checkpoint '" +:+ filename +:+ "'") ;;
     checkpoint ← torch_load filename;
     d ← getitem checkpoint "task_state_dict";
     let '(r, w) := load_state_dict (task s) d in
     set_task w ;;
     lift r)
    (print ("No checkpoint exists from '"
            +:+ Config.checkpoint_directory (config s) +:+ "'. Skipping...") ;;
     print "**First time to train**").

Definition save_checkpoint : M unit :=
  s ← get;
  let tmp_name := path_join (Config.root_path (config s))
                    [Config.checkpoint_directory (config s); "vae.pth.tar"] in
  let state : checkpoint := {[ "vae_state_dict" := net_state_dict (vae s) ]} in
  write_file tmp_name state.

(** Lines 150 to 153 of [train_by_epoch]: the loss of one training batch. *)
Definition batch_loss (step_cnt : nat) (vae_distance : Q)
    (recon_error vq_loss u_score distance : tensor) : result tensor :=
  loss ← binop fl_add recon_error vq_loss;
  if negb (step_cnt =? 0) then
    d ← binop fl_sub u_score (tmap (fun v => fl_div v (Fin vae_distance)) distance);
    iadd loss (tmean (tmap fl_abs d))
  else Ok loss.

(** Lines 154 to 158: back-propagation (twice), the optimizer step and the
    running average. *)
Definition backprop_and_step (avg_loss : AverageMeter.t) (loss : tensor)
  : M AverageMeter.t :=
  s ← get;
  p ← lift (backward loss (vae s));
  p ← lift (backward loss p);
  set_vae (opt_step (lr s) p) ;;
  lift (AverageMeter.update avg_loss loss 1).

(** The body of the training loop for one batch. *)
Definition train_step (avg_loss : AverageMeter.t) (data : tensor)
  : M AverageMeter.t :=
  s ← get;
  set_vae (zero_grad (vae s)) ;;
  s ← get;
  task_output ← lift (task_forward (task s) data);
  u_score ← lift (uncertainty_score task_output);
  r ← lift (net (vae s) [data; u_score]);
  '(vq_loss, data_recon, perplexity, distance) ← lift (unpack4 r);
  recon_error ← lift (loss_module data_recon data);
  loss ← lift (batch_loss (step_cnt s) (Config.vae_distance (config s))
                 recon_error vq_loss u_score distance);
  backprop_and_step avg_loss loss.

(** The body of the evaluation loop for one batch. *)
Definition eval_step (avg_loss : AverageMeter.t) (data : tensor)
  : M AverageMeter.t :=
  s ← get;
  task_output ← lift (task_forward (task s) data);
  u_score ← lift (uncertainty_score task_output);
  r ← lift (net (vae s) [data; u_score]);
  '(vq_loss, data_recon, perplexity) ← lift (unpack3 r);
  recon_error ← lift (loss_module data_recon data);
  loss ← lift (binop fl_add recon_error vq_loss);
  lift (AverageMeter.update avg_loss loss 1).

(** [for data in loader: acc = body(acc, data)] *)
Fixpoint for_each {A B} (body : A -> B -> M A) (acc : A) (l : list B) : M A :=
  match l with
  | [] => ret acc
  | x :: l' => acc ← body acc x; for_each body acc l'
  end.

(** Lines 187 to 189: the accuracy test that follows the evaluation loop. *)
Definition accuracy_check (correct total : Z) : M unit :=
  s ← get;
  acc ← lift (py_truediv correct total);
  if Qlt_le_dec (best_acc s) acc then
    acc ← lift (py_truediv correct total);
    set_best_acc acc ;;
    save_checkpoint
  else ret tt.

(** One epoch; the two arguments are the batches the loaders yield. *)
Definition train_by_epoch (train_batches test_batches : list tensor) : M unit :=
  avg_loss ← for_each train_step AverageMeter.reset train_batches;
  s ← get;
  metrics ← lift (py_float (AverageMeter.val avg_loss));
  (let '(sch, l) := ReduceLROnPlateau.step (vae_scheduler s) (lr s) metrics in
   set_scheduler sch l) ;;
  let total := 0%Z in
  let correct := 0%Z in
  _ ← for_each eval_step AverageMeter.reset test_batches;
  accuracy_check correct total.

(** [train]: [config.epoch] epochs; [loaders i] are the batches of epoch [i]. *)
Fixpoint train (n : nat) (loaders : nat -> list tensor * list tensor) : M unit :=
  match n with
  | 0 => ret tt
  | S n' =>
      s ← get;
      set_epoch (epoch s + 1) ;;
      train_by_epoch (loaders (epoch s)).1 (loaders (epoch s)).2 ;;
      train n' loaders
  end.

(** The scheduler of line 74:
    [ReduceLROnPlateau(self.vae_opt, mode='min', factor=0.8, cooldown=8)]. *)
Definition new_scheduler : result ReduceLROnPlateau.t :=
  ReduceLROnPlateau.init (Some (8 # 10)%Q) None (Some 8).

(** The states of that scheduler: the best value, the number of bad epochs
    and the cooldown counter, with the settings of line 74 and the library's
    defaults for the others. *)
Definition scheduler_state (best : fl) (num_bad_epochs cooldown_counter : nat)
  : ReduceLROnPlateau.t :=
  ReduceLROnPlateau.mk (8 # 10) 10 (1 # 10000) 8 0 (1 # 100000000)
    best num_bad_epochs cooldown_counter.

(** The arguments of the call [vae(...)] of line 62. *)
Definition vae_args (c : Config.t) : list pyarg :=
  [ArgInt (Config.vae_num_hiddens c); ArgInt (Config.vae_num_residual_layers c);
   ArgInt (Config.vae_num_residual_hiddens c); ArgInt (Config.vae_num_embeddings c);
   ArgInt (Config.vae_embedding_dim c); ArgFloat (Config.vae_commitment_cost c);
   ArgFloat (Config.vae_distance c); ArgFloat (Config.vae_decay c)].

(** [__init__] from line 62 to line 90, in the order of its statements:
    the network is built by the class bound to the name [vae] (line 62), then
    the scheduler (line 74), then [load_checkpoint] runs (line 90). The
    classifier starts from the weights [task0] and the files are [files],
    which is what the statements before line 62 leave. Those statements (the
    logger, the data sets and loaders, the classifier) and the ones after
    line 90 (the summary writer, [print_train_info]) are run around this
    function by [Main.new_strategy]. *)
Definition init (vae_class : list pyarg -> result P) (task0 : state_dict)
    (files : filesystem) (config : Config.t) (step_cnt : nat)
  : result t * list string :=
  match vae_class (vae_args config) with
  | Raise e => (Raise e, [])
  | Ok p =>
      match new_scheduler with
      | Raise e => (Raise e, [])
      | Ok sch =>
          let s := mk config step_cnt 0%Q task0 p
                      (Config.vae_learning_rate config) sch 0 files [] in
          match load_checkpoint s with
          | (Ok _, s') => (Ok s', stdout s')
          | (Raise e, s') => (Raise e, stdout s')
          end
      end
  end.

(** A statement that leaves the files and the best accuracy as they are. *)
Definition keeps {A} (m : M A) : Prop :=
  forall s, fs (m s).2 = fs s /\
            best_acc (m s).2 = best_acc s.

(** A statement that always raises, leaving the files and the best
    accuracy as they are. *)
Definition fails_keeping {A} (m : M A) : Prop :=
  forall s, (exists e, (m s).1 = Raise e) /\
            fs (m s).2 = fs s /\
            best_acc (m s).2 = best_acc s.

End Strategy.

Arguments mk {P}.
Arguments config {P}.
Arguments step_cnt {P}.
Arguments best_acc {P}.
Arguments task {P}.
Arguments vae {P}.
Arguments lr {P}.
Arguments vae_scheduler {P}.
Arguments epoch {P}.
Arguments fs {P}.
Arguments stdout {P}.

End Strategy.

(** The loss of a training batch as the specification words it:
    [recon_error + vq_loss], and from the second cycle on also the mean
    absolute difference between the uncertainty score and the distance
    normalised by [vae_distance]. *)
Module LossSpec.

Definition distance_term (vae_distance : Q) (u_score distance : tensor)
  : result tensor :=
  d ← binop fl_sub u_score (tmap (fun v => fl_div v (Fin vae_distance)) distance);
  Ok (tmean (tmap fl_abs d)).

Definition total (step_cnt : nat) (vae_distance : Q)
    (recon_error vq_loss u_score distance : tensor) : result tensor :=
  base ← binop fl_add recon_error vq_loss;
  match step_cnt with
  | 0 => Ok base
  | S _ =>
      t ← distance_term vae_distance u_score distance;
      binop fl_add base t
  end.

End LossSpec.

(** A value that is not negative: a number that is at least zero, or plus
    infinity (which the machine's sums and differences of large numbers
    overflow to). *)
Definition fl_nonneg (v : fl) : Prop :=
  match v with
  | Fin q => (0 <= q)%Q
  | PInf => True
  | NInf | NaN => False
  end.

(** A tensor of numbers: no entry is infinite or not-a-number. *)
Definition finite (t : tensor) : Prop :=
  Forall (fun v => exists q, v = Fin q) (data t).

(** Two tensors of one shape whose entries are equal as numbers. *)
Definition tensor_close (a b : tensor) : Prop :=
  shape a = shape b /\ Forall2 fl_eq (data a) (data b).

(** An entry that is a number equal to zero. *)
Definition fl_zero (v : fl) : Prop := exists q, v = Fin q /\ (q == 0)%Q.

(** A statement that leaves alone everything of [self] but the network's
    parameters, the learning rate and the scheduler. *)
Definition frozen {P A} (m : Strategy.M P A) : Prop :=
  forall s,
    Strategy.config (m s).2 = Strategy.config s /\
    Strategy.step_cnt (m s).2 = Strategy.step_cnt s /\
    Strategy.best_acc (m s).2 = Strategy.best_acc s /\
    Strategy.task (m s).2 = Strategy.task s /\
    Strategy.epoch (m s).2 = Strategy.epoch s /\
    Strategy.fs (m s).2 = Strategy.fs s /\
    Strategy.stdout (m s).2 = Strategy.stdout s.

(** ** [src/main.py] *)

Module Main.

Section Main.

(** Modelled from the spec: what the script runs besides the strategy is
    not in the repository excerpt. These components act on a state [W] of
    their own (the imported modules, the data pool, the logger, the data sets,
    the classifier's training), on the files and on the standard output, and
    each of them may raise. *)
Variable W : Type.

(** What the script acts on. *)
Record t : Type := mk {
  world : W;
  files : filesystem;
  stdout : list string
}.

Definition M (A : Type) : Type := t -> result A * t.

Definition ret {A} (a : A) : M A := fun st => (Ok a, st).

Definition bind {A B} (m : M A) (f : A -> M B) : M B := fun st =>
  match m st with
  | (Ok a, st') => f a st'
  | (Raise e, st') => (Raise e, st')
  end.

Definition lift {A} (r : result A) : M A := fun st => (r, st).

Definition print (line : string) : M unit := fun st =>
  (Ok tt, mk (world st) (files st) (stdout st ++ [line])).

#[local] Instance M_ret : MRet M := @ret.
#[local] Instance M_bind : MBind M := fun _ _ f m => bind m f.

(** Modelled from the spec: the [import] statements of lines 1 to 5, which
    execute the imported modules; [Config()] (section 3), with its fields
    [max_cycle] and [budge_size]; [Query(config, 50000)] and
    [query.sampling()] (section 4.9); [Task(config, step, query.labeled[:])]
    followed by [task.run()], which leaves [task.best_acc] (section 4.10);
    and Python's formatting of a float. *)
Variable imports : M unit.
Variable new_config : M Config.t.
Variable max_cycle budge_size : Config.t -> nat.
Variable new_query : Config.t -> Z -> M unit.
Variable sampling : M unit.
Variable task_run : Config.t -> nat -> M Q.
Variable format_float : Q -> string.

(** Modelled from the spec: the statements of [Strategy.__init__] that
    [Strategy.init] leaves out. Lines 28 to 61 set the transforms, the logger
    (a log file), the two CIFAR-10 data sets (downloaded when they are not
    there), the loaders, the uncertainty score and the classifier, whose
    initial weights they yield; lines 93 to 95 open the summary writer and
    print the seed and the number of parameters. *)
Variable strategy_prelude : Config.t -> nat -> M state_dict.
Variable strategy_epilogue : Config.t -> nat -> M unit.

(** The tensor library, the file system and the collaborators of the
    strategy, as in [Strategy]; [loaders] are the batches of each epoch. *)
Variable rng : initializer.
Variable fl_exp : fl -> fl.
Variable randn_like : tensor -> tensor.
Variable net_state_dict : VAE.t -> state_dict.
Variable writable : string -> bool.
Variable zero_grad : VAE.t -> VAE.t.
Variable backward : tensor -> VAE.t -> result VAE.t.
Variable opt_step : Q -> VAE.t -> VAE.t.
Variable task_forward : state_dict -> tensor -> result tensor.
Variable loss_module : tensor -> tensor -> result tensor.
Variable uncertainty_score : tensor -> result tensor.
Variable loaders : nat -> list tensor * list tensor.

(** Line 14, [Strategy(config, step_cnt)]: the prelude, then the statements
    of [Strategy.init] on the files as they are, then the epilogue. What the
    constructor prints goes to the script's output. *)
Definition new_strategy (config : Config.t) (step_cnt : nat)
  : M (Strategy.t VAE.t) := fun st =>
  match strategy_prelude config step_cnt st with
  | (Raise e, st) => (Raise e, st)
  | (Ok task0, st) =>
      match Strategy.init VAE.t (VAE.new rng) task0 (files st) config step_cnt with
      | (Raise e, printed) =>
          (Raise e, mk (world st) (files st) (stdout st ++ printed))
      | (Ok strategy, printed) =>
          match strategy_epilogue config step_cnt
                  (mk (world st) (files st) (stdout st ++ printed)) with
          | (Raise e, st) => (Raise e, st)
          | (Ok _, st) => (Ok strategy, st)
          end
      end
  end.

(** Line 15, [strategy.run()]: [train] on the files and the output of the
    script (the handler of [KeyboardInterrupt], a signal from outside, is left
    out). *)
Definition run (strategy : Strategy.t VAE.t) : M unit := fun st =>
  let s := Strategy.mk (Strategy.config strategy) (Strategy.step_cnt strategy)
             (Strategy.best_acc strategy) (Strategy.task strategy)
             (Strategy.vae strategy) (Strategy.lr strategy)
             (Strategy.vae_scheduler strategy) (Strategy.epoch strategy)
             (files st) [] in
  let '(r, s') :=
    Strategy.train VAE.t (VAE.call fl_exp randn_like) net_state_dict
      zero_grad backward opt_step writable task_forward loss_module
      uncertainty_score (Config.epoch (Strategy.config strategy)) loaders s in
  (r, mk (world st) (Strategy.fs s') (stdout st ++ Strategy.stdout s')).

(** The body of the loop, lines 13 to 26. *)
Definition cycle (config : Config.t) (step_cnt : nat) : M unit :=
  strategy ← new_strategy config step_cnt;
  run strategy ;;
  sampling ;;
  print ("step " +:+ pretty (step_cnt + 1) +:+ ": train data count - "
         +:+ pretty ((step_cnt + 1) * budge_size config)) ;;
  best_acc ← task_run config (step_cnt + 1);
  print ("step " +:+ pretty (step_cnt + 1) +:+ ": test accuracy - "
         +:+ format_float best_acc).

(** [for step_cnt in range(config.max_cycle): ...] *)
Fixpoint loop (config : Config.t) (steps : list nat) : M unit :=
  match steps with
  | [] => ret tt
  | step_cnt :: rest => cycle config step_cnt ;; loop config rest
  end.

(** The script. *)
Definition main : M unit :=
  imports ;;
  config ← new_config;
  new_query config 50000%Z ;;
  loop config (seq 0 (max_cycle config)).

End Main.

Arguments mk {W}.
Arguments world {W}.
Arguments files {W}.
Arguments stdout {W}.

End Main.

(* ====================================================================== *)
(** * Properties *)
(* ====================================================================== *)

(** ** Tensor lemmas *)

Section TensorFacts.

Lemma broadcast_rev_same (s : list nat) : broadcast_rev s s = Some s.
Proof.
  induction s as [|d s IH]; simpl; [reflexivity|].
  rewrite Nat.eqb_refl, IH. reflexivity.
Qed.

Lemma broadcast_shapes_same (s : list nat) : broadcast_shapes s s = Some s.
Proof.
  unfold broadcast_shapes. rewrite broadcast_rev_same. simpl.
  f_equal. apply reverse_involutive.
Qed.

Lemma expand_same (t : tensor) : expand t (shape t) = data t.
Proof. unfold expand. rewrite decide_True by reflexivity. reflexivity. Qed.

(** On two tensors of one shape a binary operation is entrywise. *)
Lemma binop_same_shape f (a b : tensor) :
  shape a = shape b ->
  binop f a b =
  Ok (mkTensor (shape a) (zip_with f (data a) (data b))
        (requires_grad a || requires_grad b)).
Proof.
  intros E. unfold binop. rewrite <- E, broadcast_shapes_same.
  rewrite expand_same. unfold expand.
  rewrite decide_True by (symmetry; exact E). reflexivity.
Qed.

Lemma flip0_vec (l : list Q) rg :
  flip0 (vec l rg) =
  mkTensor [length l]
    ((fun i => Fin (nth (length l - 1 - i) l 0%Q)) <$> seq 0 (length l)) rg.
Proof.
  unfold flip0, vec. cbn [shape data requires_grad numel foldr]. f_equal.
  rewrite Nat.mul_1_r. apply list_fmap_ext. intros _ i _.
  rewrite Nat.div_1_r, Nat.mod_1_r, Nat.mul_1_r, Nat.add_0_r.
  rewrite !nth_lookup, list_lookup_fmap.
  destruct (l !! (length l - 1 - i)); reflexivity.
Qed.

Lemma fl_sum_Fin (l : list Q) :
  fl_sum (Fin <$> l) = Fin (foldl Qplus 0%Q l).
Proof.
  unfold fl_sum. generalize 0%Q as acc.
  induction l as [|x l IH]; intros acc; simpl; [reflexivity|]. apply IH.
Qed.

Lemma foldl_Qplus_proper (l k : list Q) (a b : Q) :
  Forall2 Qeq l k -> (a == b)%Q ->
  (foldl Qplus a l == foldl Qplus b k)%Q.
Proof.
  intros H. revert a b. induction H as [|x y l k Hxy _ IH]; intros a b E.
  - exact E.
  - simpl. apply IH. rewrite E, Hxy. reflexivity.
Qed.

End TensorFacts.

(** ** RankingLoss *)

Section RankingLossFacts.

Import RankingLoss.

Lemma half_diff_vec (l : list Q) rg :
  half_diff (vec l rg) =
  Ok (mkTensor [length l / 2]
        ((fun i => Fin (nth i l 0 - nth (length l - 1 - i) l 0)%Q)
           <$> seq 0 (length l / 2)) rg).
Proof.
  unfold half_diff. rewrite binop_same_shape by (rewrite flip0_vec; reflexivity).
  rewrite flip0_vec. cbn [mbind result_bind py_len shape vec data requires_grad].
  unfold slice0. cbn [shape data requires_grad].
  assert (Hk : length l / 2 <= length l) by (apply Nat.Div0.div_le_upper_bound; lia).
  rewrite Nat.min_l by exact Hk. rewrite Nat.mul_1_r, orb_diag.
  f_equal. f_equal.
  apply list_eq. intros i.
  rewrite list_lookup_fmap.
  destruct (decide (i < length l / 2)) as [Hi|Hi].
  - rewrite lookup_take_lt by exact Hi.
    rewrite lookup_zip_with, !list_lookup_fmap.
    rewrite !lookup_seq_lt by lia. simpl.
    destruct (lookup_lt_is_Some_2 l i ltac:(lia)) as [x Hx].
    rewrite Hx. simpl. rewrite (nth_lookup_Some _ _ _ _ Hx). reflexivity.
  - rewrite lookup_take_ge by lia.
    rewrite lookup_seq_ge by lia. reflexivity.
Qed.

Lemma one_of_entry (d : Q) :
  fl_sub (fl_mul (Fin 2) (fl_sign (fl_clamp_min 0 (Fin d)))) (Fin 1) =
  Fin (match (d ?= 0)%Q with Gt => 1 | _ => -1 end)%Q.
Proof.
  unfold fl_clamp_min, fl_sign.
  destruct (d ?= 0)%Q eqn:E; try rewrite E; reflexivity.
Qed.

Lemma one_of_vec (t : list Q) rg :
  one_of (detach (mkTensor [length t / 2]
        ((fun i => Fin (nth i t 0 - nth (length t - 1 - i) t 0)%Q)
           <$> seq 0 (length t / 2)) rg)) =
  mkTensor [length t / 2] (Fin <$> (code_sign t <$> seq 0 (length t / 2))) false.
Proof.
  unfold one_of, detach, tmap. cbn [shape data requires_grad]. f_equal.
  rewrite <- !list_fmap_compose. apply list_fmap_ext. intros i x _.
  cbn [compose]. apply one_of_entry.
Qed.

(** What [forward] returns on two vectors of one length, whatever the
    length. *)
Lemma forward_vec (p t : list Q) (rgp rgt : bool) :
  length p = length t ->
  forward (vec p rgp) (vec t rgt) =
  Ok (scalar (fl_div (Fin (foldl Qplus 0%Q (code_term p t <$> seq 0 (length p / 2))))
                (fl_of_nat (length p / 2))) rgp).
Proof.
  intros E. unfold forward.
  rewrite !half_diff_vec. cbn [mbind result_bind].
  rewrite one_of_vec.
  rewrite binop_same_shape by (cbn [shape]; rewrite E; reflexivity).
  cbn [mbind result_bind size0 shape data requires_grad orb].
  unfold tsum, tmap, scalar. cbn [shape data requires_grad fmap list_fmap].
  do 2 f_equal. f_equal.
  rewrite <- E.
  set (k := length p / 2).
  repeat (rewrite zip_with_fmap_l || rewrite zip_with_fmap_r).
  rewrite zip_with_diag, <- fl_sum_Fin. do 2 f_equal.
  rewrite <- !list_fmap_compose. apply list_fmap_ext. intros _ i _.
  reflexivity.
Qed.

Lemma code_sign_spec (t : list Q) (i : nat) :
  code_sign t i = RankingSpec.pair_sign t i.
Proof.
  unfold code_sign, RankingSpec.pair_sign.
  destruct (Qlt_le_dec _ _) as [H|H].
  - apply Qgt_alt in H. rewrite H. reflexivity.
  - destruct (_ ?= 0)%Q eqn:E; [reflexivity | reflexivity | ].
    exfalso. apply Qle_alt in H. apply H, E.
Qed.

Lemma code_term_spec (p t : list Q) (i : nat) :
  (code_term p t i == RankingSpec.pair_term p t i)%Q.
Proof.
  unfold code_term, RankingSpec.pair_term. rewrite code_sign_spec.
  set (x := (1 - _)%Q).
  destruct (x ?= 0)%Q eqn:E.
  - apply Qeq_alt in E. rewrite Q.max_r; [reflexivity|]. rewrite E. apply Qle_refl.
  - apply Qlt_alt in E. rewrite Q.max_l; [reflexivity|]. apply Qlt_le_weak, E.
  - apply Qgt_alt in E. rewrite Q.max_r; [reflexivity|]. apply Qlt_le_weak, E.
Qed.

Lemma code_term_nonneg (p t : list Q) (i : nat) : (0 <= code_term p t i)%Q.
Proof.
  unfold code_term. set (x := (1 - _)%Q).
  destruct (x ?= 0)%Q eqn:E.
  - apply Qeq_alt in E. rewrite E. apply Qle_refl.
  - apply Qle_refl.
  - apply Qgt_alt in E. apply Qlt_le_weak, E.
Qed.

Lemma code_sum_spec (p t : list Q) :
  (foldl Qplus 0 (code_term p t <$> seq 0 (length p / 2)) ==
   RankingSpec.pair_sum p t)%Q.
Proof.
  unfold RankingSpec.pair_sum. apply foldl_Qplus_proper; [|reflexivity].
  apply Forall2_fmap, Forall_Forall2_diag, Forall_forall.
  intros i _. apply code_term_spec.
Qed.

Lemma foldl_Qplus_nonneg (l : list Q) (a : Q) :
  Forall (Qle 0) l -> (0 <= a)%Q -> (0 <= foldl Qplus a l)%Q.
Proof.
  intros H. revert a. induction H as [|x l Hx _ IH]; intros a Ha; [exact Ha|].
  simpl. apply IH. replace 0%Q with (0 + 0)%Q by reflexivity.
  apply Qplus_le_compat; assumption.
Qed.

Lemma of_nat_nonzero (k : nat) :
  0 < k -> Qeq_bool (inject_Z (Z.of_nat k)) 0 = false.
Proof.
  intros H. destruct k; [lia|]. reflexivity.
Qed.

(** The value [forward] returns equals the specification's loss. *)
Lemma code_loss_spec (p t : list Q) :
  fl_eq (fl_div (Fin (foldl Qplus 0%Q (code_term p t <$> seq 0 (length p / 2))))
           (fl_of_nat (length p / 2)))
        (RankingSpec.loss p t).
Proof.
  unfold RankingSpec.loss. pose proof (code_sum_spec p t) as Hs.
  unfold RankingSpec.pair_sum in *.
  destruct (length p / 2) as [|k] eqn:Ek.
  - reflexivity.
  - unfold fl_of_nat, fl_div. rewrite of_nat_nonzero by lia.
    cbn [fl_mul fl_eq]. rewrite Hs. field.
    intros H. apply Qeq_bool_iff in H. rewrite of_nat_nonzero in H by lia.
    discriminate.
Qed.

End RankingLossFacts.

(** C4. For an even batch length [N] and two real vectors of that length,
    [RankingLoss.forward] returns [(1/(N/2)) · Σ_{i<N/2} max(0, 1 − s_i ·
    (pred_i − pred_{N−1−i}))]: the signs [s_i] are [+1] where
    [target_i − target_{N−1−i} > 0] and [−1] elsewhere and are carried by a
    tensor detached from the gradient graph, and the divisor is the number
    of pairs [N/2]. *)
Theorem ranking_loss_even (N : nat) (p t : list Q) (rgp rgt : bool) :
  Nat.Even N -> length p = N -> length t = N ->
  exists (v : fl) (h : tensor),
    RankingLoss.forward (vec p rgp) (vec t rgt) = Ok (scalar v rgp) /\
    fl_eq v (RankingSpec.loss p t) /\
    RankingLoss.half_diff (vec t rgt) = Ok h /\
    requires_grad (RankingLoss.one_of (detach h)) = false /\
    data (RankingLoss.one_of (detach h)) =
      Fin <$> (RankingSpec.pair_sign t <$> seq 0 (N / 2)).
Proof.
  intros _ Hp Ht. eexists _, _. split; [|split; [|split; [|split]]].
  - apply forward_vec. congruence.
  - apply code_loss_spec.
  - apply half_diff_vec.
  - rewrite one_of_vec. reflexivity.
  - rewrite one_of_vec. cbn [data]. rewrite Ht. f_equal.
    apply list_fmap_ext. intros _ i _. apply code_sign_spec.
Qed.

Lemma ranking_loss_even_witness :
  exists (v : fl) (h : tensor),
    RankingLoss.forward (vec [3; 1; 2; 7 # 2]%Q true) (vec [1; 5; 2; 0]%Q false)
      = Ok (scalar v true) /\
    fl_eq v (RankingSpec.loss [3; 1; 2; 7 # 2]%Q [1; 5; 2; 0]%Q) /\
    RankingLoss.half_diff (vec [1; 5; 2; 0]%Q false) = Ok h /\
    requires_grad (RankingLoss.one_of (detach h)) = false /\
    data (RankingLoss.one_of (detach h)) =
      Fin <$> (RankingSpec.pair_sign [1; 5; 2; 0]%Q <$> seq 0 (4 / 2)).
Proof.
  apply (ranking_loss_even 4); [exists 2; reflexivity | reflexivity | reflexivity].
Defined.

(** C5, as the code has it. For an odd batch length [N] the two halves have
    the same length [(N−1)/2] (the middle example is in no pair), and
    [RankingLoss.forward] returns the pairwise loss over those pairs; from
    [N = 3] on it is not negative (and not not-a-number). *)
Theorem ranking_loss_odd (N : nat) (p t : list Q) (rgp rgt : bool) :
  Nat.Odd N -> length p = N -> length t = N ->
  exists (hp ht : tensor) (v : fl),
    RankingLoss.half_diff (vec p rgp) = Ok hp /\
    RankingLoss.half_diff (vec t rgt) = Ok ht /\
    shape hp = [(N - 1) / 2] /\ shape ht = [(N - 1) / 2] /\
    RankingLoss.forward (vec p rgp) (vec t rgt) = Ok (scalar v rgp) /\
    fl_eq v (RankingSpec.loss p t) /\
    (3 <= N -> fl_nonneg v).
Proof.
  intros [k Hk] Hp Ht.
  assert (Hhalf : N / 2 = (N - 1) / 2).
  { subst N. replace (2 * k + 1 - 1) with (k * 2) by lia.
    rewrite Nat.div_mul by lia. replace (2 * k + 1) with (1 + k * 2) by lia.
    rewrite Nat.div_add by lia. reflexivity. }
  eexists _, _, _. split; [|split; [|split; [|split; [|split; [|split]]]]].
  - apply half_diff_vec.
  - apply half_diff_vec.
  - cbn [shape]. congruence.
  - cbn [shape]. congruence.
  - apply forward_vec. congruence.
  - apply code_loss_spec.
  - intros H3. unfold fl_of_nat, fl_div.
    assert (Hpos : 0 < length p / 2).
    { rewrite Hp, Hhalf. subst N. replace (2 * k + 1 - 1) with (k * 2) by lia.
      rewrite Nat.div_mul by lia. lia. }
    rewrite of_nat_nonzero by exact Hpos. cbn [fl_nonneg].
    apply Qle_shift_div_l.
    + destruct (length p / 2); [lia|]. reflexivity.
    + rewrite Qmult_0_l. apply foldl_Qplus_nonneg; [|apply Qle_refl].
      apply Forall_fmap, Forall_forall. intros i _. apply code_term_nonneg.
Qed.

Lemma ranking_loss_odd_witness :
  exists (hp ht : tensor) (v : fl),
    RankingLoss.half_diff (vec [3; 1; 2]%Q true) = Ok hp /\
    RankingLoss.half_diff (vec [1; 5; 2]%Q false) = Ok ht /\
    shape hp = [(3 - 1) / 2] /\ shape ht = [(3 - 1) / 2] /\
    RankingLoss.forward (vec [3; 1; 2]%Q true) (vec [1; 5; 2]%Q false)
      = Ok (scalar v true) /\
    fl_eq v (RankingSpec.loss [3; 1; 2]%Q [1; 5; 2]%Q) /\
    (3 <= 3 -> fl_nonneg v).
Proof.
  apply (ranking_loss_odd 3); [exists 1; reflexivity | reflexivity | reflexivity].
Defined.

(** C5 as stated fails on a batch of three: both halves have length one and
    the loss is the number 2. *)
Lemma ranking_loss_odd_counterexample :
  exists (hp ht : tensor),
    RankingLoss.half_diff (vec [3; 1; 2]%Q true) = Ok hp /\
    RankingLoss.half_diff (vec [1; 5; 2]%Q false) = Ok ht /\
    shape hp = shape ht /\
    RankingLoss.forward (vec [3; 1; 2]%Q true) (vec [1; 5; 2]%Q false)
      = Ok (scalar (Fin 2) true).
Proof.
  eexists _, _. repeat split; reflexivity.
Qed.

(** C10. On a batch of length 0 or 1 the transform leaves zero pairs, and
    the final division of the empty sum by the pair count 0 makes
    [RankingLoss.forward] return not-a-number: no exception is raised and no
    number is returned. *)
Theorem ranking_loss_short (N : nat) (p t : list Q) (rgp rgt : bool) :
  N <= 1 -> length p = N -> length t = N ->
  RankingLoss.half_diff (vec p rgp) = Ok (mkTensor [0] [] rgp) /\
  RankingLoss.forward (vec p rgp) (vec t rgt) = Ok (scalar NaN rgp) /\
  (forall e, RankingLoss.forward (vec p rgp) (vec t rgt) <> Raise e) /\
  (forall q, RankingLoss.forward (vec p rgp) (vec t rgt) <> Ok (scalar (Fin q) rgp)).
Proof.
  intros HN Hp Ht.
  assert (Hk : length p / 2 = 0).
  { rewrite Hp. apply Nat.div_small. lia. }
  assert (Hf : RankingLoss.forward (vec p rgp) (vec t rgt) = Ok (scalar NaN rgp)).
  { rewrite forward_vec by congruence. rewrite Hk. reflexivity. }
  split; [|split; [exact Hf|split]].
  - rewrite half_diff_vec, Hk. reflexivity.
  - intros e. rewrite Hf. discriminate.
  - intros q. rewrite Hf. discriminate.
Qed.

Lemma ranking_loss_short_witness :
  RankingLoss.half_diff (vec [5 # 2]%Q true) = Ok (mkTensor [0] [] true) /\
  RankingLoss.forward (vec [5 # 2]%Q true) (vec [1]%Q false) = Ok (scalar NaN true) /\
  (forall e, RankingLoss.forward (vec [5 # 2]%Q true) (vec [1]%Q false) <> Raise e) /\
  (forall q, RankingLoss.forward (vec [5 # 2]%Q true) (vec [1]%Q false)
             <> Ok (scalar (Fin q) true)).
Proof.
  apply (ranking_loss_short 1); [lia | reflexivity | reflexivity].
Defined.

(** ** Layers on all-zero tensors, and the shapes they produce *)

Section LayerFacts.

Lemma length_bind_const {A B} (f : A -> list B) (l : list A) (n : nat) :
  (forall x, length (f x) = n) -> length (l ≫= f) = length l * n.
Proof.
  intros H. induction l as [|a l IH]; [reflexivity|].
  rewrite bind_cons, length_app, IH, H. simpl. lia.
Qed.

Lemma nth_replicate_default {A} (i n : nat) (x : A) : nth i (replicate n x) x = x.
Proof.
  revert i. induction n as [|n IH]; intros [|i]; simpl; auto.
Qed.




Lemma relu_shape x : shape (relu x) = shape x.
Proof. reflexivity. Qed.

Lemma zeros_all_zero s rg : all_zero (zeros s rg).
Proof. eexists. reflexivity. Qed.

Lemma nth_all_zero t i : all_zero t -> nth i (data t) (Fin 0) = Fin 0.
Proof. intros [n ->]. apply nth_replicate_default. Qed.


(** The checks of a convolution pass on a layer with channels and a
    kernel that fits. *)
Lemma conv2d_conv_ok (m : Conv2d.t) (x : tensor) lead B H W :
  1 <= Conv2d.in_channels m -> 1 <= Conv2d.out_channels m ->
  Conv2d.kernel_size m <= H + 2 * Conv2d.padding m ->
  Conv2d.kernel_size m <= W + 2 * Conv2d.padding m ->
  Conv2d.conv m x lead B (Conv2d.in_channels m) H W =
  Ok (mkTensor
        (lead ++ [Conv2d.out_channels m; Conv2d.out_size m H; Conv2d.out_size m W])
        (b ← seq 0 B; co ← seq 0 (Conv2d.out_channels m);
         i ← seq 0 (Conv2d.out_size m H); j ← seq 0 (Conv2d.out_size m W);
         [Conv2d.entry m x (Conv2d.in_channels m) H W b co i j])
        (requires_grad x || requires_grad (Conv2d.weight m)
         || bias_grad (Conv2d.bias m))).
Proof.
  intros Hi Ho HH HW. unfold Conv2d.conv.
  replace (Conv2d.out_channels m =? 0) with false
    by (symmetry; apply Nat.eqb_neq; lia).
  rewrite Nat.eqb_refl. cbn [negb].
  replace (Conv2d.in_channels m =? 0) with false
    by (symmetry; apply Nat.eqb_neq; lia).
  cbn [andb].
  replace (H + 2 * Conv2d.padding m <? Conv2d.kernel_size m) with false
    by (symmetry; apply Nat.ltb_ge; exact HH).
  replace (W + 2 * Conv2d.padding m <? Conv2d.kernel_size m) with false
    by (symmetry; apply Nat.ltb_ge; exact HW).
  reflexivity.
Qed.

(** The shape a convolution returns, and when it returns. *)
Lemma conv2d_forward_shape (m : Conv2d.t) (x : tensor) B H W :
  1 <= Conv2d.in_channels m -> 1 <= Conv2d.out_channels m ->
  shape x = [B; Conv2d.in_channels m; H; W] ->
  Conv2d.kernel_size m <= H + 2 * Conv2d.padding m ->
  Conv2d.kernel_size m <= W + 2 * Conv2d.padding m ->
  exists y, Conv2d.forward m x = Ok y /\
    shape y = [B; Conv2d.out_channels m; Conv2d.out_size m H; Conv2d.out_size m W].
Proof.
  intros Hi Ho Hs HH HW. unfold Conv2d.forward. rewrite Hs.
  rewrite conv2d_conv_ok by assumption.
  eexists. split; reflexivity.
Qed.




End LayerFacts.

(** ** Residual *)

Section ResidualFacts.

Lemma out_size_3_1_1 n : 1 <= n -> (n + 2 * 1 - 3) / 1 + 1 = n.
Proof. intros H. rewrite Nat.div_1_r. lia. Qed.

Lemma out_size_1_1_0 n : 1 <= n -> (n + 2 * 0 - 1) / 1 + 1 = n.
Proof. intros H. rewrite Nat.div_1_r. lia. Qed.



End ResidualFacts.




(** ** Shapes through the encoder and the latent statistics *)

Section ShapeFacts.

Lemma conv_out_size_3_1_1 rng b ci co hb n :
  1 <= n -> Conv2d.out_size (Conv2d.init rng b ci co 3 1 1 hb) n = n.
Proof. intros H. unfold Conv2d.out_size, Conv2d.init. cbn [Conv2d.padding
  Conv2d.kernel_size Conv2d.stride]. apply out_size_3_1_1, H. Qed.

Lemma conv_out_size_1_1_0 rng b ci co hb n :
  1 <= n -> Conv2d.out_size (Conv2d.init rng b ci co 1 1 0 hb) n = n.
Proof. intros H. unfold Conv2d.out_size, Conv2d.init. cbn [Conv2d.padding
  Conv2d.kernel_size Conv2d.stride]. apply out_size_1_1_0, H. Qed.

Lemma binop_shape_same f (a b : tensor) :
  shape a = shape b ->
  exists r, binop f a b = Ok r /\ shape r = shape a.
Proof.
  intros E. rewrite binop_same_shape by exact E. eexists. split; reflexivity.
Qed.

(** A block built with as many output as input channels keeps the shape. *)
Lemma residual_forward_shape rng base C nrh leaf x B H W :
  1 <= C -> 1 <= nrh -> leaf && requires_grad x = false ->
  shape x = [B; C; H; W] -> 1 <= H -> 1 <= W ->
  exists r x',
    Residual.forward (Residual.init rng base C C nrh) leaf x = Ok (r, x') /\
    shape r = [B; C; H; W].
Proof.
  intros HC Hnrh Hleaf Hs HH HW. unfold Residual.forward, Residual._block.
  rewrite Hleaf.
  destruct (conv2d_forward_shape
              (Residual._block_1 (Residual.init rng base C C nrh)) (relu x) B H W)
    as (h & Eh & Sh); [exact HC | exact Hnrh | exact Hs | cbn; lia | cbn; lia |].
  rewrite Eh. cbn [mbind result_bind].
  destruct (conv2d_forward_shape
              (Residual._block_3 (Residual.init rng base C C nrh)) (relu h) B H W)
    as (o & Eo & So).
  { exact Hnrh. }
  { exact HC. }
  { rewrite relu_shape, Sh. cbn [Residual._block_1 Residual._block_3 Residual.init].
    rewrite !conv_out_size_3_1_1 by assumption. reflexivity. }
  { cbn; lia. }
  { cbn; lia. }
  rewrite Eo. cbn [mbind result_bind].
  destruct (binop_shape_same fl_add (relu x) o) as (r & Er & Sr).
  { rewrite relu_shape, Hs, So. cbn [Residual._block_1 Residual._block_3 Residual.init].
    rewrite !conv_out_size_1_1_0 by assumption. reflexivity. }
  rewrite Er. cbn [mbind result_bind]. eexists _, _. split; [reflexivity|].
  rewrite Sr, relu_shape. exact Hs.
Qed.

Lemma residual_stack_loop_shape rng base C nrh L B H W :
  1 <= C -> 1 <= nrh -> 1 <= H -> 1 <= W ->
  forall n i leaf x,
    i + n <= L -> leaf && requires_grad x = false -> shape x = [B; C; H; W] ->
    exists y,
      ResidualStack.loop
        (ResidualStack._layers (ResidualStack.init rng base C C L nrh)) i n leaf x
        = Ok y /\
      shape y = [B; C; H; W].
Proof.
  intros HC Hnrh HH HW. induction n as [|n IH]; intros i leaf x Hi Hleaf Hs.
  - eexists. split; [reflexivity | exact Hs].
  - cbn [ResidualStack.loop ResidualStack.init ResidualStack._layers].
    rewrite list_lookup_fmap, lookup_seq_lt by lia. cbn [fmap option_fmap option_map].
    destruct (residual_forward_shape rng (base + 2 * (0 + i)) C nrh leaf x B H W
                HC Hnrh Hleaf Hs HH HW)
      as (r & x' & Er & Sr).
    rewrite Er. cbn [mbind result_bind].
    apply (IH (S i) false r); [lia | reflexivity | exact Sr].
Qed.

(** A stack without layers returns its argument, so it needs no residual
    hidden channel. *)
Lemma residual_stack_forward_shape rng base C nrh L leaf x B H W :
  1 <= C -> L = 0 \/ 1 <= nrh -> leaf && requires_grad x = false ->
  1 <= H -> 1 <= W -> shape x = [B; C; H; W] ->
  exists y,
    ResidualStack.forward (ResidualStack.init rng base C C L nrh) leaf x = Ok y /\
    shape y = [B; C; H; W].
Proof.
  intros HC [->|Hnrh] Hleaf HH HW Hs; unfold ResidualStack.forward.
  - eexists. split; [reflexivity | exact Hs].
  - apply (residual_stack_loop_shape rng base C nrh L B H W HC Hnrh HH HW L 0 leaf x);
      [cbn; lia | exact Hleaf | exact Hs].
Qed.

(** The encoder takes 32 by 32 images to [num_hiddens] channels of 8 by 8,
    when each of its layers has a channel. *)
Lemma encoder_forward_shape_32 rng base nh L nrh x B :
  2 <= nh -> L = 0 \/ 1 <= nrh ->
  shape x = [B; 3; 32; 32] ->
  exists y,
    Encoder.forward (Encoder.init rng base 3 nh L nrh) x = Ok y /\
    shape y = [B; nh; 8; 8].
Proof.
  intros Hnh Hnrh Hs. unfold Encoder.forward.
  assert (Hh : 1 <= nh / 2) by (apply Nat.div_le_lower_bound; lia).
  destruct (conv2d_forward_shape
              (Encoder._conv_1 (Encoder.init rng base 3 nh L nrh)) x B 32 32)
    as (x1 & E1 & S1);
    [cbn; lia | exact Hh | exact Hs | cbn; lia | cbn; lia |].
  rewrite E1. cbn [mbind result_bind].
  destruct (conv2d_forward_shape
              (Encoder._conv_2 (Encoder.init rng base 3 nh L nrh)) (relu x1) B 16 16)
    as (x2 & E2 & S2);
    [exact Hh | cbn; lia | rewrite relu_shape; exact S1 | cbn; lia | cbn; lia |].
  rewrite E2. cbn [mbind result_bind].
  destruct (conv2d_forward_shape
              (Encoder._conv_3 (Encoder.init rng base 3 nh L nrh)) (relu x2) B 8 8)
    as (x3 & E3 & S3);
    [cbn; lia | cbn; lia | rewrite relu_shape; exact S2 | cbn; lia | cbn; lia |].
  rewrite E3. cbn [mbind result_bind].
  apply residual_stack_forward_shape;
    [lia | exact Hnrh | reflexivity | lia | lia | exact S3].
Qed.

Lemma linear_forward_shape (m : Linear.t) (x : tensor) (lead : list nat) :
  shape x = lead ++ [Linear.in_features m] ->
  exists y, Linear.forward m x = Ok y /\
            shape y = lead ++ [Linear.out_features m].
Proof.
  intros Hs. unfold Linear.forward. rewrite Hs, reverse_snoc, Nat.eqb_refl.
  eexists. split; [reflexivity|]. cbn [shape].
  rewrite reverse_cons, reverse_involutive. reflexivity.
Qed.

(** A linear layer refuses a tensor whose last dimension is not its
    [in_features]. *)
Lemma linear_forward_mismatch (m : Linear.t) (x : tensor) (lead : list nat) d :
  shape x = lead ++ [d] -> d <> Linear.in_features m ->
  Linear.forward m x = Raise RuntimeError.
Proof.
  intros Hs Hd. unfold Linear.forward. rewrite Hs, reverse_snoc.
  apply Nat.eqb_neq in Hd. rewrite Hd. reflexivity.
Qed.

(** [VAE.forward] on 32 by 32 images stops at [self.fc_mu(encoder_out)]. *)
Lemma vae_forward_32_raises fl_exp randn_like rng nh L nrh ne ed md x B :
  2 <= nh -> L = 0 \/ 1 <= nrh ->
  shape x = [B; 3; 32; 32] ->
  VAE.forward fl_exp randn_like (VAE.init rng nh L nrh ne ed md) x
  = Raise RuntimeError.
Proof.
  intros Hnh Hnrh Hs. unfold VAE.forward.
  destruct (encoder_forward_shape_32 rng 0 nh L nrh x B Hnh Hnrh Hs)
    as (y & Ey & Sy).
  change (VAE._encoder (VAE.init rng nh L nrh ne ed md))
    with (Encoder.init rng 0 3 nh L nrh).
  rewrite Ey. cbn [mbind result_bind].
  destruct (conv2d_forward_shape
              (VAE.conv1 (VAE.init rng nh L nrh ne ed md)) y B 8 8)
    as (_x & Ex & Sx); [cbn; lia | cbn; lia | exact Sy | cbn; lia | cbn; lia |].
  rewrite Ex. cbn [mbind result_bind].
  rewrite (linear_forward_mismatch (VAE.fc_mu (VAE.init rng nh L nrh ne ed md))
             y [B; nh; 8] 8); [reflexivity | exact Sy |].
  cbn [VAE.fc_mu VAE.init Linear.init Linear.in_features]. lia.
Qed.

End ShapeFacts.

(** C2, as the code has it. For a batch of [B] 3-channel 32 by 32 images
    and a hidden width [H] of at least 2, with at least one residual hidden
    channel unless there is no residual layer (so that no layer is without
    channels), the encoder's output has [H] channels of spatial size 8 by 8;
    the network's further convolution [conv1] takes it to [H] channels of 4 by
    4, that is [H × 16] values per image; and [fc_mu] and [fc_var] accept a
    flattened [H × 16]-dimensional vector per image and produce
    [H]-dimensional mean and log-variance vectors. *)
Theorem vae_shapes_32 (rng : initializer) (H L RH NE ED : nat) (MD : pyarg)
    (B : nat) (x : tensor) :
  2 <= H -> L = 0 \/ 1 <= RH ->
  shape x = [B; 3; 32; 32] ->
  exists encoder_out _x,
    Encoder.forward (VAE._encoder (VAE.init rng H L RH NE ED MD)) x
      = Ok encoder_out /\
    shape encoder_out = [B; H; 8; 8] /\
    Conv2d.forward (VAE.conv1 (VAE.init rng H L RH NE ED MD)) encoder_out
      = Ok _x /\
    shape _x = [B; H; 4; 4] /\ numel [H; 4; 4] = H * 16 /\
    forall v, shape v = [B; H * 16] ->
      exists mu logvar,
        Linear.forward (VAE.fc_mu (VAE.init rng H L RH NE ED MD)) v = Ok mu /\
        shape mu = [B; H] /\
        Linear.forward (VAE.fc_var (VAE.init rng H L RH NE ED MD)) v = Ok logvar /\
        shape logvar = [B; H].
Proof.
  intros HH HRH Hs.
  destruct (encoder_forward_shape_32 rng 0 H L RH x B HH HRH Hs) as (y & Ey & Sy).
  destruct (conv2d_forward_shape
              (VAE.conv1 (VAE.init rng H L RH NE ED MD)) y B 8 8)
    as (_x & Ex & Sx); [cbn; lia | cbn; lia | exact Sy | cbn; lia | cbn; lia |].
  exists y, _x. split; [exact Ey|]. split; [exact Sy|]. split; [exact Ex|].
  split; [exact Sx|]. split; [cbn; lia|].
  intros v Hv.
  destruct (linear_forward_shape (VAE.fc_mu (VAE.init rng H L RH NE ED MD)) v [B])
    as (mu & Em & Sm); [exact Hv|].
  destruct (linear_forward_shape (VAE.fc_var (VAE.init rng H L RH NE ED MD)) v [B])
    as (lv & El & Sl); [exact Hv|].
  exists mu, lv. repeat split; assumption.
Qed.

Lemma vae_shapes_32_witness :
  exists encoder_out _x,
    Encoder.forward
      (VAE._encoder (VAE.init (fun _ s => zeros s true) 2 1 1 4 3 (ArgInt 1)))
      (zeros [1; 3; 32; 32] false) = Ok encoder_out /\
    shape encoder_out = [1; 2; 8; 8] /\
    Conv2d.forward
      (VAE.conv1 (VAE.init (fun _ s => zeros s true) 2 1 1 4 3 (ArgInt 1)))
      encoder_out = Ok _x /\
    shape _x = [1; 2; 4; 4] /\ numel [2; 4; 4] = 2 * 16 /\
    forall v, shape v = [1; 2 * 16] ->
      exists mu logvar,
        Linear.forward
          (VAE.fc_mu (VAE.init (fun _ s => zeros s true) 2 1 1 4 3 (ArgInt 1))) v
          = Ok mu /\
        shape mu = [1; 2] /\
        Linear.forward
          (VAE.fc_var (VAE.init (fun _ s => zeros s true) 2 1 1 4 3 (ArgInt 1))) v
          = Ok logvar /\
        shape logvar = [1; 2].
Proof.
  apply (vae_shapes_32 (fun _ s => zeros s true) 2 1 1 4 3 (ArgInt 1) 1
           (zeros [1; 3; 32; 32] false)).
  - lia.
  - right. lia.
  - reflexivity.
Defined.

(** C2 as stated fails for one image and hidden width 2: the encoder's
    output is 8 by 8, not 4 by 4, and [VAE.forward] passes it unflattened to
    [fc_mu], which refuses it. *)
Lemma vae_shapes_32_counterexample :
  let m := VAE.init (fun _ s => zeros s true) 2 1 1 4 3 (ArgInt 1) in
  let x := zeros [1; 3; 32; 32] false in
  (exists encoder_out,
     Encoder.forward (VAE._encoder m) x = Ok encoder_out /\
     shape encoder_out = [1; 2; 8; 8] /\ shape encoder_out <> [1; 2; 4; 4]) /\
  VAE.forward (fun v => v) (fun t => t) m x = Raise RuntimeError.
Proof.
  cbv zeta. split.
  - destruct (encoder_forward_shape_32 (fun _ s => zeros s true) 0 2 1 1
                (zeros [1; 3; 32; 32] false) 1) as (y & Ey & Sy);
      [lia | right; lia | reflexivity |].
    exists y. split; [exact Ey|]. split; [exact Sy|]. rewrite Sy. discriminate.
  - apply (vae_forward_32_raises _ _ _ 2 1 1 4 3 _ _ 1);
      [lia | right; lia | reflexivity].
Qed.

(** ** The strategy *)

Section StrategyFacts.

Variable P : Type.
Variable net : P -> list tensor -> result (list tensor).
Variable net_state_dict : P -> state_dict.
Variable zero_grad : P -> P.
Variable backward : tensor -> P -> result P.
Variable opt_step : Q -> P -> P.
Variable writable : string -> bool.
Variable task_forward : state_dict -> tensor -> result tensor.
Variable loss_module : tensor -> tensor -> result tensor.
Variable uncertainty_score : tensor -> result tensor.

Local Abbreviation M := (Strategy.M P).
Local Abbreviation bind := (@Strategy.bind P _ _).
Local Abbreviation keeps := (@Strategy.keeps P _).
Local Abbreviation fails_keeping := (@Strategy.fails_keeping P _).

Lemma keeps_ret {A} (a : A) : keeps (Strategy.ret P a).
Proof. intros s. split; reflexivity. Qed.

Lemma keeps_lift {A} (r : result A) : keeps (Strategy.lift P r).
Proof. intros s. split; reflexivity. Qed.

Lemma keeps_get : keeps (Strategy.get P).
Proof. intros s. split; reflexivity. Qed.

Lemma keeps_set_vae p : keeps (Strategy.set_vae P p).
Proof. intros s. split; reflexivity. Qed.

Lemma keeps_set_scheduler sch l : keeps (Strategy.set_scheduler P sch l).
Proof. intros s. split; reflexivity. Qed.

Lemma keeps_bind {A B} (m : M A) (f : A -> M B) :
  keeps m -> (forall a, keeps (f a)) -> keeps (bind m f).
Proof.
  intros Hm Hf s. unfold Strategy.bind.
  destruct (Hm s) as [H1 H2]. destruct (m s) as [[a|e] s']; cbn [snd] in *.
  - destruct (Hf a s') as [H3 H4]. split; congruence.
  - split; assumption.
Qed.

Lemma fails_keeping_bind {A B} (m : M A) (f : A -> M B) :
  keeps m -> (forall a, fails_keeping (f a)) -> fails_keeping (bind m f).
Proof.
  intros Hm Hf s. unfold Strategy.bind.
  destruct (Hm s) as [H1 H2]. destruct (m s) as [[a|e] s']; cbn [snd] in *.
  - destruct (Hf a s') as (H3 & H4 & H5). split; [exact H3|]. split; congruence.
  - split; [exists e; reflexivity|]. split; assumption.
Qed.

Ltac keeps_tac :=
  repeat first
    [ apply keeps_ret | apply keeps_lift | apply keeps_get
    | apply keeps_set_vae | apply keeps_set_scheduler
    | apply keeps_bind; [|intros ?]
    | match goal with |- keeps (let '(_, _) := ?x in _) => destruct x end
    | match goal with |- keeps (match ?x with _ => _ end) => destruct x end ].

Lemma keeps_backprop_and_step avg loss :
  keeps (Strategy.backprop_and_step P backward opt_step avg loss).
Proof. unfold Strategy.backprop_and_step, mbind, Strategy.M_bind. keeps_tac. Qed.

Lemma keeps_train_step avg data :
  keeps (Strategy.train_step P net zero_grad backward opt_step task_forward
           loss_module uncertainty_score avg data).
Proof.
  unfold Strategy.train_step, mbind, Strategy.M_bind. keeps_tac.
  all: try apply keeps_backprop_and_step.
Qed.

Lemma keeps_eval_step avg data :
  keeps (Strategy.eval_step P net task_forward loss_module uncertainty_score
           avg data).
Proof. unfold Strategy.eval_step, mbind, Strategy.M_bind. keeps_tac. Qed.

Lemma keeps_for_each {A B} (body : A -> B -> M A) (l : list B) :
  (forall a b, keeps (body a b)) -> forall acc, keeps (Strategy.for_each P body acc l).
Proof.
  intros Hb. induction l as [|x l IH]; intros acc; cbn [Strategy.for_each].
  - apply keeps_ret.
  - unfold mbind, Strategy.M_bind. apply keeps_bind; [apply Hb | exact IH].
Qed.

(** When the collaborators and the network call succeed, the training step
    back-propagates the tensor [batch_loss] computes. *)
Lemma train_step_loss avg data (s : Strategy.t P)
    (o u vq_loss data_recon perplexity distance recon_error loss : tensor) :
  task_forward (Strategy.task s) data = Ok o ->
  uncertainty_score o = Ok u ->
  net (zero_grad (Strategy.vae s)) [data; u]
    = Ok [vq_loss; data_recon; perplexity; distance] ->
  loss_module data_recon data = Ok recon_error ->
  Strategy.batch_loss (Strategy.step_cnt s)
    (Config.vae_distance (Strategy.config s)) recon_error vq_loss u distance
    = Ok loss ->
  Strategy.train_step P net zero_grad backward opt_step task_forward
    loss_module uncertainty_score avg data s
  = Strategy.backprop_and_step P backward opt_step avg loss
      (Strategy.mk (Strategy.config s) (Strategy.step_cnt s)
         (Strategy.best_acc s) (Strategy.task s) (zero_grad (Strategy.vae s))
         (Strategy.lr s) (Strategy.vae_scheduler s) (Strategy.epoch s)
         (Strategy.fs s) (Strategy.stdout s)).
Proof.
  intros Ho Hu Hn Hr Hl. destruct s as [cfg sc ba tk va l sch ep files out].
  cbn [Strategy.fs Strategy.config Strategy.stdout Strategy.task
       Strategy.step_cnt Strategy.best_acc Strategy.vae Strategy.lr
       Strategy.vae_scheduler Strategy.epoch] in *.
  unfold Strategy.train_step.
  cbv [mbind Strategy.M_bind Strategy.bind Strategy.get Strategy.set_vae
       Strategy.lift Strategy.fs Strategy.config Strategy.stdout Strategy.task
       Strategy.step_cnt Strategy.best_acc Strategy.vae Strategy.lr
       Strategy.vae_scheduler Strategy.epoch].
  rewrite Ho, Hu, Hn. cbn [unpack4]. rewrite Hr, Hl. reflexivity.
Qed.

(** The accuracy test divides by the zero that [total] still is. *)
Lemma accuracy_check_raises (s : Strategy.t P) :
  Strategy.accuracy_check P net_state_dict writable 0 0 s
  = (Raise ZeroDivisionError, s).
Proof. reflexivity. Qed.

Lemma train_by_epoch_fails train_batches test_batches :
  fails_keeping (Strategy.train_by_epoch P net net_state_dict zero_grad backward
                   opt_step writable task_forward loss_module uncertainty_score
                   train_batches test_batches).
Proof.
  unfold Strategy.train_by_epoch, mbind, Strategy.M_bind.
  apply fails_keeping_bind.
  { apply keeps_for_each. intros. apply keeps_train_step. }
  intros avg. apply fails_keeping_bind; [apply keeps_get|]. intros s0.
  apply fails_keeping_bind; [apply keeps_lift|]. intros metrics.
  apply fails_keeping_bind.
  { destruct (ReduceLROnPlateau.step _ _ _). apply keeps_set_scheduler. }
  intros _. apply fails_keeping_bind.
  { apply keeps_for_each. intros. apply keeps_eval_step. }
  intros _ s. rewrite accuracy_check_raises. cbn [fst snd].
  split; [eexists; reflexivity|]. split; reflexivity.
Qed.

(** [load_checkpoint] when the classifier's checkpoint is missing, and
    when it is there. *)
Lemma load_checkpoint_missing (s : Strategy.t P) :
  let filename := path_join (Config.root_path (Strategy.config s))
                    [Config.checkpoint_directory (Strategy.config s);
                     "task.pth.tar"] in
  Strategy.fs s !! filename = None ->
  Strategy.load_checkpoint P s =
  (Ok tt,
   Strategy.mk (Strategy.config s) (Strategy.step_cnt s) (Strategy.best_acc s)
     (Strategy.task s) (Strategy.vae s) (Strategy.lr s)
     (Strategy.vae_scheduler s) (Strategy.epoch s) (Strategy.fs s)
     (Strategy.stdout s ++
      ["Loading checkpoint '" +:+ filename +:+ "'";
       "No checkpoint exists from '"
       +:+ Config.checkpoint_directory (Strategy.config s) +:+ "'. Skipping...";
       "**First time to train**"])).
Proof.
  intros filename Hf. subst filename.
  destruct s as [cfg sc ba tk va l sch ep files out].
  cbn [Strategy.fs Strategy.config Strategy.stdout Strategy.task
       Strategy.step_cnt Strategy.best_acc Strategy.vae Strategy.lr
       Strategy.vae_scheduler Strategy.epoch] in *.
  cbv [Strategy.load_checkpoint mbind Strategy.M_bind Strategy.bind
       Strategy.get Strategy.try_except_OSError Strategy.print
       Strategy.torch_load Strategy.lift Strategy.ret
       Strategy.fs Strategy.config Strategy.stdout Strategy.task
       Strategy.step_cnt Strategy.best_acc Strategy.vae Strategy.lr
       Strategy.vae_scheduler Strategy.epoch].
  rewrite Hf. rewrite <- !app_assoc. reflexivity.
Qed.

Lemma load_checkpoint_present (s : Strategy.t P) (c : checkpoint)
    (d w : state_dict) :
  let filename := path_join (Config.root_path (Strategy.config s))
                    [Config.checkpoint_directory (Strategy.config s);
                     "task.pth.tar"] in
  Strategy.fs s !! filename = Some c ->
  c !! "task_state_dict" = Some d ->
  load_state_dict (Strategy.task s) d = (Ok tt, w) ->
  Strategy.load_checkpoint P s =
  (Ok tt,
   Strategy.mk (Strategy.config s) (Strategy.step_cnt s) (Strategy.best_acc s)
     w (Strategy.vae s) (Strategy.lr s)
     (Strategy.vae_scheduler s) (Strategy.epoch s) (Strategy.fs s)
     (Strategy.stdout s ++ ["Loading checkpoint '" +:+ filename +:+ "'"])).
Proof.
  intros filename Hf Hc Hw. subst filename.
  destruct s as [cfg sc ba tk va l sch ep files out].
  cbn [Strategy.fs Strategy.config Strategy.stdout Strategy.task
       Strategy.step_cnt Strategy.best_acc Strategy.vae Strategy.lr
       Strategy.vae_scheduler Strategy.epoch] in *.
  cbv [Strategy.load_checkpoint mbind Strategy.M_bind Strategy.bind
       Strategy.get Strategy.try_except_OSError Strategy.print
       Strategy.torch_load Strategy.lift Strategy.ret Strategy.getitem
       Strategy.set_task
       Strategy.fs Strategy.config Strategy.stdout Strategy.task
       Strategy.step_cnt Strategy.best_acc Strategy.vae Strategy.lr
       Strategy.vae_scheduler Strategy.epoch].
  rewrite Hf, Hc, Hw. reflexivity.
Qed.

End StrategyFacts.

(** ** The batch loss *)

Section BatchLossFacts.

Lemma broadcast_shapes_scalar (s : list nat) : broadcast_shapes s [] = Some s.
Proof.
  unfold broadcast_shapes. change (reverse (@nil nat)) with (@nil nat).
  destruct (reverse s) as [|x r] eqn:E; cbn [broadcast_rev fmap option_fmap option_map].
  - rewrite <- (reverse_involutive s), E. reflexivity.
  - rewrite <- E, reverse_involutive. reflexivity.
Qed.

(** Adding a zero-dimensional tensor in place is plain addition. *)
Lemma iadd_scalar (a : tensor) (v : fl) (rg : bool) :
  iadd a (scalar v rg) = binop fl_add a (scalar v rg).
Proof.
  unfold iadd, binop. cbn [shape scalar]. rewrite broadcast_shapes_scalar.
  cbn [mbind result_bind shape]. rewrite bool_decide_eq_true_2 by reflexivity.
  reflexivity.
Qed.

Lemma batch_loss_spec step_cnt D recon_error vq_loss u_score distance :
  Strategy.batch_loss step_cnt D recon_error vq_loss u_score distance =
  LossSpec.total step_cnt D recon_error vq_loss u_score distance.
Proof.
  unfold Strategy.batch_loss, LossSpec.total, LossSpec.distance_term.
  destruct (binop fl_add recon_error vq_loss) as [base|e]; [|reflexivity].
  cbn [mbind result_bind]. destruct step_cnt as [|n]; [reflexivity|].
  cbn [Nat.eqb negb].
  destruct (binop fl_sub u_score _) as [d|e]; [|reflexivity].
  cbn [mbind result_bind]. apply iadd_scalar.
Qed.

End BatchLossFacts.

(** ** The training step *)

(** Lines 150 to 157 as they are written: for a network object that accepts
    the call of line 148 and returns four tensors, the step forms the loss of
    [batch_loss], hands it to [backward] twice, steps the optimizer and
    records the loss. *)
Lemma train_step_backpropagates
    (P : Type) (net : P -> list tensor -> result (list tensor))
    (zero_grad : P -> P) (backward : tensor -> P -> result P)
    (opt_step : Q -> P -> P)
    (task_forward : state_dict -> tensor -> result tensor)
    (loss_module : tensor -> tensor -> result tensor)
    (uncertainty_score : tensor -> result tensor)
    (avg : AverageMeter.t) (data : tensor) (s : Strategy.t P)
    (o u vq_loss data_recon perplexity distance recon_error loss : tensor) :
  task_forward (Strategy.task s) data = Ok o ->
  uncertainty_score o = Ok u ->
  net (zero_grad (Strategy.vae s)) [data; u]
    = Ok [vq_loss; data_recon; perplexity; distance] ->
  loss_module data_recon data = Ok recon_error ->
  LossSpec.total (Strategy.step_cnt s) (Config.vae_distance (Strategy.config s))
    recon_error vq_loss u distance = Ok loss ->
  let after p :=
    Strategy.mk (Strategy.config s) (Strategy.step_cnt s) (Strategy.best_acc s)
      (Strategy.task s) p (Strategy.lr s) (Strategy.vae_scheduler s)
      (Strategy.epoch s) (Strategy.fs s) (Strategy.stdout s) in
  Strategy.train_step P net zero_grad backward opt_step task_forward
    loss_module uncertainty_score avg data s
  = match backward loss (zero_grad (Strategy.vae s)) with
    | Raise e => (Raise e, after (zero_grad (Strategy.vae s)))
    | Ok p1 =>
        match backward loss p1 with
        | Raise e => (Raise e, after (zero_grad (Strategy.vae s)))
        | Ok p2 =>
            (AverageMeter.update avg loss 1, after (opt_step (Strategy.lr s) p2))
        end
    end.
Proof.
  intros Ho Hu Hn Hr Hl after. subst after.
  rewrite <- batch_loss_spec in Hl.
  rewrite (train_step_loss P net zero_grad backward opt_step task_forward
             loss_module uncertainty_score avg data s o u vq_loss data_recon
             perplexity distance recon_error loss Ho Hu Hn Hr Hl).
  destruct s as [cfg sc ba tk va l sch ep files out].
  cbv [Strategy.backprop_and_step mbind Strategy.M_bind Strategy.bind
       Strategy.get Strategy.set_vae Strategy.lift
       Strategy.fs Strategy.config Strategy.stdout Strategy.task
       Strategy.step_cnt Strategy.best_acc Strategy.vae Strategy.lr
       Strategy.vae_scheduler Strategy.epoch].
  destruct (backward loss (zero_grad va)) as [p1|e]; [|reflexivity].
  destruct (backward loss p1) as [p2|e]; reflexivity.
Qed.

(** C6 fails on the code. With the repository's network bound to
    [self.vae], the training step of either cycle ends at the call of line
    148: it raises the exception of the classifier or of the uncertainty
    score, or else [TypeError], having only zeroed the gradients. The loss of
    lines 150 to 153 is never formed and nothing is back-propagated: the
    outcome is the same whatever [backward], the optimizer step and the
    reconstruction loss would do. *)
Theorem training_step_forms_no_loss
    (fl_exp : fl -> fl) (randn_like : tensor -> tensor)
    (zero_grad : VAE.t -> VAE.t) (backward : tensor -> VAE.t -> result VAE.t)
    (opt_step : Q -> VAE.t -> VAE.t)
    (task_forward : state_dict -> tensor -> result tensor)
    (loss_module : tensor -> tensor -> result tensor)
    (uncertainty_score : tensor -> result tensor)
    (avg : AverageMeter.t) (data : tensor) (s : Strategy.t VAE.t) :
  Strategy.train_step VAE.t (VAE.call fl_exp randn_like) zero_grad backward
    opt_step task_forward loss_module uncertainty_score avg data s
  = (Raise (match task_forward (Strategy.task s) data with
            | Raise e => e
            | Ok o =>
                match uncertainty_score o with
                | Raise e => e
                | Ok _ => TypeError
                end
            end),
     Strategy.mk (Strategy.config s) (Strategy.step_cnt s) (Strategy.best_acc s)
       (Strategy.task s) (zero_grad (Strategy.vae s)) (Strategy.lr s)
       (Strategy.vae_scheduler s) (Strategy.epoch s) (Strategy.fs s)
       (Strategy.stdout s)) /\
  forall backward' opt_step' loss_module',
    Strategy.train_step VAE.t (VAE.call fl_exp randn_like) zero_grad backward'
      opt_step' task_forward loss_module' uncertainty_score avg data s
    = Strategy.train_step VAE.t (VAE.call fl_exp randn_like) zero_grad backward
        opt_step task_forward loss_module uncertainty_score avg data s.
Proof.
  assert (E : forall backward opt_step loss_module,
    Strategy.train_step VAE.t (VAE.call fl_exp randn_like) zero_grad backward
      opt_step task_forward loss_module uncertainty_score avg data s
    = (Raise (match task_forward (Strategy.task s) data with
              | Raise e => e
              | Ok o =>
                  match uncertainty_score o with
                  | Raise e => e
                  | Ok _ => TypeError
                  end
              end),
       Strategy.mk (Strategy.config s) (Strategy.step_cnt s)
         (Strategy.best_acc s) (Strategy.task s) (zero_grad (Strategy.vae s))
         (Strategy.lr s) (Strategy.vae_scheduler s) (Strategy.epoch s)
         (Strategy.fs s) (Strategy.stdout s))).
  { intros bw os lm. destruct s as [cfg sc ba tk va l sch ep files out].
    unfold Strategy.train_step.
    cbv [mbind Strategy.M_bind Strategy.bind Strategy.get Strategy.set_vae
         Strategy.lift Strategy.fs Strategy.config Strategy.stdout
         Strategy.task Strategy.step_cnt Strategy.best_acc Strategy.vae
         Strategy.lr Strategy.vae_scheduler Strategy.epoch].
    destruct (task_forward tk data) as [o|e]; [|reflexivity].
    destruct (uncertainty_score o) as [u|e]; reflexivity. }
  split; [apply E|]. intros bw os lm. rewrite !E. reflexivity.
Qed.

(** ** The invocations of the network *)

(** C1 fails on the code. Whatever the network and the two tensors, the
    call [self.vae(data, u_score)] raises [TypeError], since [forward] takes
    one argument; a tuple of four outputs does not unpack into the three
    names of the evaluation step; and with this network neither the
    training step nor the evaluation step returns. *)
Theorem strategy_vae_call_mismatch
    (fl_exp : fl -> fl) (randn_like : tensor -> tensor)
    (m : VAE.t) (data u_score : tensor) :
  VAE.call fl_exp randn_like m [data; u_score] = Raise TypeError /\
  (forall a b c d : tensor, unpack3 [a; b; c; d] = Raise ValueError) /\
  (forall zero_grad backward opt_step task_forward loss_module uncertainty_score
          avg (s : Strategy.t VAE.t),
      exists e s',
        Strategy.train_step VAE.t (VAE.call fl_exp randn_like) zero_grad
          backward opt_step task_forward loss_module uncertainty_score
          avg data s = (Raise e, s')) /\
  (forall task_forward loss_module uncertainty_score avg (s : Strategy.t VAE.t),
      exists e s',
        Strategy.eval_step VAE.t (VAE.call fl_exp randn_like)
          task_forward loss_module uncertainty_score avg data s = (Raise e, s')).
Proof.
  split; [reflexivity|]. split; [reflexivity|]. split.
  - intros. unfold Strategy.train_step.
    cbv [mbind Strategy.M_bind Strategy.bind Strategy.get Strategy.set_vae
         Strategy.lift Strategy.task Strategy.vae].
    destruct (task_forward _ data) as [o|e]; [|eexists _, _; reflexivity].
    destruct (uncertainty_score o) as [u|e]; [|eexists _, _; reflexivity].
    eexists _, _; reflexivity.
  - intros. unfold Strategy.eval_step.
    cbv [mbind Strategy.M_bind Strategy.bind Strategy.get Strategy.set_vae
         Strategy.lift Strategy.task Strategy.vae].
    destruct (task_forward _ data) as [o|e]; [|eexists _, _; reflexivity].
    destruct (uncertainty_score o) as [u|e]; [|eexists _, _; reflexivity].
    eexists _, _; reflexivity.
Qed.

(** ** The accuracy test *)

(** C3 fails on the code. [correct] and [total] are still 0 when the ratio
    is taken, so the accuracy test raises [ZeroDivisionError]; an epoch never
    returns normally, never changes the best accuracy and never writes a
    file, whatever network is bound to [self.vae]. *)
Theorem accuracy_test_divides_by_zero
    (P : Type) (net : P -> list tensor -> result (list tensor))
    (net_state_dict : P -> state_dict) (zero_grad : P -> P)
    (backward : tensor -> P -> result P) (opt_step : Q -> P -> P)
    (writable : string -> bool)
    (task_forward : state_dict -> tensor -> result tensor)
    (loss_module : tensor -> tensor -> result tensor)
    (uncertainty_score : tensor -> result tensor)
    (train_batches test_batches : list tensor) (s : Strategy.t P) :
  Strategy.accuracy_check P net_state_dict writable 0 0 s
  = (Raise ZeroDivisionError, s) /\
  exists e s',
    Strategy.train_by_epoch P net net_state_dict zero_grad backward opt_step
      writable task_forward loss_module uncertainty_score
      train_batches test_batches s
    = (Raise e, s') /\
    Strategy.fs s' = Strategy.fs s /\
    Strategy.best_acc s' = Strategy.best_acc s.
Proof.
  split; [reflexivity|].
  destruct (train_by_epoch_fails P net net_state_dict zero_grad backward opt_step
              writable task_forward loss_module uncertainty_score
              train_batches test_batches s) as ([e He] & Hfs & Hacc).
  destruct (Strategy.train_by_epoch _ _ _ _ _ _ _ _ _ _ _ _ s) as [r s'].
  cbn [fst snd] in *. subst r. exists e, s'. repeat split; assumption.
Qed.

(** ** Construction *)

(** C8 fails on the code. The constructor calls [vae(...)] with eight
    arguments and [VAE.__init__] takes six, so construction raises
    [TypeError] before [load_checkpoint] is reached and prints nothing,
    whether or not the checkpoint file exists. *)
Theorem strategy_construction_raises
    (rng : initializer) (task0 : state_dict) (files : filesystem)
    (config : Config.t) (step_cnt : nat) :
  VAE.new rng (Strategy.vae_args config) = Raise TypeError /\
  Strategy.init VAE.t (VAE.new rng) task0 files config step_cnt
  = (Raise TypeError, []).
Proof. split; reflexivity. Qed.

(** ** The learning-rate scheduler *)

Section SchedulerFacts.

Import ReduceLROnPlateau.

(** The scheduler of the strategy with best value [b], [nb] bad epochs and
    cooldown counter [cc]. *)
Local Abbreviation sched b nb cc :=
  (mk (8 # 10) 10 (1 # 10000) 8 0 (1 # 100000000) b nb cc).

Lemma new_scheduler_eq : Strategy.new_scheduler = Ok (sched PInf 0 0).
Proof. reflexivity. Qed.

(** The first loss observed improves on the initial best. *)
Lemma step_first (lr q : Q) :
  step (sched PInf 0 0) lr (Fin q) = (sched (Fin q) 0 0, lr).
Proof. reflexivity. Qed.

Lemma step_bad (lr : Q) (b m : fl) (nb : nat) :
  is_better (sched b nb 0) m = false -> nb < 10 ->
  step (sched b nb 0) lr m = (sched b (nb + 1) 0, lr).
Proof.
  intros Hb Hn. unfold step. rewrite Hb.
  unfold in_cooldown, set_bad, set_counter, set_best.
  cbn [cooldown_counter num_bad_epochs patience factor threshold cooldown
       min_lr eps best].
  change (0 <? 0) with false. cbv iota.
  cbn [cooldown_counter num_bad_epochs patience factor threshold cooldown
       min_lr eps best].
  replace (10 <? nb + 1) with false by (symmetry; apply Nat.ltb_ge; lia).
  reflexivity.
Qed.

Lemma step_reduce (lr : Q) (b m : fl) :
  is_better (sched b 10 0) m = false ->
  step (sched b 10 0) lr m = (sched b 0 8, _reduce_lr (sched b 0 0) lr).
Proof. intros Hb. unfold step. rewrite Hb. reflexivity. Qed.

Lemma step_cooldown (lr : Q) (b m : fl) (nb cc : nat) :
  exists b', step (sched b nb (S cc)) lr m = (sched b' 0 cc, lr).
Proof.
  unfold step. destruct (is_better (sched b nb (S cc)) m).
  - exists m. cbn. rewrite Nat.sub_0_r. reflexivity.
  - exists b. cbn. rewrite Nat.sub_0_r. reflexivity.
Qed.

Lemma steps_cons s lr m ms :
  steps s lr (m :: ms) = steps (step s lr m).1 (step s lr m).2 ms.
Proof. unfold steps. cbn [foldl]. destruct (step s lr m). reflexivity. Qed.

Lemma steps_bad (lr : Q) (b : fl) (ms : list fl) :
  Forall (fun m => fl_ltb m (fl_mul b (Fin (1 - (1 # 10000)))) = false) ms ->
  forall nb, nb + length ms <= 10 ->
    steps (sched b nb 0) lr ms = (sched b (nb + length ms) 0, lr).
Proof.
  induction 1 as [|m ms Hm _ IH]; intros nb Hn; cbn [length] in *.
  - rewrite Nat.add_0_r. reflexivity.
  - rewrite steps_cons, step_bad by (exact Hm || lia). cbn [fst snd].
    rewrite IH by lia. do 2 f_equal. lia.
Qed.

Lemma steps_cooldown (lr : Q) (ms : list fl) :
  forall b nb cc, length ms <= cc ->
    exists b', steps (sched b nb cc) lr ms
               = (sched b' (match ms with [] => nb | _ => 0 end)
                    (cc - length ms), lr).
Proof.
  induction ms as [|m ms IH]; intros b nb cc Hc; cbn [length] in *.
  - exists b. rewrite Nat.sub_0_r. reflexivity.
  - destruct cc as [|cc]; [lia|].
    destruct (step_cooldown lr b m nb cc) as [b1 E1].
    rewrite steps_cons, E1. cbn [fst snd].
    destruct (IH b1 0 cc ltac:(lia)) as [b2 E2]. exists b2. rewrite E2.
    destruct ms; reflexivity.
Qed.

(** A rate of at most 5e-8 is left as it is: the decrease would not
    exceed [eps]. *)
Lemma reduce_lr_small (lr : Q) (b : fl) :
  (lr <= 5 # 100000000)%Q -> _reduce_lr (sched b 0 0) lr = lr.
Proof.
  intros H. unfold _reduce_lr. cbn [factor min_lr eps].
  destruct (Qlt_le_dec _ _) as [Hlt|_]; [|reflexivity].
  exfalso.
  destruct (Q.max_spec (lr * (8 # 10)) 0) as [[Ha Ea]|[Ha Ea]];
    rewrite Ea in Hlt; lra.
Qed.

Lemma reduce_lr_value (lr : Q) (b : fl) :
  (1 # 100000000 < lr - lr * (8 # 10))%Q ->
  (_reduce_lr (sched b 0 0) lr == lr * (8 # 10))%Q.
Proof.
  intros H. unfold _reduce_lr. cbn [factor min_lr eps].
  assert (Hpos : (0 <= lr * (8 # 10))%Q) by lra.
  assert (Hmax : (Qmax (lr * (8 # 10)) 0 == lr * (8 # 10))%Q)
    by (apply Q.max_l; exact Hpos).
  destruct (Qlt_le_dec _ _) as [_|Hle]; [exact Hmax|].
  exfalso. lra.
Qed.

End SchedulerFacts.

(** C7, as the code has it. The scheduler the constructor builds has
    factor 0.8, cooldown 8 and the library's defaults: patience 10, minimal
    rate 0 and [eps] 1e-8. Take it in any state outside cooldown with no bad
    epoch counted (the fresh scheduler is one, and so is the state after an
    improvement or at the end of a cooldown) and let the losses that follow
    bring no improvement. Up to ten such steps leave the learning rate as it
    is and count the bad epochs. The eleventh multiplies the rate by 0.8 when
    the rate exceeds 5e-8, and leaves it as it is otherwise (the decrease would
    not exceed [eps]); in both cases it starts a cooldown of eight steps,
    during which the rate does not change and no bad epoch is counted,
    whatever the losses, and at the end of which the scheduler is again in a
    state of the first kind. *)
Theorem scheduler_plateau (lr : Q) (b : fl) (ms : list fl) :
  Forall (fun m => ReduceLROnPlateau.is_better (Strategy.scheduler_state b 0 0) m
                   = false) ms ->
  Strategy.new_scheduler = Ok (Strategy.scheduler_state PInf 0 0) /\
  (length ms <= 10 ->
     ReduceLROnPlateau.steps (Strategy.scheduler_state b 0 0) lr ms
     = (Strategy.scheduler_state b (length ms) 0, lr)) /\
  (length ms = 11 ->
     exists lr',
       ReduceLROnPlateau.steps (Strategy.scheduler_state b 0 0) lr ms
       = (Strategy.scheduler_state b 0 8, lr') /\
       ((5 # 100000000 < lr)%Q -> (lr' == lr * (8 # 10))%Q) /\
       ((lr <= 5 # 100000000)%Q -> lr' = lr) /\
       forall ms' : list fl, length ms' <= 8 ->
         exists b',
           ReduceLROnPlateau.steps (Strategy.scheduler_state b 0 0) lr (ms ++ ms')
           = (Strategy.scheduler_state b' 0 (8 - length ms'), lr')).
Proof.
  intros Hms. unfold Strategy.scheduler_state in *.
  split; [reflexivity|]. split.
  - intros Hl. apply (steps_bad lr b ms Hms 0). cbn; lia.
  - intros Hl.
    destruct (exists_last (l := ms)) as (ms0 & m & ->).
    { intros ->. discriminate Hl. }
    rewrite length_app in Hl. cbn [length] in Hl.
    apply Forall_app in Hms as [Hms0 Hm].
    apply Forall_inv in Hm.
    assert (E : ReduceLROnPlateau.steps
                  (ReduceLROnPlateau.mk (8 # 10) 10 (1 # 10000) 8 0
                     (1 # 100000000) b 0 0) lr (ms0 ++ [m])
                = (ReduceLROnPlateau.mk (8 # 10) 10 (1 # 10000) 8 0
                     (1 # 100000000) b 0 8,
                   ReduceLROnPlateau._reduce_lr
                     (ReduceLROnPlateau.mk (8 # 10) 10 (1 # 10000) 8 0
                        (1 # 100000000) b 0 0) lr)).
    { unfold ReduceLROnPlateau.steps. rewrite foldl_app.
      fold (ReduceLROnPlateau.steps
              (ReduceLROnPlateau.mk (8 # 10) 10 (1 # 10000) 8 0
                 (1 # 100000000) b 0 0) lr ms0).
      rewrite (steps_bad lr b ms0 Hms0 0) by (cbn; lia).
      cbn [foldl]. replace (0 + length ms0) with 10 by lia.
      apply step_reduce. exact Hm. }
    eexists. split; [exact E|]. split; [|split].
    + intros Hlr. apply reduce_lr_value. lra.
    + intros Hlr. apply reduce_lr_small. exact Hlr.
    + intros ms' Hl'.
      unfold ReduceLROnPlateau.steps in *. rewrite foldl_app, E.
      destruct (steps_cooldown
                  (ReduceLROnPlateau._reduce_lr
                     (ReduceLROnPlateau.mk (8 # 10) 10 (1 # 10000) 8 0
                        (1 # 100000000) b 0 0) lr) ms' b 0 8 Hl')
        as [b' E'].
      unfold ReduceLROnPlateau.steps in E'. rewrite E'.
      exists b'. destruct ms'; reflexivity.
Qed.

(** Eleven losses of 1 after a best loss of 1, at rate 1/1000. *)
Lemma scheduler_plateau_witness :
  Strategy.new_scheduler = Ok (Strategy.scheduler_state PInf 0 0) /\
  (length (replicate 11 (Fin 1)) <= 10 ->
     ReduceLROnPlateau.steps (Strategy.scheduler_state (Fin 1) 0 0) (1 # 1000)
       (replicate 11 (Fin 1))
     = (Strategy.scheduler_state (Fin 1) (length (replicate 11 (Fin 1))) 0,
        (1 # 1000)%Q)) /\
  (length (replicate 11 (Fin 1)) = 11 ->
     exists lr',
       ReduceLROnPlateau.steps (Strategy.scheduler_state (Fin 1) 0 0) (1 # 1000)
         (replicate 11 (Fin 1))
       = (Strategy.scheduler_state (Fin 1) 0 8, lr') /\
       ((5 # 100000000 < 1 # 1000)%Q -> (lr' == (1 # 1000) * (8 # 10))%Q) /\
       ((1 # 1000 <= 5 # 100000000)%Q -> lr' = (1 # 1000)%Q) /\
       forall ms' : list fl, length ms' <= 8 ->
         exists b',
           ReduceLROnPlateau.steps (Strategy.scheduler_state (Fin 1) 0 0)
             (1 # 1000) (replicate 11 (Fin 1) ++ ms')
           = (Strategy.scheduler_state b' 0 (8 - length ms'), lr')).
Proof.
  apply (scheduler_plateau (1 # 1000) (Fin 1) (replicate 11 (Fin 1))).
  repeat constructor.
Defined.

(** C7 as stated fails: after a first loss of 1 and eight further steps at
    loss 1, none an improvement, the learning rate 1/1000 is unchanged; so
    it is after ten. *)
Lemma scheduler_plateau_counterexample :
  exists sch,
    Strategy.new_scheduler = Ok sch /\
    Forall (fun m => ReduceLROnPlateau.is_better
                       (ReduceLROnPlateau.steps sch (1 # 1000) [Fin 1]).1 m = false)
      (replicate 10 (Fin 1)) /\
    (ReduceLROnPlateau.steps sch (1 # 1000) (Fin 1 :: replicate 8 (Fin 1))).2
      = (1 # 1000)%Q /\
    (ReduceLROnPlateau.steps sch (1 # 1000) (Fin 1 :: replicate 10 (Fin 1))).2
      = (1 # 1000)%Q /\
    ~ ((ReduceLROnPlateau.steps sch (1 # 1000) (Fin 1 :: replicate 8 (Fin 1))).2
       == (1 # 1000) * (8 # 10))%Q.
Proof.
  eexists. split; [reflexivity|]. split; [repeat constructor|].
  split; [reflexivity|]. split; [reflexivity|].
  vm_compute. discriminate.
Qed.

(** ** More on the ranking loss *)

Section RankingLossMore.

Import RankingLoss.

(** [forward] reads its two vectors only through the hinge terms of the
    pairs. *)
Lemma forward_vec_ext (p t p' t' : list Q) (rgp rgt rgt' : bool) :
  length p = length t -> length p' = length t' -> length p' = length p ->
  (forall i, i < length p / 2 -> code_term p t i = code_term p' t' i) ->
  forward (vec p rgp) (vec t rgt) = forward (vec p' rgp) (vec t' rgt').
Proof.
  intros E E' En H. rewrite !forward_vec by assumption. rewrite En.
  do 5 f_equal. apply list_fmap_ext. intros k i Hk.
  apply H. apply lookup_seq in Hk. lia.
Qed.

Lemma foldl_Qplus_zero (l : list Q) :
  Forall (Qle 0) l ->
  (foldl Qplus 0 l == 0)%Q <-> Forall (fun x => x == 0)%Q l.
Proof.
  intros Hl. induction l as [|x l IH] using rev_ind.
  - split; [constructor | reflexivity].
  - apply Forall_app in Hl as [Hl Hx]. apply Forall_inv in Hx.
    rewrite foldl_app. cbn [foldl]. rewrite Forall_app.
    pose proof (foldl_Qplus_nonneg l 0 Hl (Qle_refl 0)) as Hs.
    split.
    + intros H0. assert (foldl Qplus 0 l == 0)%Q by lra.
      split; [apply IH; assumption|]. constructor; [lra|constructor].
    + intros [Hz Hxz]. apply Forall_inv in Hxz. apply IH in Hz; [lra|exact Hl].
Qed.

Lemma of_nat_pos (k : nat) : 0 < k -> (0 < inject_Z (Z.of_nat k))%Q.
Proof. intros H. destruct k; [lia|]. reflexivity. Qed.

End RankingLossMore.

(** X1. On two real vectors of one length [N >= 2] the ranking loss is
    returned and is not negative (nor not-a-number), and it asks for a
    gradient exactly when the predicted losses do: the targets never receive
    one. *)
Theorem ranking_loss_nonneg (p t : list Q) (rgp rgt : bool) :
  2 <= length p -> length p = length t ->
  exists v : fl,
    RankingLoss.forward (vec p rgp) (vec t rgt) = Ok (scalar v rgp) /\
    fl_nonneg v.
Proof.
  intros H2 E. rewrite forward_vec by exact E.
  assert (Hk : 0 < length p / 2) by (apply Nat.div_str_pos; lia).
  unfold fl_of_nat, fl_div. rewrite of_nat_nonzero by exact Hk.
  eexists. split; [reflexivity|]. cbn [fl_nonneg].
  apply Qle_shift_div_l; [apply of_nat_pos, Hk|].
  rewrite Qmult_0_l. apply foldl_Qplus_nonneg; [|apply Qle_refl].
  apply Forall_fmap, Forall_forall. intros i _. apply code_term_nonneg.
Qed.

Lemma ranking_loss_nonneg_witness :
  exists v : fl,
    RankingLoss.forward (vec [3; 1; 2; 7 # 2]%Q true) (vec [1; 5; 2; 0]%Q false)
      = Ok (scalar v true) /\
    fl_nonneg v.
Proof.
  apply (ranking_loss_nonneg [3; 1; 2; 7 # 2]%Q [1; 5; 2; 0]%Q true false);
    [cbn; lia | reflexivity].
Defined.

(** X2. The ranking loss is zero exactly when every pair is ranked with the
    margin: [s_i · (pred_i − pred_{N−1−i}) >= 1] for each pair [i], with [s_i]
    the sign of the target difference. *)
Theorem ranking_loss_zero_iff (p t : list Q) (rgp rgt : bool) :
  2 <= length p -> length p = length t ->
  exists q : Q,
    RankingLoss.forward (vec p rgp) (vec t rgt) = Ok (scalar (Fin q) rgp) /\
    ((q == 0)%Q <->
     forall i, i < length p / 2 ->
       (1 <= RankingSpec.pair_sign t i
             * (nth i p 0 - nth (length p - 1 - i) p 0))%Q).
Proof.
  intros H2 E. rewrite forward_vec by exact E.
  assert (Hk : 0 < length p / 2) by (apply Nat.div_str_pos; lia).
  unfold fl_of_nat, fl_div. rewrite of_nat_nonzero by exact Hk.
  eexists. split; [reflexivity|].
  pose proof (of_nat_pos _ Hk) as Hpos.
  set (S := foldl Qplus 0%Q (code_term p t <$> seq 0 (length p / 2))).
  assert (HS : (S == 0)%Q <->
               Forall (fun x => x == 0)%Q (code_term p t <$> seq 0 (length p / 2))).
  { apply foldl_Qplus_zero, Forall_fmap, Forall_forall.
    intros i _. apply code_term_nonneg. }
  assert (Hdiv : (S / inject_Z (Z.of_nat (length p / 2)) == 0)%Q <-> (S == 0)%Q).
  { split; intros H0.
    - assert (S == S / inject_Z (Z.of_nat (length p / 2))
                   * inject_Z (Z.of_nat (length p / 2)))%Q as -> by (field; lra).
      rewrite H0. ring.
    - rewrite H0. field. lra. }
  rewrite Hdiv, HS, Forall_fmap, Forall_forall.
  split.
  - intros H i Hi. specialize (H i ltac:(apply elem_of_seq; lia)).
    cbn [compose] in H. unfold code_term in H. rewrite code_sign_spec in H.
    set (x := (1 - _)%Q) in H.
    destruct (x ?= 0)%Q eqn:Ex.
    + subst x. lra.
    + apply Qlt_alt in Ex. subst x. lra.
    + apply Qgt_alt in Ex. lra.
  - intros H i Hi. apply elem_of_seq in Hi. specialize (H i ltac:(lia)).
    cbn [compose]. unfold code_term. rewrite code_sign_spec.
    set (x := (1 - _)%Q).
    destruct (x ?= 0)%Q eqn:Ex.
    + apply Qeq_alt in Ex. exact Ex.
    + reflexivity.
    + apply Qgt_alt in Ex. subst x. lra.
Qed.

Lemma ranking_loss_zero_iff_witness :
  exists q : Q,
    RankingLoss.forward (vec [3; 1; 0; 1]%Q true) (vec [9; 2; 7; 4]%Q false)
      = Ok (scalar (Fin q) true) /\
    ((q == 0)%Q <->
     forall i, i < length [3; 1; 0; 1]%Q / 2 ->
       (1 <= RankingSpec.pair_sign [9; 2; 7; 4]%Q i
             * (nth i [3; 1; 0; 1]%Q 0
                - nth (length [3; 1; 0; 1]%Q - 1 - i) [3; 1; 0; 1]%Q 0))%Q).
Proof.
  apply (ranking_loss_zero_iff [3; 1; 0; 1]%Q [9; 2; 7; 4]%Q true false);
    [cbn; lia | reflexivity].
Defined.

Section RankingLossLocal.

Import RankingLoss.

Lemma code_sign_order (t t' : list Q) (i : nat) :
  length t' = length t ->
  ((0 < nth i t 0 - nth (length t - 1 - i) t 0)%Q <->
   (0 < nth i t' 0 - nth (length t - 1 - i) t' 0)%Q) ->
  code_sign t i = code_sign t' i.
Proof.
  intros E H. rewrite !code_sign_spec. unfold RankingSpec.pair_sign.
  rewrite E. destruct (Qlt_le_dec _ _) as [H1|H1], (Qlt_le_dec _ _) as [H2|H2];
    try reflexivity.
  - apply H in H1. lra.
  - apply H in H2. lra.
Qed.

Lemma nth_reverse (l : list Q) (i : nat) :
  i < length l -> nth i (reverse l) 0%Q = nth (length l - 1 - i) l 0%Q.
Proof.
  intros Hi. rewrite !nth_lookup, reverse_lookup by exact Hi.
  replace (length l - S i) with (length l - 1 - i) by lia. reflexivity.
Qed.

Lemma pair_term_reverse (p t : list Q) (i : nat) :
  length p = length t -> i < length p / 2 ->
  ~ (nth i t 0 == nth (length t - 1 - i) t 0)%Q ->
  (RankingSpec.pair_term (reverse p) (reverse t) i
   == RankingSpec.pair_term p t i)%Q.
Proof.
  intros E Hi Hne.
  assert (Hh : length p / 2 <= length p)
    by (apply Nat.Div0.div_le_upper_bound; lia).
  assert (Hlt : length p / 2 * 2 <= length p)
    by (rewrite Nat.mul_comm; apply Nat.Div0.mul_div_le).
  unfold RankingSpec.pair_term, RankingSpec.pair_sign.
  rewrite !length_reverse.
  rewrite !(nth_reverse p), !(nth_reverse t) by lia.
  replace (length p - 1 - (length p - 1 - i)) with i by lia.
  replace (length t - 1 - (length t - 1 - i)) with i by lia.
  set (a := nth i p 0%Q). set (b := nth (length p - 1 - i) p 0%Q).
  set (c := nth i t 0%Q) in *. set (d := nth (length t - 1 - i) t 0%Q) in *.
  destruct (Qlt_le_dec 0 (d - c)) as [H1|H1], (Qlt_le_dec 0 (c - d)) as [H2|H2].
  - lra.
  - destruct (Q.max_spec 0 (1 - 1 * (b - a))) as [[Ha Ea]|[Ha Ea]],
             (Q.max_spec 0 (1 - -1 * (a - b))) as [[Hb Eb]|[Hb Eb]];
      rewrite Ea, Eb; lra.
  - destruct (Q.max_spec 0 (1 - -1 * (b - a))) as [[Ha Ea]|[Ha Ea]],
             (Q.max_spec 0 (1 - 1 * (a - b))) as [[Hb Eb]|[Hb Eb]];
      rewrite Ea, Eb; lra.
  - exfalso. apply Hne. lra.
Qed.

Lemma fl_div_nat_proper (a b : Q) (k : nat) :
  (a == b)%Q -> fl_eq (fl_div (Fin a) (fl_of_nat k)) (fl_div (Fin b) (fl_of_nat k)).
Proof.
  intros E. destruct k as [|k].
  - unfold fl_of_nat, fl_div.
    change (Qeq_bool (inject_Z (Z.of_nat 0)) 0) with true. cbv iota.
    assert (Hc : (a ?= 0)%Q = (b ?= 0)%Q) by (rewrite E; reflexivity).
    rewrite Hc. destruct (b ?= 0)%Q; exact I.
  - unfold fl_of_nat, fl_div. rewrite of_nat_nonzero by lia.
    cbn [fl_eq]. rewrite E. reflexivity.
Qed.

End RankingLossLocal.

(** X3. Reversing both vectors leaves the ranking loss unchanged, provided
    no pair has two equal target losses. *)
Theorem ranking_loss_reversal (p t : list Q) (rgp rgt : bool) :
  length p = length t ->
  (forall i, i < length p / 2 ->
     ~ (nth i t 0 == nth (length t - 1 - i) t 0)%Q) ->
  exists v v' : fl,
    RankingLoss.forward (vec p rgp) (vec t rgt) = Ok (scalar v rgp) /\
    RankingLoss.forward (vec (reverse p) rgp) (vec (reverse t) rgt)
      = Ok (scalar v' rgp) /\
    fl_eq v v'.
Proof.
  intros E Hne. rewrite !forward_vec by (rewrite ?length_reverse; exact E).
  rewrite length_reverse. eexists _, _. split; [reflexivity|].
  split; [reflexivity|]. apply fl_div_nat_proper.
  apply foldl_Qplus_proper; [|reflexivity].
  apply Forall2_fmap, Forall_Forall2_diag, Forall_forall.
  intros i Hi. apply elem_of_seq in Hi.
  rewrite !code_term_spec. symmetry.
  apply pair_term_reverse; [exact E | lia | apply Hne; lia].
Qed.

Lemma ranking_loss_reversal_witness :
  exists v v' : fl,
    RankingLoss.forward (vec [3; 1; 2; 7 # 2]%Q true) (vec [1; 5; 2; 0]%Q false)
      = Ok (scalar v true) /\
    RankingLoss.forward (vec (reverse [3; 1; 2; 7 # 2]%Q) true)
      (vec (reverse [1; 5; 2; 0]%Q) false) = Ok (scalar v' true) /\
    fl_eq v v'.
Proof.
  apply (ranking_loss_reversal [3; 1; 2; 7 # 2]%Q [1; 5; 2; 0]%Q true false).
  - reflexivity.
  - intros i Hi. destruct i as [|[|i]]; [vm_compute; discriminate ..|].
    cbn in Hi. lia.
Defined.

(** X4. The ranking loss uses the target losses only through the order
    within each pair: two target vectors that agree, pair by pair, on
    whether the first target exceeds its partner give the same loss. *)
Theorem ranking_loss_target_order (p t t' : list Q) (rgp rgt rgt' : bool) :
  length p = length t -> length t' = length t ->
  (forall i, i < length p / 2 ->
     (0 < nth i t 0 - nth (length t - 1 - i) t 0)%Q <->
     (0 < nth i t' 0 - nth (length t - 1 - i) t' 0)%Q) ->
  RankingLoss.forward (vec p rgp) (vec t rgt)
  = RankingLoss.forward (vec p rgp) (vec t' rgt').
Proof.
  intros E E' H. apply forward_vec_ext; [exact E | congruence | reflexivity |].
  intros i Hi. unfold code_term.
  rewrite (code_sign_order t t' i E' (H i Hi)). reflexivity.
Qed.

Lemma ranking_loss_target_order_witness :
  RankingLoss.forward (vec [3; 1; 2; 7 # 2]%Q true) (vec [1; 5; 2; 0]%Q false)
  = RankingLoss.forward (vec [3; 1; 2; 7 # 2]%Q true)
      (vec [100; 7; 6; 99]%Q true).
Proof.
  apply (ranking_loss_target_order [3; 1; 2; 7 # 2]%Q [1; 5; 2; 0]%Q
           [100; 7; 6; 99]%Q true false true); [reflexivity | reflexivity |].
  intros i Hi. destruct i as [|[|i]]; [split; reflexivity ..|].
  cbn in Hi. lia.
Defined.

(** X5. On a batch of odd length [2k + 1] the middle example is ignored:
    overwriting the predicted and the target loss at position [k] leaves the
    ranking loss as it was. *)
Theorem ranking_loss_middle (k : nat) (p t : list Q) (x y : Q)
    (rgp rgt : bool) :
  length p = 2 * k + 1 -> length t = 2 * k + 1 ->
  RankingLoss.forward (vec (<[k := x]> p) rgp) (vec (<[k := y]> t) rgt)
  = RankingLoss.forward (vec p rgp) (vec t rgt).
Proof.
  intros Hp Ht.
  assert (Hk : length p / 2 = k).
  { rewrite Hp. replace (2 * k + 1) with (1 + k * 2) by lia.
    rewrite Nat.div_add by lia. reflexivity. }
  symmetry. apply forward_vec_ext;
    [congruence | rewrite !length_insert; congruence | apply length_insert |].
  intros i Hi. rewrite Hk in Hi.
  unfold code_term, code_sign. rewrite !length_insert.
  rewrite !nth_lookup, !list_lookup_insert_ne by lia. reflexivity.
Qed.

Lemma ranking_loss_middle_witness :
  RankingLoss.forward (vec (<[1 := 50%Q]> [3; 1; 2]%Q) true)
    (vec (<[1 := (-7)%Q]> [1; 5; 2]%Q) false)
  = RankingLoss.forward (vec [3; 1; 2]%Q true) (vec [1; 5; 2]%Q false).
Proof.
  apply (ranking_loss_middle 1 [3; 1; 2]%Q [1; 5; 2]%Q 50 (-7) true false);
    reflexivity.
Defined.

(** X6. What [RankingLoss.forward] refuses: a zero-dimensional predicted
    loss raises [TypeError] (it has no length), and two vectors whose numbers
    of pairs differ, neither being one, raise [RuntimeError] at the product
    of signs and differences. *)
Theorem ranking_loss_errors (p t : list Q) (v : fl) (x : tensor)
    (rgp rgt : bool) :
  RankingLoss.forward (scalar v rgp) x = Raise TypeError /\
  (length p / 2 <> length t / 2 -> length p / 2 <> 1 -> length t / 2 <> 1 ->
   RankingLoss.forward (vec p rgp) (vec t rgt) = Raise RuntimeError).
Proof.
  split; [reflexivity|].
  intros Hne Hp Ht. unfold RankingLoss.forward.
  rewrite !half_diff_vec. cbn [mbind result_bind].
  rewrite one_of_vec. unfold binop. cbn [shape].
  unfold broadcast_shapes.
  change (reverse [length t / 2]) with [length t / 2].
  change (reverse [length p / 2]) with [length p / 2].
  cbn [broadcast_rev].
  apply Nat.eqb_neq in Hp, Ht. rewrite Hp, Ht.
  replace (length t / 2 =? length p / 2) with false
    by (symmetry; apply Nat.eqb_neq; congruence).
  reflexivity.
Qed.

Lemma ranking_loss_errors_witness :
  RankingLoss.forward (scalar (Fin 1) true) (vec [1]%Q false) = Raise TypeError /\
  (length [1; 2; 3; 4]%Q / 2 <> length [1; 2; 3; 4; 5; 6]%Q / 2 ->
   length [1; 2; 3; 4]%Q / 2 <> 1 -> length [1; 2; 3; 4; 5; 6]%Q / 2 <> 1 ->
   RankingLoss.forward (vec [1; 2; 3; 4]%Q true) (vec [1; 2; 3; 4; 5; 6]%Q false)
   = Raise RuntimeError).
Proof.
  exact (ranking_loss_errors [1; 2; 3; 4]%Q [1; 2; 3; 4; 5; 6]%Q (Fin 1)
           (vec [1]%Q false) true false).
Defined.

(** ** More on the residual block *)

Section ResidualMore.

Lemma relu_idempotent (x : tensor) : relu (relu x) = relu x.
Proof.
  unfold relu, tmap. cbn [shape data requires_grad]. f_equal.
  rewrite <- list_fmap_compose. apply list_fmap_ext. intros _ v _.
  cbn [compose]. destruct v as [a| | |]; try reflexivity.
  unfold fl_clamp_min. destruct (a ?= 0)%Q eqn:E; rewrite ?E; reflexivity.
Qed.

Lemma fl_sum_fl_zero (l : list fl) : Forall fl_zero l -> fl_zero (fl_sum l).
Proof.
  unfold fl_sum. assert (H0 : fl_zero (Fin 0)) by (exists 0%Q; split; reflexivity).
  revert H0. generalize (Fin 0) as acc. intros acc Hacc Hl. revert acc Hacc.
  induction Hl as [|v l Hv _ IH]; intros acc Hacc; [exact Hacc|].
  cbn [foldl]. apply IH. destruct Hacc as (a & -> & Ha), Hv as (b & -> & Hb).
  exists (a + b)%Q. split; [reflexivity | lra].
Qed.

Lemma at4_finite (x : tensor) C H W b c h w :
  finite x -> exists q, at4 x C H W b c h w = Fin q.
Proof.
  intros Hx. unfold at4. destruct (_ && _)%bool; [|exists 0%Q; reflexivity].
  rewrite nth_lookup. destruct (data x !! _) as [v|] eqn:E; cbn.
  - unfold finite in Hx. rewrite Forall_forall in Hx.
    apply Hx. eapply list_elem_of_lookup_2, E.
  - exists 0%Q. reflexivity.
Qed.

Lemma conv2d_entry_zero_weight (m : Conv2d.t) x C H W b co i j :
  all_zero (Conv2d.weight m) -> Conv2d.bias m = None -> finite x ->
  fl_zero (Conv2d.entry m x C H W b co i j).
Proof.
  intros Hw Hb Hx. unfold Conv2d.entry. rewrite Hb. cbn [bias_entry].
  assert (Hs : fl_zero (fl_sum
    (ci ← seq 0 C; di ← seq 0 (Conv2d.kernel_size m);
     dj ← seq 0 (Conv2d.kernel_size m);
     [fl_mul
        (nth (((co * Conv2d.in_channels m + ci) * Conv2d.kernel_size m + di)
                * Conv2d.kernel_size m + dj) (data (Conv2d.weight m)) (Fin 0))
        (at4 x C H W b ci
           (Z.of_nat (i * Conv2d.stride m + di) - Z.of_nat (Conv2d.padding m))
           (Z.of_nat (j * Conv2d.stride m + dj) - Z.of_nat (Conv2d.padding m)))]))).
  { apply fl_sum_fl_zero.
    apply Forall_bind, Forall_forall. intros ci _.
    apply Forall_bind, Forall_forall. intros di _.
    apply Forall_bind, Forall_forall. intros dj _.
    constructor; [|constructor].
    rewrite nth_all_zero by exact Hw.
    destruct (at4_finite x C H W b ci
                (Z.of_nat (i * Conv2d.stride m + di) - Z.of_nat (Conv2d.padding m))
                (Z.of_nat (j * Conv2d.stride m + dj) - Z.of_nat (Conv2d.padding m))
                Hx) as [q ->].
    exists (0 * q)%Q. split; [reflexivity | lra]. }
  destruct Hs as (q & -> & Hq). exists (0 + q)%Q. split; [reflexivity | lra].
Qed.

(** A convolution with all-zero weights and no bias sends a batch of
    numbers to a batch of zeros. *)
Lemma conv2d_forward_zero_weight (m : Conv2d.t) (x : tensor) B H W :
  1 <= Conv2d.in_channels m -> 1 <= Conv2d.out_channels m ->
  all_zero (Conv2d.weight m) -> Conv2d.bias m = None -> finite x ->
  shape x = [B; Conv2d.in_channels m; H; W] ->
  Conv2d.kernel_size m <= H + 2 * Conv2d.padding m ->
  Conv2d.kernel_size m <= W + 2 * Conv2d.padding m ->
  exists y, Conv2d.forward m x = Ok y /\
    shape y = [B; Conv2d.out_channels m; Conv2d.out_size m H; Conv2d.out_size m W] /\
    length (data y)
      = B * (Conv2d.out_channels m * (Conv2d.out_size m H * Conv2d.out_size m W)) /\
    Forall fl_zero (data y).
Proof.
  intros Hi Ho Hw Hb Hx Hs HH HW. unfold Conv2d.forward. rewrite Hs.
  rewrite conv2d_conv_ok by assumption.
  eexists. split; [reflexivity|]. split; [reflexivity|].
  cbn [data]. split.
  - rewrite (length_bind_const _ _
      (Conv2d.out_channels m * (Conv2d.out_size m H * Conv2d.out_size m W))).
    { rewrite length_seq. reflexivity. }
    intros b. rewrite (length_bind_const _ _
      (Conv2d.out_size m H * Conv2d.out_size m W)).
    { rewrite length_seq. reflexivity. }
    intros co. rewrite (length_bind_const _ _ (Conv2d.out_size m W)).
    { rewrite length_seq. reflexivity. }
    intros i. rewrite (length_bind_const _ _ 1).
    { rewrite length_seq. lia. }
    reflexivity.
  - apply Forall_bind, Forall_forall. intros b _.
    apply Forall_bind, Forall_forall. intros co _.
    apply Forall_bind, Forall_forall. intros i _.
    apply Forall_bind, Forall_forall. intros j _.
    constructor; [|constructor].
    apply conv2d_entry_zero_weight; assumption.
Qed.

Lemma relu_fl_zero (l : list fl) :
  Forall fl_zero l -> Forall fl_zero (fl_clamp_min 0 <$> l).
Proof.
  intros H. apply Forall_fmap. eapply Forall_impl; [exact H|].
  intros v (q & -> & Hq). cbn [compose fl_clamp_min].
  destruct (q ?= 0)%Q; eexists; (split; [reflexivity|]); lra.
Qed.

Lemma fl_zero_finite (l : list fl) :
  Forall fl_zero l -> Forall (fun v => exists q, v = Fin q) l.
Proof.
  intros H. eapply Forall_impl; [exact H|]. intros v (q & -> & _). eauto.
Qed.

Lemma relu_finite (x : tensor) : finite x -> finite (relu x).
Proof.
  unfold finite, relu, tmap. cbn [data]. intros H. apply Forall_fmap.
  eapply Forall_impl; [exact H|]. intros v [q ->]. cbn. eauto.
Qed.

Lemma zip_add_fl_zero (xs os : list fl) :
  length xs = length os ->
  Forall (fun v => exists q, v = Fin q) xs -> Forall fl_zero os ->
  Forall2 fl_eq (zip_with fl_add xs os) xs.
Proof.
  intros Hl Hx. revert os Hl.
  induction Hx as [|x xs [a ->] _ IH]; intros [|o os] Hl Ho; try discriminate.
  - constructor.
  - apply Forall_cons in Ho as [(q & -> & Hq) Ho]. cbn [zip_with].
    constructor; [cbn; lra|]. apply IH; [cbn in Hl; lia | exact Ho].
Qed.

End ResidualMore.

(** X7. A residual block sees its input only through the rectifier: the
    in-place [ReLU(True)] that opens the branch also rectifies the shortcut,
    so on an input that asks for no gradient [forward] gives the same result
    on [x] and on [relu(x)], and leaves the argument tensor rectified. *)
Theorem residual_forward_rectifies (m : Residual.t) (leaf : bool) (x : tensor) :
  requires_grad x = false ->
  Residual.forward m leaf (relu x) = Residual.forward m leaf x /\
  match Residual.forward m leaf x with
  | Ok (_, x') => x' = relu x
  | Raise _ => True
  end.
Proof.
  intros Hrg.
  assert (Hl : leaf && requires_grad x = false)
    by (rewrite Hrg; apply andb_false_r).
  split.
  - unfold Residual.forward, Residual._block.
    change (requires_grad (relu x)) with (requires_grad x). rewrite Hl.
    rewrite relu_idempotent. reflexivity.
  - unfold Residual.forward, Residual._block. rewrite Hl.
    destruct (Conv2d.forward (Residual._block_1 m) (relu x)) as [h|e]; [|exact I].
    cbn [mbind result_bind].
    destruct (Conv2d.forward (Residual._block_3 m) (relu h)) as [o|e]; [|exact I].
    cbn [mbind result_bind].
    destruct (binop fl_add (relu x) o) as [r|e]; [|exact I]. reflexivity.
Qed.

(** A block with all-zero weights on the 1 by 2 image (-3, 5). *)
Lemma residual_forward_rectifies_witness :
  let m := Residual.init (fun _ s => zeros s true) 0 1 1 1 in
  let x := mkTensor [1; 1; 1; 2] [Fin (-3); Fin 5] false in
  Residual.forward m true (relu x) = Residual.forward m true x /\
  match Residual.forward m true x with
  | Ok (_, x') => x' = relu x
  | Raise _ => True
  end.
Proof.
  intros m x. apply (residual_forward_rectifies m true x). reflexivity.
Defined.

(** X8. With all-zero convolution weights a residual block with as many
    output as input channels (at least one, and at least one residual hidden
    channel) is the rectifier, not the identity: on a well-formed batch of
    numbers that asks for no gradient it returns [relu(x)] (entry by entry, as
    numbers), so negative entries of the input come back as zero. *)
Theorem residual_zero_weights_relu
    (rng : initializer) (base C nrh B H W : nat) (leaf : bool) (x : tensor) :
  all_zero (Conv2d.weight (Residual._block_1 (Residual.init rng base C C nrh))) ->
  all_zero (Conv2d.weight (Residual._block_3 (Residual.init rng base C C nrh))) ->
  1 <= C -> 1 <= nrh ->
  shape x = [B; C; H; W] -> tensor_wf x -> finite x ->
  requires_grad x = false -> 1 <= H -> 1 <= W ->
  exists r,
    Residual.forward (Residual.init rng base C C nrh) leaf x = Ok (r, relu x) /\
    tensor_close r (relu x).
Proof.
  intros Ha Hb HC Hnrh Hs Hwf Hfin Hrg HH HW.
  unfold Residual.forward, Residual._block.
  rewrite Hrg, andb_false_r.
  destruct (conv2d_forward_zero_weight
              (Residual._block_1 (Residual.init rng base C C nrh)) (relu x) B H W
              HC Hnrh Ha eq_refl (relu_finite x Hfin) Hs)
    as (h & Eh & Sh & Lh & Zh); [cbn; lia | cbn; lia |].
  rewrite Eh. cbn [mbind result_bind].
  cbn [Residual._block_1 Residual._block_3 Residual.init] in Sh, Lh.
  rewrite !conv_out_size_3_1_1 in Sh, Lh by assumption.
  cbn [Conv2d.out_channels Conv2d.init] in Sh, Lh.
  destruct (conv2d_forward_zero_weight
              (Residual._block_3 (Residual.init rng base C C nrh)) (relu h) B H W
              Hnrh HC Hb eq_refl)
    as (o & Eo & So & Lo & Zo).
  { unfold finite, relu, tmap. cbn [data].
    apply fl_zero_finite, relu_fl_zero, Zh. }
  { rewrite relu_shape. exact Sh. }
  { cbn; lia. }
  { cbn; lia. }
  rewrite Eo. cbn [mbind result_bind].
  cbn [Residual._block_1 Residual._block_3 Residual.init] in So, Lo.
  rewrite !conv_out_size_1_1_0 in So, Lo by assumption.
  cbn [Conv2d.out_channels Conv2d.init] in So, Lo.
  rewrite binop_same_shape by (rewrite relu_shape, Hs, So; reflexivity).
  cbn [mbind result_bind]. eexists. split; [reflexivity|].
  split; [reflexivity|]. cbn [data].
  apply zip_add_fl_zero.
  - unfold relu, tmap. cbn [data]. rewrite length_fmap, Lo.
    unfold tensor_wf in Hwf. rewrite Hwf, Hs. cbn [numel foldr]. lia.
  - apply (relu_finite x Hfin).
  - exact Zo.
Qed.

Lemma residual_zero_weights_relu_witness :
  exists r,
    Residual.forward (Residual.init (fun _ s => zeros s true) 0 1 1 1) true
      (mkTensor [1; 1; 1; 2] [Fin (-3); Fin 5] false)
    = Ok (r, relu (mkTensor [1; 1; 1; 2] [Fin (-3); Fin 5] false)) /\
    tensor_close r (relu (mkTensor [1; 1; 1; 2] [Fin (-3); Fin 5] false)).
Proof.
  apply (residual_zero_weights_relu (fun _ s => zeros s true) 0 1 1 1 1 2 true
           (mkTensor [1; 1; 1; 2] [Fin (-3); Fin 5] false)).
  - apply zeros_all_zero.
  - apply zeros_all_zero.
  - lia.
  - lia.
  - reflexivity.
  - reflexivity.
  - repeat constructor; eexists; reflexivity.
  - reflexivity.
  - lia.
  - lia.
Defined.

(** ** More on the encoder and the decoder *)

Section CoderMore.

(** A convolution that returns was given a batch or a single image with
    the layer's channels, by a layer with output channels and a kernel that
    fits. *)
Lemma conv2d_conv_inv (m : Conv2d.t) (x y : tensor) lead B C H W :
  Conv2d.conv m x lead B C H W = Ok y ->
  C = Conv2d.in_channels m /\
  1 <= Conv2d.out_channels m /\
  Conv2d.kernel_size m <= H + 2 * Conv2d.padding m /\
  Conv2d.kernel_size m <= W + 2 * Conv2d.padding m /\
  shape y = lead ++ [Conv2d.out_channels m; Conv2d.out_size m H;
                     Conv2d.out_size m W].
Proof.
  unfold Conv2d.conv.
  destruct (Conv2d.out_channels m =? 0) eqn:Eo; [discriminate|].
  destruct (C =? Conv2d.in_channels m) eqn:EC; [|discriminate].
  cbn [negb].
  destruct ((C =? 0) && negb (B =? 0)); [discriminate|].
  destruct (H + 2 * Conv2d.padding m <? Conv2d.kernel_size m) eqn:EH;
    [discriminate|].
  destruct (W + 2 * Conv2d.padding m <? Conv2d.kernel_size m) eqn:EW;
    [discriminate|].
  cbn [orb]. intros [= <-]. apply Nat.eqb_eq in EC. apply Nat.eqb_neq in Eo.
  apply Nat.ltb_ge in EH, EW. repeat split; try assumption. lia.
Qed.

Lemma conv2d_forward_inv (m : Conv2d.t) (x y : tensor) :
  Conv2d.forward m x = Ok y ->
  exists lead H W,
    length lead <= 1 /\
    shape x = lead ++ [Conv2d.in_channels m; H; W] /\
    1 <= Conv2d.out_channels m /\
    Conv2d.kernel_size m <= H + 2 * Conv2d.padding m /\
    Conv2d.kernel_size m <= W + 2 * Conv2d.padding m /\
    shape y = lead ++ [Conv2d.out_channels m; Conv2d.out_size m H;
                       Conv2d.out_size m W].
Proof.
  unfold Conv2d.forward.
  destruct (shape x) as [|a [|b [|c [|d [|? ?]]]]]; try discriminate; intros E.
  - apply conv2d_conv_inv in E as (-> & Ho & HH & HW & Sy).
    exists [], b, c. cbn [app length]. repeat split; try assumption. lia.
  - apply conv2d_conv_inv in E as (-> & Ho & HH & HW & Sy).
    exists [a], c, d. cbn [app length]. repeat split; try assumption. lia.
Qed.

Lemma conv2d_forward_raise (m : Conv2d.t) (x : tensor) (e : exn) :
  Conv2d.forward m x = Raise e -> e = RuntimeError.
Proof.
  assert (Hc : forall lead B C H W,
            Conv2d.conv m x lead B C H W = Raise e -> e = RuntimeError).
  { intros lead B C H W. unfold Conv2d.conv.
    destruct (_ =? 0); [intros [= <-]; reflexivity|].
    destruct (negb _); [intros [= <-]; reflexivity|].
    destruct (_ && _)%bool; [intros [= <-]; reflexivity|].
    destruct (_ || _)%bool; [intros [= <-]; reflexivity | discriminate]. }
  unfold Conv2d.forward.
  destruct (shape x) as [|a [|b [|c [|d [|? ?]]]]];
    try (intros [= <-]; reflexivity); apply Hc.
Qed.

(** Two shapes made of the same number of trailing dimensions. *)
Lemma lead_inj (l l' : list nat) (a b c a' b' c' : nat) :
  l ++ [a; b; c] = l' ++ [a'; b'; c'] ->
  l = l' /\ a = a' /\ b = b' /\ c = c'.
Proof.
  intros E. apply app_inj_2 in E as [-> [= -> -> ->]]; [|reflexivity].
  repeat split.
Qed.

Lemma out_size_4_2_1 n : 2 <= n -> (n + 2 * 1 - 4) / 2 + 1 = n / 2.
Proof.
  intros H. replace (n + 2 * 1 - 4) with (n - 2) by lia.
  replace n with ((n - 2) + 1 * 2) at 2 by lia.
  rewrite Nat.div_add by lia. reflexivity.
Qed.

Lemma conv_out_size_4_2_1 rng b ci co hb n :
  2 <= n -> Conv2d.out_size (Conv2d.init rng b ci co 4 2 1 hb) n = n / 2.
Proof. intros H. unfold Conv2d.out_size, Conv2d.init. cbn [Conv2d.padding
  Conv2d.kernel_size Conv2d.stride]. apply out_size_4_2_1, H. Qed.

Lemma half_ge_2 n : 4 <= n -> 2 <= n / 2.
Proof. intros H. apply (Nat.Div0.div_le_mono 4 n 2) in H. exact H. Qed.

Lemma quarter_ge_1 n : 4 <= n -> 1 <= n / 4.
Proof. intros H. apply (Nat.Div0.div_le_mono 4 n 4) in H. exact H. Qed.

(** The encoder on a batch it accepts. *)
Lemma encoder_forward_ok rng base cin nh L nrh x B H W :
  1 <= cin -> 2 <= nh -> L = 0 \/ 1 <= nrh ->
  shape x = [B; cin; H; W] -> 4 <= H -> 4 <= W ->
  exists y,
    Encoder.forward (Encoder.init rng base cin nh L nrh) x = Ok y /\
    shape y = [B; nh; H / 4; W / 4].
Proof.
  intros Hcin Hnh Hnrh Hs HH HW. unfold Encoder.forward.
  assert (Hh : 1 <= nh / 2) by (apply Nat.div_le_lower_bound; lia).
  destruct (conv2d_forward_shape
              (Encoder._conv_1 (Encoder.init rng base cin nh L nrh)) x B H W)
    as (x1 & E1 & S1); [exact Hcin | exact Hh | exact Hs | cbn; lia | cbn; lia |].
  rewrite E1. cbn [mbind result_bind].
  cbn [Encoder._conv_1 Encoder.init] in S1.
  rewrite !conv_out_size_4_2_1 in S1 by lia.
  destruct (conv2d_forward_shape
              (Encoder._conv_2 (Encoder.init rng base cin nh L nrh)) (relu x1)
              B (H / 2) (W / 2))
    as (x2 & E2 & S2);
    [exact Hh
    | cbn [Encoder._conv_2 Encoder.init Conv2d.init Conv2d.out_channels]; lia
    | rewrite relu_shape; exact S1
    | pose proof (half_ge_2 H HH);
      cbn [Encoder._conv_2 Encoder.init Conv2d.init Conv2d.kernel_size
           Conv2d.padding]; lia
    | pose proof (half_ge_2 W HW);
      cbn [Encoder._conv_2 Encoder.init Conv2d.init Conv2d.kernel_size
           Conv2d.padding]; lia |].
  rewrite E2. cbn [mbind result_bind].
  cbn [Encoder._conv_2 Encoder.init] in S2.
  rewrite !conv_out_size_4_2_1 in S2 by (apply half_ge_2; assumption).
  rewrite !Nat.Div0.div_div in S2. change (2 * 2) with 4 in S2.
  pose proof (quarter_ge_1 H HH) as H1. pose proof (quarter_ge_1 W HW) as W1.
  destruct (conv2d_forward_shape
              (Encoder._conv_3 (Encoder.init rng base cin nh L nrh)) (relu x2)
              B (H / 4) (W / 4))
    as (x3 & E3 & S3);
    [cbn [Encoder._conv_3 Encoder.init Conv2d.init Conv2d.in_channels]; lia
    | cbn [Encoder._conv_3 Encoder.init Conv2d.init Conv2d.out_channels]; lia
    | rewrite relu_shape; exact S2
    | cbn [Encoder._conv_3 Encoder.init Conv2d.init Conv2d.kernel_size
           Conv2d.padding]; lia
    | cbn [Encoder._conv_3 Encoder.init Conv2d.init Conv2d.kernel_size
           Conv2d.padding]; lia |].
  rewrite E3. cbn [mbind result_bind].
  cbn [Encoder._conv_3 Encoder.init] in S3.
  rewrite !conv_out_size_3_1_1 in S3 by assumption.
  apply residual_stack_forward_shape;
    [lia | exact Hnrh | reflexivity | exact H1 | exact W1 | exact S3].
Qed.

Lemma convtranspose_forward_shape (m : ConvTranspose2d.t) (x : tensor) B H W :
  1 <= ConvTranspose2d.in_channels m -> 1 <= ConvTranspose2d.out_channels m ->
  shape x = [B; ConvTranspose2d.in_channels m; H; W] ->
  1 <= H -> 1 <= W ->
  1 <= ConvTranspose2d.out_size m H -> 1 <= ConvTranspose2d.out_size m W ->
  exists y, ConvTranspose2d.forward m x = Ok y /\
    shape y = [B; ConvTranspose2d.out_channels m;
               ConvTranspose2d.out_size m H; ConvTranspose2d.out_size m W].
Proof.
  intros Hi Ho Hs HH HW HoH HoW.
  unfold ConvTranspose2d.forward. rewrite Hs. unfold ConvTranspose2d.conv.
  replace (ConvTranspose2d.in_channels m =? 0) with false
    by (symmetry; apply Nat.eqb_neq; lia).
  replace (ConvTranspose2d.out_channels m =? 0) with false
    by (symmetry; apply Nat.eqb_neq; lia).
  cbn [orb]. rewrite Nat.eqb_refl. cbn [negb].
  replace (ConvTranspose2d.out_size m H =? 0) with false
    by (symmetry; apply Nat.eqb_neq; lia).
  replace (ConvTranspose2d.out_size m W =? 0) with false
    by (symmetry; apply Nat.eqb_neq; lia).
  replace (H =? 0) with false by (symmetry; apply Nat.eqb_neq; lia).
  replace (W =? 0) with false by (symmetry; apply Nat.eqb_neq; lia).
  cbn [orb]. eexists. split; reflexivity.
Qed.

Lemma convtranspose_out_size_4_2_1 rng b ci co n :
  1 <= n ->
  ConvTranspose2d.out_size (ConvTranspose2d.init rng b ci co 4 2 1) n = 2 * n.
Proof.
  intros H. unfold ConvTranspose2d.out_size, ConvTranspose2d.init.
  cbn [ConvTranspose2d.padding ConvTranspose2d.kernel_size ConvTranspose2d.stride].
  lia.
Qed.

End CoderMore.

Section EncoderCases.

(** A block that returns keeps the shape of its argument. *)
Lemma residual_forward_inv rng base C nrh leaf x r x' :
  Residual.forward (Residual.init rng base C C nrh) leaf x = Ok (r, x') ->
  shape r = shape x.
Proof.
  unfold Residual.forward, Residual._block.
  destruct (leaf && requires_grad x); [discriminate|].
  destruct (Conv2d.forward _ (relu x)) as [h|?] eqn:Eh; [|discriminate].
  cbn [mbind result_bind].
  destruct (Conv2d.forward _ (relu h)) as [o|?] eqn:Eo; [|discriminate].
  cbn [mbind result_bind].
  apply conv2d_forward_inv in Eh as (l1 & H & W & _ & Sx & _ & HH & HW & Sh).
  apply conv2d_forward_inv in Eo as (l2 & H2 & W2 & _ & Sh2 & _ & _ & _ & So).
  cbn [Residual._block_1 Residual._block_3 Residual.init] in *.
  rewrite relu_shape in Sx, Sh2.
  cbn [Conv2d.init Conv2d.kernel_size Conv2d.padding] in HH, HW.
  rewrite !conv_out_size_3_1_1 in Sh by lia.
  cbn [Conv2d.init Conv2d.in_channels Conv2d.out_channels] in Sx, Sh, Sh2, So.
  rewrite Sh in Sh2. apply lead_inj in Sh2 as (<- & _ & <- & <-).
  rewrite !conv_out_size_1_1_0 in So by lia.
  rewrite binop_same_shape by (rewrite relu_shape; congruence).
  cbn [mbind result_bind]. intros [= <- _]. reflexivity.
Qed.

Lemma residual_forward_raise (m : Residual.t) leaf x e :
  Residual.forward m leaf x = Raise e -> e = RuntimeError.
Proof.
  unfold Residual.forward, Residual._block.
  destruct (leaf && requires_grad x); [intros [= <-]; reflexivity|].
  destruct (Conv2d.forward _ (relu x)) as [h|e1] eqn:Eh;
    [|cbn; intros [= <-]; eapply conv2d_forward_raise, Eh].
  cbn [mbind result_bind].
  destruct (Conv2d.forward _ (relu h)) as [o|e2] eqn:Eo;
    [|cbn; intros [= <-]; eapply conv2d_forward_raise, Eo].
  cbn [mbind result_bind]. unfold binop.
  destruct (broadcast_shapes _ _); cbn; [discriminate | intros [= <-]; reflexivity].
Qed.

Lemma residual_stack_layer rng base C nh L nrh i :
  i < L ->
  ResidualStack._layers (ResidualStack.init rng base C nh L nrh) !! i
  = Some (Residual.init rng (base + 2 * i) C nh nrh).
Proof.
  intros Hi. cbn [ResidualStack.init ResidualStack._layers].
  rewrite list_lookup_fmap, lookup_seq_lt by lia. reflexivity.
Qed.

(** A stack that returns keeps the shape of its argument; when it does
    not return it raises [RuntimeError]. *)
Lemma residual_stack_loop_inv rng base C nrh L n :
  forall i leaf x y,
    i + n <= L ->
    ResidualStack.loop
      (ResidualStack._layers (ResidualStack.init rng base C C L nrh)) i n leaf x
      = Ok y ->
    shape y = shape x.
Proof.
  induction n as [|n IH]; intros i leaf x y Hi E; cbn [ResidualStack.loop] in E.
  - injection E as <-. reflexivity.
  - rewrite residual_stack_layer in E by lia.
    destruct (Residual.forward _ leaf x) as [[r x']|?] eqn:Er; [|discriminate].
    cbn [mbind result_bind] in E.
    apply residual_forward_inv in Er. apply IH in E; [congruence | lia].
Qed.

Lemma residual_stack_loop_raise rng base C nh nrh L n :
  forall i leaf x e,
    i + n <= L ->
    ResidualStack.loop
      (ResidualStack._layers (ResidualStack.init rng base C nh L nrh)) i n leaf x
      = Raise e ->
    e = RuntimeError.
Proof.
  induction n as [|n IH]; intros i leaf x e Hi E; cbn [ResidualStack.loop] in E.
  - discriminate.
  - rewrite residual_stack_layer in E by lia.
    destruct (Residual.forward _ leaf x) as [[r x']|e1] eqn:Er.
    + cbn [mbind result_bind] in E. apply IH in E; [exact E | lia].
    + cbn [mbind result_bind] in E. injection E as <-.
      eapply residual_forward_raise, Er.
Qed.

(** The encoder returns only on a batch or a single image with its
    channels and at least 4 by 4, and only when its width is at least 2; the
    leading dimension, if there is one, is kept. *)
Lemma encoder_forward_inv rng base cin nh L nrh x y :
  Encoder.forward (Encoder.init rng base cin nh L nrh) x = Ok y ->
  exists lead H W,
    length lead <= 1 /\ shape x = lead ++ [cin; H; W] /\
    4 <= H /\ 4 <= W /\ 2 <= nh /\
    shape y = lead ++ [nh; H / 4; W / 4].
Proof.
  intros E. unfold Encoder.forward in E.
  destruct (Conv2d.forward _ x) as [x1|?] eqn:E1; [|discriminate].
  cbn [mbind result_bind] in E.
  destruct (Conv2d.forward _ (relu x1)) as [x2|?] eqn:E2; [|discriminate].
  cbn [mbind result_bind] in E.
  destruct (Conv2d.forward _ (relu x2)) as [x3|?] eqn:E3; [|discriminate].
  cbn [mbind result_bind] in E.
  apply conv2d_forward_inv in E1 as (l1 & H & W & Hl & Sx & Ho1 & HH & HW & S1).
  apply conv2d_forward_inv in E2 as (l2 & H2 & W2 & _ & Sx1 & _ & HH2 & HW2 & S2).
  apply conv2d_forward_inv in E3 as (l3 & H3 & W3 & _ & Sx2 & _ & HH3 & HW3 & S3).
  cbn [Encoder._conv_1 Encoder._conv_2 Encoder._conv_3 Encoder._residual_stack
       Encoder.init] in *.
  cbn [Conv2d.init Conv2d.kernel_size Conv2d.padding]
    in HH, HW, HH2, HW2, HH3, HW3.
  cbn [Conv2d.init Conv2d.in_channels Conv2d.out_channels]
    in Sx, Ho1, S1, Sx1, S2, Sx2, S3.
  rewrite relu_shape in Sx1, Sx2.
  rewrite !conv_out_size_4_2_1 in S1 by lia.
  rewrite S1 in Sx1. apply lead_inj in Sx1 as (<- & _ & <- & <-).
  assert (H4 : 4 <= H).
  { destruct (le_lt_dec 4 H) as [?|Hlt]; [assumption|].
    assert (H / 2 < 2) by (apply Nat.Div0.div_lt_upper_bound; lia). lia. }
  assert (W4 : 4 <= W).
  { destruct (le_lt_dec 4 W) as [?|Hlt]; [assumption|].
    assert (W / 2 < 2) by (apply Nat.Div0.div_lt_upper_bound; lia). lia. }
  rewrite !conv_out_size_4_2_1 in S2 by (apply half_ge_2; assumption).
  rewrite !Nat.Div0.div_div in S2. change (2 * 2) with 4 in S2.
  rewrite S2 in Sx2. apply lead_inj in Sx2 as (<- & _ & <- & <-).
  pose proof (quarter_ge_1 H H4) as Hq. pose proof (quarter_ge_1 W W4) as Wq.
  rewrite !conv_out_size_3_1_1 in S3 by assumption.
  unfold ResidualStack.forward in E.
  cbn [ResidualStack.init ResidualStack._num_residual_layers] in E.
  apply (residual_stack_loop_inv rng (base + 6) nh nrh L L 0 false x3 y) in E;
    [|cbn; lia].
  exists l1, H, W. repeat split; try assumption.
  - destruct (le_lt_dec 2 nh) as [?|Hlt]; [assumption|].
    assert (nh / 2 = 0) by (apply Nat.div_small; lia). lia.
  - congruence.
Qed.

Lemma encoder_forward_raise rng base cin nh L nrh x e :
  Encoder.forward (Encoder.init rng base cin nh L nrh) x = Raise e ->
  e = RuntimeError.
Proof.
  intros E. unfold Encoder.forward in E.
  destruct (Conv2d.forward _ x) as [x1|e1] eqn:E1;
    [|cbn in E; injection E as <-; eapply conv2d_forward_raise, E1].
  cbn [mbind result_bind] in E.
  destruct (Conv2d.forward _ (relu x1)) as [x2|e2] eqn:E2;
    [|cbn in E; injection E as <-; eapply conv2d_forward_raise, E2].
  cbn [mbind result_bind] in E.
  destruct (Conv2d.forward _ (relu x2)) as [x3|e3] eqn:E3;
    [|cbn in E; injection E as <-; eapply conv2d_forward_raise, E3].
  cbn [mbind result_bind] in E.
  unfold ResidualStack.forward in E.
  cbn [Encoder._residual_stack Encoder.init ResidualStack.init
       ResidualStack._num_residual_layers] in E.
  apply (residual_stack_loop_raise rng (base + 6) nh nh nrh L L 0 false x3 e) in E;
    [exact E | cbn; lia].
Qed.

End EncoderCases.

(** X9. Take an encoder in which every layer has a channel: at least one
    input channel, a width [num_hiddens] of at least 2, and at least one
    residual hidden channel unless there is no residual layer. Of the
    four-dimensional batches it accepts exactly those with its number of
    input channels and images of at least 4 by 4: on those it returns
    [num_hiddens] channels of a quarter of the height and width (rounded
    down); on the others it raises [RuntimeError]. *)
Theorem encoder_forward_cases (rng : initializer) (base cin nh L nrh : nat)
    (x : tensor) (B C H W : nat) :
  1 <= cin -> 2 <= nh -> L = 0 \/ 1 <= nrh ->
  shape x = [B; C; H; W] ->
  match Encoder.forward (Encoder.init rng base cin nh L nrh) x with
  | Ok y =>
      C = cin /\ 4 <= H /\ 4 <= W /\ shape y = [B; nh; H / 4; W / 4]
  | Raise e =>
      e = RuntimeError /\ (C <> cin \/ H < 4 \/ W < 4)
  end.
Proof.
  intros Hcin Hnh Hnrh Hs.
  destruct (Encoder.forward _ x) as [y|e] eqn:E.
  - apply encoder_forward_inv in E
      as (lead & H' & W' & Hl & Hs' & H4 & W4 & _ & Sy).
    rewrite Hs in Hs'. change [B; C; H; W] with ([B] ++ [C; H; W]) in Hs'.
    apply lead_inj in Hs' as (<- & -> & -> & ->). auto.
  - split; [eapply encoder_forward_raise, E|].
    destruct (decide (C = cin)) as [->|Hc]; [|left; exact Hc].
    right.
    destruct (le_lt_dec 4 H) as [H4|?]; [|left; assumption].
    destruct (le_lt_dec 4 W) as [W4|?]; [|right; assumption].
    destruct (encoder_forward_ok rng base cin nh L nrh x B H W
                Hcin Hnh Hnrh Hs H4 W4) as (y & Ey & _).
    rewrite Ey in E. discriminate.
Qed.

(** One 3-channel image of 7 by 9 through an encoder of width 2. *)
Lemma encoder_forward_cases_witness :
  match Encoder.forward (Encoder.init (fun _ s => zeros s true) 0 3 2 1 1)
          (zeros [1; 3; 7; 9] false) with
  | Ok y =>
      3 = 3 /\ 4 <= 7 /\ 4 <= 9 /\ shape y = [1; 2; 7 / 4; 9 / 4]
  | Raise e =>
      e = RuntimeError /\ (3 <> 3 \/ 7 < 4 \/ 9 < 4)
  end.
Proof.
  apply (encoder_forward_cases (fun _ s => zeros s true) 0 3 2 1 1
           (zeros [1; 3; 7; 9] false) 1 3 7 9).
  - lia.
  - lia.
  - right. lia.
  - reflexivity.
Defined.

(** X10. The decoder upsamples by eight. Take a decoder in which every
    layer has a channel: at least one input channel, a width [num_hiddens] of
    at least 4 (its transposed convolutions have [num_hiddens // 2] and
    [num_hiddens // 4] channels), and at least one residual hidden channel
    unless there is no residual layer. A batch of [in_channels]-channel maps
    of height [H] and width [W], both at least one, comes back as 3-channel
    images of [8H] by [8W] (so a 4 by 4 code gives 32 by 32 images, twice the
    side of what the encoder's quartering would undo). *)
Theorem decoder_forward_shape (rng : initializer) (base cin nh L nrh : nat)
    (x : tensor) (B H W : nat) :
  1 <= cin -> 4 <= nh -> L = 0 \/ 1 <= nrh ->
  shape x = [B; cin; H; W] -> 1 <= H -> 1 <= W ->
  exists y,
    Decoder.forward (Decoder.init rng base cin nh L nrh) x = Ok y /\
    shape y = [B; 3; 8 * H; 8 * W].
Proof.
  intros Hcin Hnh Hnrh Hs HH HW. unfold Decoder.forward, Decoder.init. cbv zeta.
  cbn [Decoder._conv_1 Decoder._residual_stack Decoder._conv_trans_1
       Decoder._conv_trans_2 Decoder._conv_trans_3].
  assert (Hh : 1 <= nh / 2) by (apply Nat.div_le_lower_bound; lia).
  assert (Hq : 1 <= nh / 4) by (apply Nat.div_le_lower_bound; lia).
  destruct (conv2d_forward_shape
              (Conv2d.init rng base cin nh 3 1 1 true) x B H W)
    as (x1 & E1 & S1);
    [cbn [Conv2d.init Conv2d.in_channels]; lia
    | cbn [Conv2d.init Conv2d.out_channels]; lia
    | exact Hs
    | cbn [Conv2d.init Conv2d.kernel_size Conv2d.padding]; lia
    | cbn [Conv2d.init Conv2d.kernel_size Conv2d.padding]; lia |].
  rewrite E1. cbn [mbind result_bind].
  rewrite !conv_out_size_3_1_1 in S1 by assumption.
  cbn [Conv2d.init Conv2d.out_channels] in S1.
  destruct (residual_stack_forward_shape rng (base + 2) nh nrh L false x1 B H W)
    as (x2 & E2 & S2); [lia | exact Hnrh | reflexivity | exact HH | exact HW
                        | exact S1 |].
  rewrite E2. cbn [mbind result_bind].
  destruct (convtranspose_forward_shape
              (ConvTranspose2d.init rng (base + 2 + 2 * L) nh (nh / 2) 4 2 1)
              x2 B H W)
    as (x3 & E3 & S3);
    [cbn [ConvTranspose2d.init ConvTranspose2d.in_channels]; lia
    | cbn [ConvTranspose2d.init ConvTranspose2d.out_channels]; lia
    | exact S2 | exact HH | exact HW
    | rewrite convtranspose_out_size_4_2_1 by assumption; lia ..|].
  rewrite E3. cbn [mbind result_bind].
  rewrite !convtranspose_out_size_4_2_1 in S3 by assumption.
  cbn [ConvTranspose2d.out_channels ConvTranspose2d.init] in S3.
  destruct (convtranspose_forward_shape
              (ConvTranspose2d.init rng (base + 2 + 2 * L + 2) (nh / 2) (nh / 4) 4 2 1)
              (relu x3) B (2 * H) (2 * W))
    as (x4 & E4 & S4);
    [cbn [ConvTranspose2d.init ConvTranspose2d.in_channels]; lia
    | cbn [ConvTranspose2d.init ConvTranspose2d.out_channels]; lia
    | rewrite relu_shape; exact S3 | lia | lia
    | rewrite convtranspose_out_size_4_2_1 by lia; lia ..|].
  rewrite E4. cbn [mbind result_bind].
  rewrite !convtranspose_out_size_4_2_1 in S4 by lia.
  cbn [ConvTranspose2d.out_channels ConvTranspose2d.init] in S4.
  destruct (convtranspose_forward_shape
              (ConvTranspose2d.init rng (base + 2 + 2 * L + 4) (nh / 4) 3 4 2 1)
              (relu x4) B (2 * (2 * H)) (2 * (2 * W)))
    as (x5 & E5 & S5);
    [cbn [ConvTranspose2d.init ConvTranspose2d.in_channels]; lia
    | cbn [ConvTranspose2d.init ConvTranspose2d.out_channels]; lia
    | rewrite relu_shape; exact S4 | lia | lia
    | rewrite convtranspose_out_size_4_2_1 by lia; lia ..|].
  rewrite E5. eexists. split; [reflexivity|].
  rewrite S5, !convtranspose_out_size_4_2_1 by lia.
  cbn [ConvTranspose2d.out_channels ConvTranspose2d.init].
  replace (2 * (2 * (2 * H))) with (8 * H) by lia.
  replace (2 * (2 * (2 * W))) with (8 * W) by lia. reflexivity.
Qed.

Lemma decoder_forward_shape_witness :
  exists y,
    Decoder.forward (Decoder.init (fun _ s => zeros s true) 0 7 4 1 2)
      (zeros [1; 7; 4; 4] false) = Ok y /\
    shape y = [1; 3; 8 * 4; 8 * 4].
Proof.
  apply (decoder_forward_shape (fun _ s => zeros s true) 0 7 4 1 2
           (zeros [1; 7; 4; 4] false) 1 4 4);
    [lia | lia | right; lia | reflexivity | lia | lia].
Defined.

(** ** [VAE.forward] on any batch *)

Section VaeForwardMore.

Lemma out_size_3_2_1_even k : 1 <= k -> (2 * k + 2 * 1 - 3) / 2 + 1 = k.
Proof.
  intros H. replace (2 * k + 2 * 1 - 3) with (1 + (k - 1) * 2) by lia.
  rewrite Nat.div_add by lia. cbn. lia.
Qed.

Lemma out_size_3_2_1_one : (1 + 2 * 1 - 3) / 2 + 1 = 1.
Proof. reflexivity. Qed.

Lemma out_size_pos (m : Conv2d.t) n : 1 <= Conv2d.out_size m n.
Proof. unfold Conv2d.out_size. lia. Qed.

Lemma reparameterize_shape fl_exp randn_like (mu logvar : tensor) :
  (forall t, shape (randn_like t) = shape t) ->
  shape mu = shape logvar ->
  exists z, VAE.reparameterize fl_exp randn_like mu logvar = Ok z /\
            shape z = shape mu.
Proof.
  intros Hr Hs. unfold VAE.reparameterize.
  rewrite binop_same_shape by (rewrite Hr; reflexivity).
  cbn [mbind result_bind].
  rewrite binop_same_shape by (cbn [shape]; rewrite Hr; cbn [shape tmap]; congruence).
  eexists. split; [reflexivity|]. cbn [shape]. rewrite Hr. cbn [shape tmap].
  congruence.
Qed.

End VaeForwardMore.

(** X11. [VAE.forward] returns on no batch with at least one image, whatever
    the image size and the weights: either the encoder refuses the batch, or
    [fc_mu] refuses the unflattened encoder output, or (when the widths
    happen to match) the reshaped latent and the tiled code do not fit
    together in [torch.cat]. *)
Theorem vae_forward_never_returns
    (fl_exp : fl -> fl) (randn_like : tensor -> tensor)
    (rng : initializer) (nh L nrh ne ed : nat) (md : pyarg) (x : tensor) :
  (forall t, shape (randn_like t) = shape t) ->
  (forall r, shape x <> 0 :: r) ->
  exists e,
    VAE.forward fl_exp randn_like (VAE.init rng nh L nrh ne ed md) x = Raise e.
Proof.
  intros Hr HB. unfold VAE.forward.
  change (VAE._encoder (VAE.init rng nh L nrh ne ed md))
    with (Encoder.init rng 0 3 nh L nrh).
  destruct (Encoder.forward _ x) as [y|e] eqn:Ey; [|eexists; reflexivity].
  apply encoder_forward_inv in Ey
    as (lead & H & W & Hlead & Hs & HH & HW & Hnh2 & Sy).
  cbn [mbind result_bind].
  destruct lead as [|B [|? ?]]; [| |cbn [length] in Hlead; lia].
  { (* a single image: the size of [_x] has three entries, not four *)
    destruct (Conv2d.forward _ y) as [_x|?] eqn:Ex; [|eexists; reflexivity].
    apply conv2d_forward_inv in Ex as (l' & H' & W' & _ & Sy' & _ & _ & _ & Sx).
    rewrite Sy in Sy'. apply lead_inj in Sy' as (<- & _ & _ & _).
    cbn [mbind result_bind].
    destruct (Linear.forward (VAE.fc_mu _) y) as [mu|?]; [|eexists; reflexivity].
    cbn [mbind result_bind].
    destruct (Linear.forward (VAE.fc_var _) y) as [logvar|?];
      [|eexists; reflexivity].
    cbn [mbind result_bind].
    destruct (VAE.reparameterize _ _ mu logvar) as [z|?]; [|eexists; reflexivity].
    cbn [mbind result_bind].
    destruct (Linear.forward (VAE.fc_z _) z) as [_z|?]; [|eexists; reflexivity].
    cbn [mbind result_bind]. rewrite Sx. eexists. reflexivity. }
  cbn [app] in Hs, Sy.
  assert (HB1 : 1 <= B).
  { destruct B; [exfalso; eapply HB, Hs | lia]. }
  pose proof (quarter_ge_1 H HH) as Hh. pose proof (quarter_ge_1 W HW) as Hw.
  remember (H / 4) as h eqn:Dh. remember (W / 4) as w eqn:Dw. clear Dh Dw.
  destruct (conv2d_forward_shape
              (VAE.conv1 (VAE.init rng nh L nrh ne ed md)) y B h w)
    as (_x & Ex & Sx);
    [cbn [VAE.conv1 VAE.init Conv2d.init Conv2d.in_channels]; lia
    | cbn [VAE.conv1 VAE.init Conv2d.init Conv2d.out_channels]; lia
    | exact Sy
    | cbn [VAE.conv1 VAE.init Conv2d.init Conv2d.kernel_size Conv2d.padding]; lia
    | cbn [VAE.conv1 VAE.init Conv2d.init Conv2d.kernel_size Conv2d.padding]; lia |].
  rewrite Ex. cbn [mbind result_bind].
  destruct (Nat.eq_dec w (nh * 16)) as [Ew|Ew].
  2:{ rewrite (linear_forward_mismatch
                 (VAE.fc_mu (VAE.init rng nh L nrh ne ed md)) y [B; nh; h] w);
        [eexists; reflexivity | exact Sy | exact Ew]. }
  destruct (linear_forward_shape
              (VAE.fc_mu (VAE.init rng nh L nrh ne ed md)) y [B; nh; h])
    as (mu & Emu & Smu); [rewrite Sy, Ew; reflexivity|].
  destruct (linear_forward_shape
              (VAE.fc_var (VAE.init rng nh L nrh ne ed md)) y [B; nh; h])
    as (logvar & Elv & Slv); [rewrite Sy, Ew; reflexivity|].
  rewrite Emu, Elv. cbn [mbind result_bind].
  cbn [VAE.fc_mu VAE.fc_var VAE.init Linear.init Linear.out_features] in Smu, Slv.
  destruct (reparameterize_shape fl_exp randn_like mu logvar Hr)
    as (z & Ez & Sz); [congruence|].
  rewrite Ez. cbn [mbind result_bind].
  rewrite Smu in Sz.
  destruct (linear_forward_shape
              (VAE.fc_z (VAE.init rng nh L nrh ne ed md)) z [B; nh; h])
    as (_z & Ezz & Szz); [exact Sz|].
  rewrite Ezz. cbn [mbind result_bind].
  cbn [VAE.fc_z VAE.init Linear.init Linear.out_features] in Szz.
  rewrite Sx. cbn [mbind result_bind].
  unfold tensor_repeat. cbn [shape tmap]. rewrite Szz.
  cbn [length app Nat.ltb Nat.leb Nat.sub replicate zip_with].
  cbn [mbind result_bind].
  destruct (linear_forward_shape
              (VAE.fc_recover (VAE.init rng nh L nrh ne ed md)) z [B; nh; h])
    as (r & Er & Sr); [exact Sz|].
  rewrite Er. cbn [mbind result_bind].
  cbn [VAE.fc_recover VAE.init Linear.init Linear.out_features] in Sr.
  unfold view4. rewrite Sr.
  destruct (_ || _)%bool eqn:Ev; [eexists; reflexivity|].
  cbn [mbind result_bind]. unfold cat1. cbn [shape app].
  apply orb_false_elim in Ev as [Ev0 Evm].
  apply Nat.eqb_neq in Ev0. apply negb_false_iff, Nat.eqb_eq in Evm.
  set (c := Conv2d.out_channels (VAE.conv1 (VAE.init rng nh L nrh ne ed md))) in *.
  set (oh := Conv2d.out_size (VAE.conv1 (VAE.init rng nh L nrh ne ed md)) h) in *.
  set (ow := Conv2d.out_size (VAE.conv1 (VAE.init rng nh L nrh ne ed md)) w) in *.
  set (n := numel [B; nh; h; nh * 16]) in *.
  destruct ((n / (c * oh * ow) =? B * 1) && bool_decide ([oh; ow] = [h * oh; ed * ow]))
    eqn:Ec; [|eexists; reflexivity].
  exfalso. apply andb_true_iff in Ec as [Ec1 Ec2].
  apply Nat.eqb_eq in Ec1. apply bool_decide_eq_true_1 in Ec2.
  injection Ec2 as Eoh Eow.
  assert (Hoh : 1 <= oh) by apply out_size_pos.
  assert (Eh1 : h = 1) by nia.
  assert (Hnh : 1 <= nh) by lia.
  assert (Eoh1 : oh = 1).
  { subst oh. rewrite Eh1. reflexivity. }
  assert (Eow8 : ow = 8 * nh).
  { subst ow. rewrite Ew. unfold Conv2d.out_size.
    cbn [VAE.conv1 VAE.init Conv2d.init Conv2d.padding Conv2d.kernel_size
         Conv2d.stride].
    replace (nh * 16) with (2 * (8 * nh)) by lia.
    apply out_size_3_2_1_even. lia. }
  assert (Ec : c = nh) by reflexivity.
  assert (En : n = B * (nh * (h * (nh * 16 * 1)))) by reflexivity.
  assert (Hdm : n = c * oh * ow * (n / (c * oh * ow)))
    by (apply Nat.Div0.div_exact; exact Evm).
  rewrite Ec1, Ec, Eoh1, Eow8, En, Eh1 in Hdm. nia.
Qed.

Lemma vae_forward_never_returns_witness :
  exists e,
    VAE.forward (fun v => v) (fun t => t)
      (VAE.init (fun _ s => zeros s true) 2 1 1 4 3 (ArgInt 1))
      (zeros [1; 3; 32; 32] false) = Raise e.
Proof.
  apply (vae_forward_never_returns (fun v => v) (fun t => t)
           (fun _ s => zeros s true) 2 1 1 4 3 (ArgInt 1)
           (zeros [1; 3; 32; 32] false)).
  - reflexivity.
  - intros r E. discriminate E.
Defined.

(** ** More on the strategy: checkpoints *)

Section CheckpointMore.

Variable P : Type.
Variable net_state_dict : P -> state_dict.



(** *** [load_state_dict] *)

Lemma input_param_same (p v : tensor) :
  shape v = shape p -> input_param p v = Ok v.
Proof.
  intros E. unfold input_param. rewrite E.
  destruct (shape p) as [|? ?]; reflexivity.
Qed.

Lemma param_fits (p v : tensor) :
  shape v = shape p ->
  param_index_error p (Some v) = false /\
  param_ok p (Some v) = true /\
  load_param p (Some v) = mkTensor (shape p) (data v) (requires_grad p).
Proof.
  intros E. unfold param_index_error, param_ok, load_param.
  rewrite (input_param_same p v E).
  rewrite bool_decide_eq_true_2 by exact E. repeat split.
Qed.

Lemma visited_elem (new : state_dict) l k p' :
  (k, p') ∈ (visited new l).1 ->
  exists p, (k, p) ∈ l /\ p' = load_param p (new !! k).
Proof.
  induction l as [|[k0 p0] l IH]; cbn [visited].
  - intros H. inversion H.
  - destruct (param_index_error p0 (new !! k0)); [intros H; inversion H|].
    destruct (visited new l) as [done failed]. cbn [fst] in *.
    intros H. apply elem_of_cons in H as [[= -> ->]|H].
    + exists p0. split; [left | reflexivity].
    + destruct (IH H) as (p & Hp & ->). exists p. split; [right; exact Hp | reflexivity].
Qed.

Lemma visited_all (new : state_dict) l :
  (visited new l).2 = false ->
  (visited new l).1 = (fun kp => (kp.1, load_param kp.2 (new !! kp.1))) <$> l.
Proof.
  induction l as [|[k0 p0] l IH]; cbn [visited]; [reflexivity|].
  destruct (param_index_error p0 (new !! k0)); [discriminate|].
  destruct (visited new l) as [done failed]. cbn [fst snd] in *.
  intros ->. rewrite IH by reflexivity. reflexivity.
Qed.


Lemma visited_ok (new : state_dict) l :
  (forall k p, (k, p) ∈ l -> param_index_error p (new !! k) = false) ->
  (visited new l).2 = false.
Proof.
  induction l as [|[k0 p0] l IH]; intros H; cbn [visited]; [reflexivity|].
  rewrite (H k0 p0) by left.
  destruct (visited new l) as [done failed] eqn:E. cbn [snd] in *.
  apply IH. intros k p Hk. apply H. right. exact Hk.
Qed.

Lemma load_state_dict_eq (cur new : state_dict) :
  load_state_dict cur new =
  (if (visited new (map_to_list cur)).2 then Raise IndexError
   else if bool_decide (dom cur = dom new)
           && bool_decide (map_Forall (fun k p => param_ok p (new !! k) = true) cur)
   then Ok tt else Raise RuntimeError,
   list_to_map (visited new (map_to_list cur)).1 ∪ cur).
Proof.
  unfold load_state_dict.
  destruct (visited new (map_to_list cur)) as [done failed]. cbn [fst snd].
  destruct failed; [reflexivity|]. destruct (_ && _)%bool; reflexivity.
Qed.

(** The load raises nothing but [RuntimeError] and [IndexError]. *)
Lemma load_state_dict_raises (cur new : state_dict) (e : exn) :
  (load_state_dict cur new).1 = Raise e -> e = RuntimeError \/ e = IndexError.
Proof.
  rewrite load_state_dict_eq. cbn [fst].
  destruct (visited new (map_to_list cur)).2; [intros [= <-]; auto|].
  destruct (_ && _)%bool; [discriminate | intros [= <-]; auto].
Qed.


Lemma load_state_dict_ok (cur new : state_dict) :
  dom cur = dom new ->
  (forall k p, cur !! k = Some p -> shape <$> new !! k = Some (shape p)) ->
  (load_state_dict cur new).1 = Ok tt.
Proof.
  intros Hd Hs. rewrite load_state_dict_eq. cbn [fst].
  rewrite visited_ok.
  - rewrite bool_decide_eq_true_2 by exact Hd.
    rewrite bool_decide_eq_true_2; [reflexivity|].
    intros k p Hk. specialize (Hs k p Hk).
    destruct (new !! k) as [v|]; [|discriminate]. injection Hs as Hs.
    apply (param_fits p v Hs).
  - intros k p Hk. apply elem_of_map_to_list in Hk. specialize (Hs k p Hk).
    destruct (new !! k) as [v|]; [|discriminate]. injection Hs as Hs.
    apply (param_fits p v Hs).
Qed.


(** The parameters after the load: the names are kept, and each parameter
    is as before or holds its entry. *)
Lemma load_state_dict_dom (cur new : state_dict) :
  dom (load_state_dict cur new).2 = dom cur.
Proof.
  rewrite load_state_dict_eq. cbn [snd]. rewrite dom_union_L.
  apply subseteq_union_1_L. intros k Hk.
  apply elem_of_dom in Hk as [p' Hp'].
  apply elem_of_list_to_map_2 in Hp'.
  destruct (visited_elem _ _ _ _ Hp') as (p & Hp & _).
  apply elem_of_map_to_list in Hp. apply elem_of_dom. eauto.
Qed.


Lemma load_state_dict_copied (cur new : state_dict) (k : string) (p : tensor) :
  (load_state_dict cur new).1 <> Raise IndexError ->
  cur !! k = Some p ->
  (load_state_dict cur new).2 !! k = Some (load_param p (new !! k)).
Proof.
  rewrite load_state_dict_eq. cbn [fst snd]. intros Hr Hk.
  destruct (visited new (map_to_list cur)).2 eqn:E; [congruence|].
  rewrite (visited_all _ _ E). apply lookup_union_Some_l.
  apply elem_of_list_to_map_1.
  - rewrite <- list_fmap_compose.
    rewrite (list_fmap_ext _ fst (map_to_list cur))
      by (intros ? [? ?] ?; reflexivity).
    apply NoDup_fst_map_to_list.
  - apply list_elem_of_fmap. exists (k, p).
    split; [reflexivity | apply elem_of_map_to_list, Hk].
Qed.

(** *** [load_checkpoint] on a file that is there *)

Lemma load_checkpoint_no_key (s : Strategy.t P) (c : checkpoint) :
  Strategy.fs s !! path_join (Config.root_path (Strategy.config s))
                     [Config.checkpoint_directory (Strategy.config s);
                      "task.pth.tar"] = Some c ->
  c !! "task_state_dict" = None ->
  Strategy.load_checkpoint P s =
  (Raise KeyError,
   Strategy.mk (Strategy.config s) (Strategy.step_cnt s) (Strategy.best_acc s)
     (Strategy.task s) (Strategy.vae s) (Strategy.lr s)
     (Strategy.vae_scheduler s) (Strategy.epoch s) (Strategy.fs s)
     (Strategy.stdout s ++
      ["Loading checkpoint '"
       +:+ path_join (Config.root_path (Strategy.config s))
             [Config.checkpoint_directory (Strategy.config s); "task.pth.tar"]
       +:+ "'"])).
Proof.
  intros Hf Hc. destruct s as [cfg sc ba tk va l sch ep files out].
  cbn [Strategy.fs Strategy.config Strategy.stdout Strategy.task
       Strategy.step_cnt Strategy.best_acc Strategy.vae Strategy.lr
       Strategy.vae_scheduler Strategy.epoch] in *.
  cbv [Strategy.load_checkpoint mbind Strategy.M_bind Strategy.bind
       Strategy.get Strategy.try_except_OSError Strategy.print
       Strategy.torch_load Strategy.lift Strategy.ret Strategy.getitem
       Strategy.set_task
       Strategy.fs Strategy.config Strategy.stdout Strategy.task
       Strategy.step_cnt Strategy.best_acc Strategy.vae Strategy.lr
       Strategy.vae_scheduler Strategy.epoch].
  rewrite Hf, Hc. reflexivity.
Qed.

Lemma load_checkpoint_found (s : Strategy.t P) (c : checkpoint) (d : state_dict) :
  Strategy.fs s !! path_join (Config.root_path (Strategy.config s))
                     [Config.checkpoint_directory (Strategy.config s);
                      "task.pth.tar"] = Some c ->
  c !! "task_state_dict" = Some d ->
  Strategy.load_checkpoint P s =
  ((load_state_dict (Strategy.task s) d).1,
   Strategy.mk (Strategy.config s) (Strategy.step_cnt s) (Strategy.best_acc s)
     (load_state_dict (Strategy.task s) d).2 (Strategy.vae s) (Strategy.lr s)
     (Strategy.vae_scheduler s) (Strategy.epoch s) (Strategy.fs s)
     (Strategy.stdout s ++
      ["Loading checkpoint '"
       +:+ path_join (Config.root_path (Strategy.config s))
             [Config.checkpoint_directory (Strategy.config s); "task.pth.tar"]
       +:+ "'"])).
Proof.
  intros Hf Hc. destruct s as [cfg sc ba tk va l sch ep files out].
  cbn [Strategy.fs Strategy.config Strategy.stdout Strategy.task
       Strategy.step_cnt Strategy.best_acc Strategy.vae Strategy.lr
       Strategy.vae_scheduler Strategy.epoch] in *.
  cbv [Strategy.load_checkpoint mbind Strategy.M_bind Strategy.bind
       Strategy.get Strategy.try_except_OSError Strategy.print
       Strategy.torch_load Strategy.lift Strategy.ret Strategy.getitem
       Strategy.set_task
       Strategy.fs Strategy.config Strategy.stdout Strategy.task
       Strategy.step_cnt Strategy.best_acc Strategy.vae Strategy.lr
       Strategy.vae_scheduler Strategy.epoch].
  rewrite Hf, Hc.
  pose proof (load_state_dict_raises tk d) as Hr.
  destruct (load_state_dict tk d) as [[[]|e] w]; cbn [fst snd] in *;
    [reflexivity|].
  destruct (Hr e eq_refl) as [-> | ->]; reflexivity.
Qed.


End CheckpointMore.

(** X12. When the file [task.pth.tar] of the checkpoint directory does not
    exist, [load_checkpoint] returns normally: [torch.load]'s [OSError] is
    caught, the three lines "Loading checkpoint", "No checkpoint exists
    ... Skipping..." and "**First time to train**" are printed in this order,
    and the classifier's weights and everything else of [self] stay as they
    were. *)
Theorem load_checkpoint_skips_missing (P : Type) (s : Strategy.t P) :
  Strategy.fs s !! path_join (Config.root_path (Strategy.config s))
                     [Config.checkpoint_directory (Strategy.config s);
                      "task.pth.tar"] = None ->
  Strategy.load_checkpoint P s =
  (Ok tt,
   Strategy.mk (Strategy.config s) (Strategy.step_cnt s) (Strategy.best_acc s)
     (Strategy.task s) (Strategy.vae s) (Strategy.lr s)
     (Strategy.vae_scheduler s) (Strategy.epoch s) (Strategy.fs s)
     (Strategy.stdout s ++
      ["Loading checkpoint '"
       +:+ path_join (Config.root_path (Strategy.config s))
             [Config.checkpoint_directory (Strategy.config s); "task.pth.tar"]
       +:+ "'";
       "No checkpoint exists from '"
       +:+ Config.checkpoint_directory (Strategy.config s) +:+ "'. Skipping...";
       "**First time to train**"])).
Proof.
  intros Hf. destruct s as [cfg sc ba tk va l sch ep files out].
  cbn [Strategy.fs Strategy.config Strategy.stdout Strategy.task
       Strategy.step_cnt Strategy.best_acc Strategy.vae Strategy.lr
       Strategy.vae_scheduler Strategy.epoch] in *.
  cbv [Strategy.load_checkpoint mbind Strategy.M_bind Strategy.bind
       Strategy.get Strategy.try_except_OSError Strategy.print
       Strategy.torch_load Strategy.lift Strategy.ret
       Strategy.fs Strategy.config Strategy.stdout Strategy.task
       Strategy.step_cnt Strategy.best_acc Strategy.vae Strategy.lr
       Strategy.vae_scheduler Strategy.epoch].
  rewrite Hf. rewrite <- !app_assoc. reflexivity.
Qed.

(** With no file at all, under root [/data] and directory [ckpt]. *)
Lemma load_checkpoint_skips_missing_witness :
  let cfg := Config.mk "/data" "ckpt" 1 2 1 1 4 3 (1 # 4) 2 (99 # 100) (1 # 1000) in
  let sch := ReduceLROnPlateau.mk (8 # 10) 10 (1 # 10000) 8 0 (1 # 100000000)
               PInf 0 0 in
  Strategy.load_checkpoint unit
    (Strategy.mk cfg 0 0 ({[ "w" := vec [1; 2]%Q true ]} : state_dict) tt
       (1 # 1000) sch 0 (∅ : filesystem) [])
  = (Ok tt,
     Strategy.mk cfg 0 0 ({[ "w" := vec [1; 2]%Q true ]} : state_dict) tt
       (1 # 1000) sch 0 (∅ : filesystem)
       ["Loading checkpoint '/data/ckpt/task.pth.tar'";
        "No checkpoint exists from 'ckpt'. Skipping...";
        "**First time to train**"]).
Proof.
  intros cfg sch.
  exact (load_checkpoint_skips_missing unit
           (Strategy.mk cfg 0 0 ({[ "w" := vec [1; 2]%Q true ]} : state_dict) tt
              (1 # 1000) sch 0 (∅ : filesystem) [])
           (lookup_empty _)).
Defined.

(** X13. When [task.pth.tar] exists and its [task_state_dict] has the
    classifier's parameter names with the classifier's sizes,
    [load_checkpoint] returns normally and prints the "Loading checkpoint"
    line only; afterwards the classifier has the same parameter names, and
    each parameter holds the values the checkpoint stores under its name, with
    its own size and [requires_grad] flag. *)
Theorem load_checkpoint_restores (P : Type) (s : Strategy.t P)
    (c : checkpoint) (d : state_dict) :
  Strategy.fs s !! path_join (Config.root_path (Strategy.config s))
                     [Config.checkpoint_directory (Strategy.config s);
                      "task.pth.tar"] = Some c ->
  c !! "task_state_dict" = Some d ->
  dom (Strategy.task s) = dom d ->
  (forall k p, Strategy.task s !! k = Some p ->
               shape <$> d !! k = Some (shape p)) ->
  exists w,
    Strategy.load_checkpoint P s =
    (Ok tt,
     Strategy.mk (Strategy.config s) (Strategy.step_cnt s) (Strategy.best_acc s)
       w (Strategy.vae s) (Strategy.lr s)
       (Strategy.vae_scheduler s) (Strategy.epoch s) (Strategy.fs s)
       (Strategy.stdout s ++
        ["Loading checkpoint '"
         +:+ path_join (Config.root_path (Strategy.config s))
               [Config.checkpoint_directory (Strategy.config s); "task.pth.tar"]
         +:+ "'"])) /\
    dom w = dom (Strategy.task s) /\
    forall k p, Strategy.task s !! k = Some p ->
      exists v, d !! k = Some v /\
        w !! k = Some (mkTensor (shape p) (data v) (requires_grad p)).
Proof.
  intros Hf Hc Hd Hs.
  pose proof (load_state_dict_ok (Strategy.task s) d Hd Hs) as Hok.
  exists (load_state_dict (Strategy.task s) d).2. split; [|split].
  - rewrite (load_checkpoint_found P s c d Hf Hc), Hok. reflexivity.
  - apply load_state_dict_dom.
  - intros k p Hk. pose proof (Hs k p Hk) as Hv.
    destruct (d !! k) as [v|] eqn:Ev; [|discriminate]. injection Hv as Hv.
    exists v. split; [reflexivity|].
    rewrite (load_state_dict_copied _ _ k p);
      [|rewrite Hok; discriminate|exact Hk].
    rewrite Ev. f_equal. apply (param_fits p v Hv).
Qed.

(** A classifier with one parameter [w] = (1, 2) and a checkpoint that
    stores (5, 7) under the same name: afterwards [w] = (5, 7). *)
Lemma load_checkpoint_restores_witness :
  let cfg := Config.mk "/data" "ckpt" 1 2 1 1 4 3 (1 # 4) 2 (99 # 100) (1 # 1000) in
  let sch := ReduceLROnPlateau.mk (8 # 10) 10 (1 # 10000) 8 0 (1 # 100000000)
               PInf 0 0 in
  let d : state_dict := {[ "w" := vec [5; 7]%Q false ]} in
  let c : checkpoint := {[ "task_state_dict" := d ]} in
  let s := Strategy.mk cfg 0 0 ({[ "w" := vec [1; 2]%Q true ]} : state_dict) tt
             (1 # 1000) sch 0
             ({[ "/data/ckpt/task.pth.tar" := c ]} : filesystem) [] in
  exists w,
    Strategy.load_checkpoint unit s =
    (Ok tt,
     Strategy.mk cfg 0 0 w tt (1 # 1000) sch 0
       ({[ "/data/ckpt/task.pth.tar" := c ]} : filesystem)
       ["Loading checkpoint '/data/ckpt/task.pth.tar'"]) /\
    dom w = dom (Strategy.task s) /\
    forall k p, Strategy.task s !! k = Some p ->
      exists v, d !! k = Some v /\
        w !! k = Some (mkTensor (shape p) (data v) (requires_grad p)).
Proof.
  intros cfg sch d c s.
  apply (load_checkpoint_restores unit s c d).
  - reflexivity.
  - reflexivity.
  - unfold s, d. cbn [Strategy.task]. rewrite !dom_singleton_L. reflexivity.
  - unfold s, d. cbn [Strategy.task]. intros k p Hk.
    apply lookup_singleton_Some in Hk. destruct Hk as [<- <-].
    rewrite lookup_singleton. reflexivity.
Defined.



(** X15. Whatever the files hold, [load_checkpoint] only reads: it leaves
    the files, the network, the learning rate, the scheduler, the best
    accuracy, the epoch counter and the configuration as they are, keeps the
    classifier's parameter names, keeps what was printed and prints the
    "Loading checkpoint" line first; and [OSError] never leaves it. *)
Theorem load_checkpoint_only_reads (P : Type) (s : Strategy.t P) :
  let r := Strategy.load_checkpoint P s in
  r.1 <> Raise OSError /\
  Strategy.fs r.2 = Strategy.fs s /\
  Strategy.vae r.2 = Strategy.vae s /\
  Strategy.lr r.2 = Strategy.lr s /\
  Strategy.vae_scheduler r.2 = Strategy.vae_scheduler s /\
  Strategy.best_acc r.2 = Strategy.best_acc s /\
  Strategy.epoch r.2 = Strategy.epoch s /\
  Strategy.step_cnt r.2 = Strategy.step_cnt s /\
  Strategy.config r.2 = Strategy.config s /\
  dom (Strategy.task r.2) = dom (Strategy.task s) /\
  exists rest,
    Strategy.stdout r.2 =
    Strategy.stdout s ++
      ("Loading checkpoint '"
       +:+ path_join (Config.root_path (Strategy.config s))
             [Config.checkpoint_directory (Strategy.config s); "task.pth.tar"]
       +:+ "'") :: rest.
Proof.
  intros r. subst r.
  destruct (Strategy.fs s !! path_join (Config.root_path (Strategy.config s))
                               [Config.checkpoint_directory (Strategy.config s);
                                "task.pth.tar"]) as [c|] eqn:Hf.
  - destruct (c !! "task_state_dict") as [d|] eqn:Hc.
    + rewrite (load_checkpoint_found P s c d Hf Hc).
      cbn [fst snd Strategy.fs Strategy.config Strategy.stdout Strategy.task
           Strategy.step_cnt Strategy.best_acc Strategy.vae Strategy.lr
           Strategy.vae_scheduler Strategy.epoch].
      split.
      { intros E. apply load_state_dict_raises in E as [E|E]; discriminate E. }
      repeat (split; [reflexivity|]).
      split; [apply load_state_dict_dom|]. exists []. reflexivity.
    + rewrite (load_checkpoint_no_key P s c Hf Hc).
      cbn [fst snd Strategy.fs Strategy.config Strategy.stdout Strategy.task
           Strategy.step_cnt Strategy.best_acc Strategy.vae Strategy.lr
           Strategy.vae_scheduler Strategy.epoch].
      split; [discriminate|]. repeat (split; [reflexivity|]).
      exists []. reflexivity.
  - rewrite (load_checkpoint_missing P s Hf).
    cbn [fst snd Strategy.fs Strategy.config Strategy.stdout Strategy.task
         Strategy.step_cnt Strategy.best_acc Strategy.vae Strategy.lr
         Strategy.vae_scheduler Strategy.epoch].
    split; [discriminate|]. repeat (split; [reflexivity|]).
    eexists. reflexivity.
Qed.


(** ** More on the strategy: what an epoch leaves alone *)

Section TrainMore.

Variable P : Type.
Variable net : P -> list tensor -> result (list tensor).
Variable net_state_dict : P -> state_dict.
Variable zero_grad : P -> P.
Variable backward : tensor -> P -> result P.
Variable opt_step : Q -> P -> P.
Variable writable : string -> bool.
Variable task_forward : state_dict -> tensor -> result tensor.
Variable loss_module : tensor -> tensor -> result tensor.
Variable uncertainty_score : tensor -> result tensor.

Local Abbreviation M := (Strategy.M P).
Local Abbreviation bind := (@Strategy.bind P _ _).

Lemma frozen_ret {A} (a : A) : frozen (Strategy.ret P a).
Proof. intros s. repeat split. Qed.

Lemma frozen_lift {A} (r : result A) : frozen (Strategy.lift P r).
Proof. intros s. repeat split. Qed.

Lemma frozen_get : frozen (Strategy.get P).
Proof. intros s. repeat split. Qed.

Lemma frozen_set_vae p : frozen (Strategy.set_vae P p).
Proof. intros s. repeat split. Qed.

Lemma frozen_set_scheduler sch l : frozen (Strategy.set_scheduler P sch l).
Proof. intros s. repeat split. Qed.

Lemma frozen_bind {A B} (m : M A) (f : A -> M B) :
  frozen m -> (forall a, frozen (f a)) -> frozen (bind m f).
Proof.
  intros Hm Hf s. unfold Strategy.bind.
  destruct (Hm s) as (H1 & H2 & H3 & H4 & H5 & H6 & H7).
  destruct (m s) as [[a|e] s']; cbn [snd] in *.
  - destruct (Hf a s') as (G1 & G2 & G3 & G4 & G5 & G6 & G7).
    repeat split; congruence.
  - repeat split; assumption.
Qed.

Ltac frozen_tac :=
  repeat first
    [ apply frozen_ret | apply frozen_lift | apply frozen_get
    | apply frozen_set_vae | apply frozen_set_scheduler
    | apply frozen_bind; [|intros ?]
    | match goal with |- frozen (let '(_, _) := ?x in _) => destruct x end
    | match goal with |- frozen (match ?x with _ => _ end) => destruct x end ].

Lemma frozen_train_step avg data :
  frozen (Strategy.train_step P net zero_grad backward opt_step task_forward
            loss_module uncertainty_score avg data).
Proof.
  unfold Strategy.train_step, Strategy.backprop_and_step, mbind, Strategy.M_bind.
  frozen_tac.
Qed.

Lemma frozen_eval_step avg data :
  frozen (Strategy.eval_step P net task_forward loss_module uncertainty_score
            avg data).
Proof. unfold Strategy.eval_step, mbind, Strategy.M_bind. frozen_tac. Qed.

Lemma frozen_for_each {A B} (body : A -> B -> M A) (l : list B) :
  (forall a b, frozen (body a b)) ->
  forall acc, frozen (Strategy.for_each P body acc l).
Proof.
  intros Hb. induction l as [|x l IH]; intros acc; cbn [Strategy.for_each].
  - apply frozen_ret.
  - unfold mbind, Strategy.M_bind. apply frozen_bind; [apply Hb | exact IH].
Qed.

Lemma frozen_train_by_epoch train_batches test_batches :
  frozen (Strategy.train_by_epoch P net net_state_dict zero_grad backward
            opt_step writable task_forward loss_module uncertainty_score
            train_batches test_batches).
Proof.
  unfold Strategy.train_by_epoch, mbind, Strategy.M_bind.
  apply frozen_bind.
  { apply frozen_for_each. intros. apply frozen_train_step. }
  intros avg. apply frozen_bind; [apply frozen_get|]. intros s0.
  apply frozen_bind; [apply frozen_lift|]. intros metrics.
  apply frozen_bind.
  { destruct (ReduceLROnPlateau.step _ _ _). apply frozen_set_scheduler. }
  intros _. apply frozen_bind.
  { apply frozen_for_each. intros. apply frozen_eval_step. }
  intros _ s. rewrite accuracy_check_raises. repeat split.
Qed.

End TrainMore.

(** X17. [train] never gets past its first epoch. With [config.epoch] at
    least 1, whatever the network, the loaders and the collaborators do,
    [train] ends in an exception raised during the first call of
    [train_by_epoch]: the epoch counter has been incremented exactly once,
    and the classifier's weights, the configuration, the cycle index, the
    best accuracy, the files and the standard output are what they were
    (only the network's parameters, the learning rate and the scheduler can
    differ). With [config.epoch] = 0 it returns at once. *)
Theorem train_stops_in_first_epoch
    (P : Type) (net : P -> list tensor -> result (list tensor))
    (net_state_dict : P -> state_dict) (zero_grad : P -> P)
    (backward : tensor -> P -> result P) (opt_step : Q -> P -> P)
    (writable : string -> bool)
    (task_forward : state_dict -> tensor -> result tensor)
    (loss_module : tensor -> tensor -> result tensor)
    (uncertainty_score : tensor -> result tensor)
    (n : nat) (loaders : nat -> list tensor * list tensor) (s : Strategy.t P) :
  Strategy.train P net net_state_dict zero_grad backward opt_step writable
    task_forward loss_module uncertainty_score 0 loaders s = (Ok tt, s) /\
  exists e s',
    Strategy.train P net net_state_dict zero_grad backward opt_step writable
      task_forward loss_module uncertainty_score (S n) loaders s = (Raise e, s') /\
    Strategy.epoch s' = Strategy.epoch s + 1 /\
    Strategy.task s' = Strategy.task s /\
    Strategy.config s' = Strategy.config s /\
    Strategy.step_cnt s' = Strategy.step_cnt s /\
    Strategy.best_acc s' = Strategy.best_acc s /\
    Strategy.fs s' = Strategy.fs s /\
    Strategy.stdout s' = Strategy.stdout s.
Proof.
  split; [reflexivity|].
  cbn [Strategy.train].
  cbv [mbind Strategy.M_bind Strategy.bind Strategy.get Strategy.set_epoch].
  set (s1 := Strategy.mk _ _ _ _ _ _ _ _ _ _).
  set (tr := fst (loaders (Strategy.epoch s))).
  set (te := snd (loaders (Strategy.epoch s))).
  destruct (train_by_epoch_fails P net net_state_dict zero_grad backward opt_step
              writable task_forward loss_module uncertainty_score tr te s1)
    as ([e He] & _ & _).
  destruct (frozen_train_by_epoch P net net_state_dict zero_grad backward opt_step
              writable task_forward loss_module uncertainty_score tr te s1)
    as (H1 & H2 & H3 & H4 & H5 & H6 & H7).
  destruct (Strategy.train_by_epoch _ _ _ _ _ _ _ _ _ _ tr te s1) as [r s2].
  cbn [fst snd] in *. subst r. exists e, s2. split; [reflexivity|].
  repeat split; assumption.
Qed.

(** ** More on the batch loss: its value *)

Section BatchLossMore.

Lemma Qeq_bool_nonzero (D : Q) : ~ (D == 0)%Q -> Qeq_bool D 0 = false.
Proof.
  intros H. destruct (Qeq_bool D 0) eqn:E; [|reflexivity].
  apply Qeq_bool_eq in E. contradiction.
Qed.

(** The entries of [|u_score - distance / vae_distance|] for a non-zero
    [vae_distance]. *)
Lemma abs_diff_entries (D : Q) (us ds : list Q) :
  ~ (D == 0)%Q ->
  fl_abs <$> zip_with fl_sub (Fin <$> us)
               ((fun v => fl_div v (Fin D)) <$> (Fin <$> ds))
  = Fin <$> zip_with (fun u d =>
              match (u + - (d / D) ?= 0)%Q with
              | Lt => (- (u + - (d / D)))%Q
              | _ => (u + - (d / D))%Q
              end) us ds.
Proof.
  intros HD. revert ds. induction us as [|u us IH]; intros [|d ds];
    cbn [fmap list_fmap zip_with]; try reflexivity.
  rewrite IH. unfold fl_div at 1. rewrite (Qeq_bool_nonzero D HD). reflexivity.
Qed.

Lemma abs_diff_nonneg (D : Q) (us ds : list Q) :
  Forall (Qle 0)
    (zip_with (fun u d =>
       match (u + - (d / D) ?= 0)%Q with
       | Lt => (- (u + - (d / D)))%Q
       | _ => (u + - (d / D))%Q
       end) us ds).
Proof.
  revert ds. induction us as [|u us IH]; intros [|d ds]; cbn [zip_with];
    try constructor; [|apply IH].
  destruct (u + - (d / D) ?= 0)%Q eqn:E.
  - apply Qeq_alt in E. lra.
  - apply Qlt_alt in E. lra.
  - apply Qgt_alt in E. lra.
Qed.

Lemma abs_diff_zero (D : Q) (us ds : list Q) :
  length us = length ds ->
  Forall (fun x => x == 0)%Q
    (zip_with (fun u d =>
       match (u + - (d / D) ?= 0)%Q with
       | Lt => (- (u + - (d / D)))%Q
       | _ => (u + - (d / D))%Q
       end) us ds)
  <-> Forall2 (fun u d => u == d / D)%Q us ds.
Proof.
  revert ds. induction us as [|u us IH]; intros [|d ds] Hl;
    cbn [zip_with]; try discriminate.
  - split; constructor.
  - injection Hl as Hl. rewrite Forall_cons, Forall2_cons, (IH ds Hl).
    apply and_iff_compat_r.
    destruct (u + - (d / D) ?= 0)%Q eqn:E.
    + apply Qeq_alt in E. split; intros; lra.
    + apply Qlt_alt in E. split; intros; lra.
    + apply Qgt_alt in E. split; intros; lra.
Qed.

(** Dividing by a zero [vae_distance] leaves no number: each entry of
    [|u_score - distance / 0|] is infinite, or not a number where the
    distance is 0. *)
Lemma abs_diff_entries_zero (D : Q) (us ds : list Q) :
  (D == 0)%Q ->
  fl_abs <$> zip_with fl_sub (Fin <$> us)
               ((fun v => fl_div v (Fin D)) <$> (Fin <$> ds))
  = zip_with (fun (_ : Q) d => if Qeq_bool d 0 then NaN else PInf) us ds.
Proof.
  intros HD. revert ds. induction us as [|u us IH]; intros [|d ds];
    cbn [fmap list_fmap zip_with]; try reflexivity.
  rewrite IH. f_equal. unfold fl_div.
  rewrite (proj2 (Qeq_bool_iff D 0) HD).
  destruct (Qeq_bool d 0) eqn:Ed.
  - apply Qeq_bool_eq, Qeq_alt in Ed. rewrite Ed. reflexivity.
  - destruct (d ?= 0)%Q eqn:Ec; [|reflexivity|reflexivity].
    apply Qeq_alt, Qeq_bool_iff in Ec. congruence.
Qed.

Lemma foldl_fl_add_NaN (l : list fl) : foldl fl_add NaN l = NaN.
Proof. induction l as [|x l IH]; [reflexivity|]. cbn [foldl]. exact IH. Qed.

Lemma foldl_fl_add_PInf (l : list fl) :
  Forall (fun x => x = PInf) l -> foldl fl_add PInf l = PInf.
Proof.
  induction 1 as [|x l -> _ IH]; [reflexivity|]. cbn [foldl fl_add]. exact IH.
Qed.

Lemma fl_sum_PInf (l : list fl) :
  l <> [] -> Forall (fun x => x = PInf) l -> fl_sum l = PInf.
Proof.
  intros Hne H. destruct H as [|x l -> H]; [congruence|].
  unfold fl_sum. cbn [foldl fl_add]. apply foldl_fl_add_PInf, H.
Qed.

Lemma fl_sum_NaN (l : list fl) :
  Forall (fun x => x = PInf \/ x = NaN) l -> Exists (fun x => x = NaN) l ->
  fl_sum l = NaN.
Proof.
  unfold fl_sum. generalize (Fin 0) as acc. intros acc H. revert acc.
  induction H as [|x l Hx H IH]; intros acc He.
  - inversion He.
  - cbn [foldl]. apply Exists_cons in He as [->|He].
    + replace (fl_add acc NaN) with NaN by (destruct acc; reflexivity).
      apply foldl_fl_add_NaN.
    + apply IH, He.
Qed.

(** The loss of a batch from the second cycle on, for real scores and
    distances. *)
Lemma batch_loss_vec (k : nat) (D : Q) (x1 x2 : fl) (us ds : list Q)
    (g1 g2 gu gd : bool) :
  length us = length ds ->
  Strategy.batch_loss (S k) D (scalar x1 g1) (scalar x2 g2)
    (vec us gu) (vec ds gd)
  = Ok (scalar
          (fl_add (fl_add x1 x2)
             (fl_div
                (fl_sum (fl_abs <$> zip_with fl_sub (Fin <$> us)
                           ((fun x => fl_div x (Fin D)) <$> (Fin <$> ds))))
                (fl_of_nat (length us))))
          (g1 || g2 || (gu || gd))).
Proof.
  intros Hl. unfold Strategy.batch_loss.
  rewrite (binop_same_shape fl_add (scalar x1 g1) (scalar x2 g2))
    by reflexivity.
  cbn [mbind result_bind Nat.eqb negb].
  rewrite binop_same_shape by (cbn [vec tmap shape]; rewrite Hl; reflexivity).
  cbn [mbind result_bind]. unfold tmean. rewrite iadd_scalar.
  rewrite binop_same_shape by reflexivity.
  cbn [vec tmap scalar shape data requires_grad zip_with].
  rewrite length_fmap, length_zip_with, !length_fmap, <- Hl, Nat.min_id.
  reflexivity.
Qed.

End BatchLossMore.

(** X18. From the second cycle on, with a non-zero [vae_distance] and real
    score and distance vectors of one length [n >= 1], the batch loss is
    returned and is [recon_error + vq_loss + a], whatever the two scalars
    hold (a number, an infinity or not-a-number), where the added distance
    term [a] is not negative and not not-a-number, and is zero exactly when
    every score equals its distance divided by [vae_distance]. *)
Theorem batch_loss_distance_term (k : nat) (D : Q) (x1 x2 : fl)
    (us ds : list Q) (g1 g2 gu gd : bool) :
  ~ (D == 0)%Q -> us <> [] -> length us = length ds ->
  exists a : fl,
    Strategy.batch_loss (S k) D (scalar x1 g1) (scalar x2 g2)
      (vec us gu) (vec ds gd)
    = Ok (scalar (fl_add (fl_add x1 x2) a) (g1 || g2 || (gu || gd))) /\
    fl_nonneg a /\
    (fl_zero a <-> Forall2 (fun u d => u == d / D)%Q us ds).
Proof.
  intros HD Hne Hl.
  assert (Hn : 0 < length us) by (destruct us; [congruence | cbn; lia]).
  rewrite (batch_loss_vec k D x1 x2 us ds g1 g2 gu gd Hl).
  rewrite (abs_diff_entries D us ds HD), fl_sum_Fin.
  unfold fl_of_nat, fl_div. rewrite (of_nat_nonzero _ Hn).
  eexists. split; [reflexivity|].
  pose proof (of_nat_pos _ Hn) as Hpos.
  pose proof (abs_diff_nonneg D us ds) as Hnn.
  pose proof (foldl_Qplus_nonneg _ 0 Hnn (Qle_refl 0)) as Hs.
  split.
  - cbn [fl_nonneg]. apply Qle_shift_div_l; [exact Hpos | lra].
  - rewrite <- (abs_diff_zero D us ds Hl), <- (foldl_Qplus_zero _ Hnn).
    set (S := foldl Qplus 0%Q _) in *. set (N := inject_Z _) in *.
    unfold fl_zero. split.
    + intros (q & [= <-] & E).
      assert (S == (S / N) * N)%Q as -> by (field; lra). rewrite E. ring.
    + intros E. eexists. split; [reflexivity|]. rewrite E. field. lra.
Qed.

(** Scores (1, 3), distances (2, 2) and [vae_distance] 2, with an infinite
    reconstruction error: the term is (0 + 2) / 2. *)
Lemma batch_loss_distance_term_witness :
  exists a : fl,
    Strategy.batch_loss 1 2 (scalar PInf true) (scalar (Fin (1 # 2)) true)
      (vec [1; 3]%Q false) (vec [2; 2]%Q true)
    = Ok (scalar (fl_add (fl_add PInf (Fin (1 # 2))) a)
            (true || true || (false || true))) /\
    fl_nonneg a /\
    (fl_zero a <-> Forall2 (fun u d => u == d / 2)%Q [1; 3]%Q [2; 2]%Q).
Proof.
  apply (batch_loss_distance_term 0 2 PInf (Fin (1 # 2)) [1; 3]%Q [2; 2]%Q
           true true false true).
  - intros H. discriminate H.
  - discriminate.
  - reflexivity.
Defined.

(** X19. A [vae_distance] of 0 raises nothing: from the second cycle on,
    on real inputs of one length [n >= 1], the batch loss is returned and is
    not a number of any kind, namely not-a-number when some distance is 0 and
    plus infinity otherwise. *)
Theorem batch_loss_zero_distance (k : nat) (D r v : Q) (us ds : list Q)
    (g1 g2 gu gd : bool) :
  (D == 0)%Q -> us <> [] -> length us = length ds ->
  Strategy.batch_loss (S k) D (scalar (Fin r) g1) (scalar (Fin v) g2)
    (vec us gu) (vec ds gd)
  = Ok (scalar (if existsb (fun d => Qeq_bool d 0) ds then NaN else PInf)
          (g1 || g2 || (gu || gd))).
Proof.
  intros HD Hne Hl.
  assert (Hn : 0 < length us) by (destruct us; [congruence | cbn; lia]).
  rewrite (batch_loss_vec k D (Fin r) (Fin v) us ds g1 g2 gu gd Hl).
  rewrite (abs_diff_entries_zero D us ds HD).
  do 2 f_equal.
  set (l := zip_with _ us ds).
  assert (Hall : Forall (fun x => x = PInf \/ x = NaN) l).
  { subst l. clear. revert ds. induction us as [|u us IH]; intros [|d ds];
      cbn [zip_with]; try constructor; [|apply IH].
    destruct (Qeq_bool d 0); auto. }
  destruct (existsb (fun d => Qeq_bool d 0) ds) eqn:Ex.
  - rewrite (fl_sum_NaN l Hall); [reflexivity|].
    subst l. clear -Ex Hl. revert ds Ex Hl.
    induction us as [|u us IH]; intros [|d ds] Ex Hl; try discriminate.
    cbn [zip_with existsb] in *. injection Hl as Hl.
    destruct (Qeq_bool d 0); [left; reflexivity|].
    right. apply IH; assumption.
  - rewrite (fl_sum_PInf l).
    + unfold fl_of_nat, fl_div.
      destruct (inject_Z (Z.of_nat (length us)) ?= 0)%Q eqn:Ec; try reflexivity.
      pose proof (of_nat_pos _ Hn) as Hpos. apply Qlt_alt in Ec. lra.
    + subst l. destruct us, ds; try discriminate; congruence.
    + subst l. clear -Ex. revert ds Ex.
      induction us as [|u us IH]; intros [|d ds] Ex; cbn [zip_with];
        try constructor.
      * cbn [existsb] in Ex. apply orb_false_elim in Ex as [-> _]. reflexivity.
      * cbn [existsb] in Ex. apply orb_false_elim in Ex as [_ Ex]. apply IH, Ex.
Qed.

(** Scores (1, 3), distances (2, 0) and [vae_distance] 0. *)
Lemma batch_loss_zero_distance_witness :
  Strategy.batch_loss 1 0 (scalar (Fin 1) true) (scalar (Fin (1 # 2)) true)
    (vec [1; 3]%Q false) (vec [2; 0]%Q true)
  = Ok (scalar NaN true).
Proof.
  apply (batch_loss_zero_distance 0 0 1 (1 # 2) [1; 3]%Q [2; 0]%Q
           true true false true).
  - reflexivity.
  - discriminate.
  - reflexivity.
Defined.

(** ** More on the scheduler: the learning rate over a run *)

Section SchedulerMore.

Import ReduceLROnPlateau.

Lemma step_keeps_factor (s : t) (lr : Q) (m : fl) :
  factor (step s lr m).1 = factor s /\ min_lr (step s lr m).1 = min_lr s.
Proof.
  unfold step, in_cooldown, set_bad, set_counter, set_best.
  destruct (is_better s m);
    cbn [cooldown_counter num_bad_epochs patience factor threshold cooldown
         min_lr eps best];
    destruct (0 <? cooldown_counter s);
    cbn [cooldown_counter num_bad_epochs patience factor threshold cooldown
         min_lr eps best];
    destruct (patience s <? _); split; reflexivity.
Qed.

Lemma reduce_lr_cases (s : t) (lr : Q) :
  factor s = (8 # 10)%Q -> min_lr s = 0%Q -> (0 < lr)%Q ->
  _reduce_lr s lr = lr \/ (_reduce_lr s lr == lr * (8 # 10))%Q.
Proof.
  intros Hf Hm Hlr. unfold _reduce_lr. rewrite Hf, Hm.
  destruct (Qlt_le_dec _ _); [right|left; reflexivity].
  apply Q.max_l. lra.
Qed.

Lemma step_lr_cases (s : t) (lr : Q) (m : fl) :
  factor s = (8 # 10)%Q -> min_lr s = 0%Q -> (0 < lr)%Q ->
  (step s lr m).2 = lr \/ ((step s lr m).2 == lr * (8 # 10))%Q.
Proof.
  intros Hf Hm Hlr.
  unfold step, in_cooldown, set_bad, set_counter, set_best.
  destruct (is_better s m);
    cbn [cooldown_counter num_bad_epochs patience factor threshold cooldown
         min_lr eps best];
    destruct (0 <? cooldown_counter s);
    cbn [cooldown_counter num_bad_epochs patience factor threshold cooldown
         min_lr eps best];
    destruct (patience s <? _); cbn [snd]; try (left; reflexivity);
    apply reduce_lr_cases; assumption.
Qed.

Lemma pow_succ (j : nat) :
  ((8 # 10) ^ Z.of_nat (S j) == (8 # 10) * (8 # 10) ^ Z.of_nat j)%Q.
Proof.
  rewrite Nat2Z.inj_succ, <- Z.add_1_l.
  rewrite Qpower_plus by (intros H; discriminate H). reflexivity.
Qed.

Lemma steps_lr (ms : list fl) :
  forall (s : t) (lr : Q),
    factor s = (8 # 10)%Q -> min_lr s = 0%Q -> (0 < lr)%Q ->
    exists j, j <= length ms /\
      ((steps s lr ms).2 == lr * (8 # 10) ^ Z.of_nat j)%Q /\
      (0 < (steps s lr ms).2)%Q /\ ((steps s lr ms).2 <= lr)%Q.
Proof.
  induction ms as [|m ms IH]; intros s lr Hf Hm Hlr.
  - exists 0. unfold steps. cbn [foldl snd length].
    change ((8 # 10) ^ Z.of_nat 0)%Q with 1%Q.
    split; [lia|]. split; [ring|]. split; lra.
  - rewrite steps_cons.
    destruct (step_keeps_factor s lr m) as [Hf1 Hm1].
    rewrite Hf in Hf1. rewrite Hm in Hm1.
    destruct (step_lr_cases s lr m Hf Hm Hlr) as [E|E].
    + rewrite E. destruct (IH _ lr Hf1 Hm1 Hlr) as (j & Hj & H1 & H2 & H3).
      exists j. cbn [length]. repeat split; try assumption. lia.
    + assert (Hlr1 : (0 < (step s lr m).2)%Q) by lra.
      destruct (IH _ _ Hf1 Hm1 Hlr1) as (j & Hj & H1 & H2 & H3).
      exists (S j). cbn [length]. split; [lia|]. split; [|split].
      * rewrite H1, E, pow_succ. ring.
      * exact H2.
      * lra.
Qed.

End SchedulerMore.

(** X20. Under the scheduler the constructor builds, a positive learning
    rate stays positive and never increases, whatever losses the epochs
    report (numbers, infinities or not-a-number): after any sequence of
    [step] calls it is the initial rate times 0.8 to the power of the number
    of reductions made, which is at most the number of calls. *)
Theorem scheduler_lr_decays (lr : Q) (ms : list fl) :
  (0 < lr)%Q ->
  exists sch j,
    Strategy.new_scheduler = Ok sch /\
    j <= length ms /\
    ((ReduceLROnPlateau.steps sch lr ms).2 == lr * (8 # 10) ^ Z.of_nat j)%Q /\
    (0 < (ReduceLROnPlateau.steps sch lr ms).2)%Q /\
    ((ReduceLROnPlateau.steps sch lr ms).2 <= lr)%Q.
Proof.
  intros Hlr.
  destruct (steps_lr ms
              (ReduceLROnPlateau.mk (8 # 10) 10 (1 # 10000) 8 0 (1 # 100000000)
                 PInf 0 0) lr eq_refl eq_refl Hlr) as (j & H).
  eexists _, j. split; [reflexivity|]. exact H.
Qed.

(** Rate 1/1000 and the losses 1, nan, 2. *)
Lemma scheduler_lr_decays_witness :
  exists sch j,
    Strategy.new_scheduler = Ok sch /\
    j <= length [Fin 1; NaN; Fin 2] /\
    ((ReduceLROnPlateau.steps sch (1 # 1000) [Fin 1; NaN; Fin 2]).2
     == (1 # 1000) * (8 # 10) ^ Z.of_nat j)%Q /\
    (0 < (ReduceLROnPlateau.steps sch (1 # 1000) [Fin 1; NaN; Fin 2]).2)%Q /\
    ((ReduceLROnPlateau.steps sch (1 # 1000) [Fin 1; NaN; Fin 2]).2
     <= 1 # 1000)%Q.
Proof.
  apply (scheduler_lr_decays (1 # 1000) [Fin 1; NaN; Fin 2]). reflexivity.
Defined.

(** ** The entry point *)

(** X21. The script cannot complete a cycle. Whatever the imported
    modules, [Config], [Query], the sampling, the classifier's training and
    the statements of [Strategy.__init__] before line 62 do, the script does
    what the following does: the imports, [Config()], [Query(config, 50000)],
    then nothing more when [max_cycle] is 0, and otherwise the statements of
    the first [Strategy(config, 0)] up to line 61 followed by [TypeError]. So
    when these statements return, the script ends in [TypeError] at line 62 of
    the first construction; [strategy.run()], the sampling, [Task] and both
    "step" lines are never reached, and the files and the output are what
    those statements left. *)
Theorem main_stops_at_first_strategy
    (W : Type) (imports : Main.M W unit) (new_config : Main.M W Config.t)
    (max_cycle budge_size : Config.t -> nat)
    (new_query : Config.t -> Z -> Main.M W unit) (sampling : Main.M W unit)
    (task_run : Config.t -> nat -> Main.M W Q) (format_float : Q -> string)
    (strategy_prelude : Config.t -> nat -> Main.M W state_dict)
    (strategy_epilogue : Config.t -> nat -> Main.M W unit)
    (rng : initializer) (fl_exp : fl -> fl) (randn_like : tensor -> tensor)
    (net_state_dict : VAE.t -> state_dict) (writable : string -> bool)
    (zero_grad : VAE.t -> VAE.t)
    (backward : tensor -> VAE.t -> result VAE.t) (opt_step : Q -> VAE.t -> VAE.t)
    (task_forward : state_dict -> tensor -> result tensor)
    (loss_module : tensor -> tensor -> result tensor)
    (uncertainty_score : tensor -> result tensor)
    (loaders : nat -> list tensor * list tensor) (st : Main.t W) :
  Main.main W imports new_config max_cycle budge_size new_query sampling
    task_run format_float strategy_prelude strategy_epilogue rng fl_exp
    randn_like net_state_dict writable zero_grad backward opt_step
    task_forward loss_module uncertainty_score loaders st
  = Main.bind W imports (fun _ =>
      Main.bind W new_config (fun config =>
        Main.bind W (new_query config 50000%Z) (fun _ =>
          match max_cycle config with
          | 0 => Main.ret W tt
          | S _ =>
              Main.bind W (strategy_prelude config 0) (fun _ =>
                Main.lift W (Raise TypeError : result unit))
          end))) st.
Proof.
  unfold Main.main, mbind, Main.M_bind, Main.bind.
  destruct (imports st) as [[[]|e] st1]; [|reflexivity].
  destruct (new_config st1) as [[config|e] st2]; [|reflexivity].
  destruct (new_query config 50000%Z st2) as [[[]|e] st3]; [|reflexivity].
  destruct (max_cycle config) as [|n]; [reflexivity|].
  cbn [seq Main.loop].
  unfold Main.cycle, Main.new_strategy, mbind, Main.M_bind, Main.bind.
  destruct (strategy_prelude config 0 st3) as [[task0|e] st4]; [|reflexivity].
  change (Strategy.init VAE.t (VAE.new rng) task0 (Main.files st4) config 0)
    with (Raise TypeError : result (Strategy.t VAE.t), @nil string).
  cbv beta iota. unfold Main.lift. rewrite app_nil_r.
  destruct st4; reflexivity.
Qed.
